(** * Astronomy starter kit: sample-data generators and environment runner

    A shallow embedding of

    - [Scripts/foundation_dashboard.py], method [_generate_data];
    - [Scripts/visual_foundations.py], methods [create_sample_data] and
      [learning_dashboard_data];
    - [Scripts/test_foundation.py], the result tracker, the test groups,
      [run_all_tests] and [main].

    Numbers.  The generators compute with NumPy [float64] arrays.  A
    [float64] is modelled as an exact real number or one of the three IEEE
    special values (plus infinity, minus infinity, not-a-number): rounding
    is abstracted away, the special values and the rules that create and
    propagate them (division by zero, infinity over infinity) are kept.
    The only zero the generators ever divide by is the first sample of
    [linspace], which is [+0.0]; the model therefore has one, positive,
    zero.

    Effects.  The generators draw from NumPy's global random source and may
    raise; they are functions in a state-and-error monad over the random
    source. *)

From Stdlib Require Import Reals Lra Lia ZArith String List Bool Arith.
Import ListNotations.

(* ===================================================================== *)
(** ** Binary64 values, rounding abstracted *)
(* ===================================================================== *)

Module Float64.

Local Open Scope R_scope.

Inductive float64 : Type :=
| Fin (r : R)
| PInf
| NInf
| NaN.

(** Sign of a real, as a three-way comparison with zero. *)
Definition Rsgn (r : R) : comparison :=
  match total_order_T r 0 with
  | inleft (left _) => Lt
  | inleft (right _) => Eq
  | inright _ => Gt
  end.

(** The infinity of a given sign; a zero sign stands for an invalid
    operation ([0 * inf], [0 / 0]). *)
Definition inf_of (c : comparison) : float64 :=
  match c with
  | Lt => NInf
  | Eq => NaN
  | Gt => PInf
  end.

Definition is_finite (a : float64) : bool :=
  match a with
  | Fin _ => true
  | _ => false
  end.

Definition is_nan (a : float64) : bool :=
  match a with
  | NaN => true
  | _ => false
  end.

Definition fneg (a : float64) : float64 :=
  match a with
  | Fin r => Fin (- r)
  | PInf => NInf
  | NInf => PInf
  | NaN => NaN
  end.

Definition fadd (a b : float64) : float64 :=
  match a, b with
  | NaN, _ | _, NaN => NaN
  | Fin x, Fin y => Fin (x + y)
  | PInf, NInf | NInf, PInf => NaN
  | PInf, _ | _, PInf => PInf
  | NInf, _ | _, NInf => NInf
  end.

Definition fsub (a b : float64) : float64 :=
  match a, b with
  | NaN, _ | _, NaN => NaN
  | Fin x, Fin y => Fin (x - y)
  | PInf, PInf | NInf, NInf => NaN
  | PInf, _ | _, NInf => PInf
  | NInf, _ | _, PInf => NInf
  end.

Definition fmul (a b : float64) : float64 :=
  match a, b with
  | NaN, _ | _, NaN => NaN
  | Fin x, Fin y => Fin (x * y)
  | Fin x, PInf | PInf, Fin x => inf_of (Rsgn x)
  | Fin x, NInf | NInf, Fin x => inf_of (CompOpp (Rsgn x))
  | PInf, PInf | NInf, NInf => PInf
  | PInf, NInf | NInf, PInf => NInf
  end.

(** Division.  A finite non-zero value over zero is a signed infinity
    (the IEEE divide-by-zero exception), zero over zero is not-a-number. *)
Definition fdiv (a b : float64) : float64 :=
  match a, b with
  | NaN, _ | _, NaN => NaN
  | Fin x, Fin y =>
      if Req_dec_T y 0 then inf_of (Rsgn x) else Fin (x / y)
  | Fin _, PInf | Fin _, NInf => Fin 0
  | PInf, Fin y => if Rlt_dec y 0 then NInf else PInf
  | NInf, Fin y => if Rlt_dec y 0 then PInf else NInf
  | PInf, PInf | PInf, NInf | NInf, PInf | NInf, NInf => NaN
  end.

Definition fabs (a : float64) : float64 :=
  match a with
  | Fin r => Fin (Rabs r)
  | PInf | NInf => PInf
  | NaN => NaN
  end.

Definition fsin (a : float64) : float64 :=
  match a with
  | Fin r => Fin (sin r)
  | _ => NaN
  end.

Definition fexp (a : float64) : float64 :=
  match a with
  | Fin r => Fin (exp r)
  | PInf => PInf
  | NInf => Fin 0
  | NaN => NaN
  end.

(** [x ** k] for an integer exponent: repeated multiplication, and the
    reciprocal of it for a negative exponent, so that [0.0 ** -5] is plus
    infinity as in C's [pow]. *)
Fixpoint fpow_nat (a : float64) (k : nat) : float64 :=
  match k with
  | O => Fin 1
  | S k' => fmul a (fpow_nat a k')
  end.

Definition fpow (a : float64) (k : Z) : float64 :=
  if (k <? 0)%Z then fdiv (Fin 1) (fpow_nat a (Z.to_nat (- k)))
  else fpow_nat a (Z.to_nat k).

(** Comparisons; every comparison with not-a-number is false. *)
Definition flt (a b : float64) : bool :=
  match a, b with
  | NaN, _ | _, NaN => false
  | Fin x, Fin y => if Rlt_dec x y then true else false
  | NInf, Fin _ | NInf, PInf | Fin _, PInf => true
  | _, _ => false
  end.

Definition fgt (a b : float64) : bool := flt b a.

Definition feq (a b : float64) : bool :=
  match a, b with
  | Fin x, Fin y => if Req_dec_T x y then true else false
  | PInf, PInf | NInf, NInf => true
  | _, _ => false
  end.

(** [np.maximum]: the larger operand, not-a-number if either is. *)
Definition fmax (a b : float64) : float64 :=
  match a, b with
  | NaN, _ | _, NaN => NaN
  | _, _ => if flt a b then b else a
  end.

Definition of_Z (z : Z) : float64 := Fin (IZR z).
Definition of_nat (n : nat) : float64 := Fin (INR n).

End Float64.

(* ===================================================================== *)
(** ** The NumPy operations the generators call *)
(* ===================================================================== *)

Module Numpy.

Import Float64.
Local Open Scope R_scope.

Definition ndarray : Type := list float64.
Definition mask : Type := list bool.

Inductive exn : Type :=
| ValueError
| IndexError.

Inductive result (A : Type) : Type :=
| Ok (a : A)
| Raise (e : exn).

Arguments Ok {A} a.
Arguments Raise {A} e.

(** The global random source: a tape of uniform draws in [[0, 1)], a tape
    of standard normal draws, and the number of draws consumed so far. *)
Record RandomState : Type := mkRandomState {
  uniform : nat -> R;
  normal : nat -> R;
  drawn : nat
}.

Definition advance (n : nat) (s : RandomState) : RandomState :=
  mkRandomState (uniform s) (normal s) (drawn s + n).

(** Computations that read the random source and may raise. *)
Definition M (A : Type) : Type := RandomState -> result (A * RandomState).

Definition ret {A : Type} (a : A) : M A := fun s => Ok (a, s).

Definition raise {A : Type} (e : exn) : M A := fun _ => Raise e.

Definition bind {A B : Type} (c : M A) (k : A -> M B) : M B :=
  fun s =>
    match c s with
    | Ok (a, s') => k a s'
    | Raise e => Raise e
    end.

Declare Scope np_scope.
Delimit Scope np_scope with np.
Notation "x <- c ;; k" := (bind c (fun x => k))
  (at level 61, c at next level, right associativity) : np_scope.
Local Open Scope np_scope.

Fixpoint zip_with {A B C : Type} (f : A -> B -> C)
  (a : list A) (b : list B) : list C :=
  match a, b with
  | v :: a', w :: b' => f v w :: zip_with f a' b'
  | _, _ => []
  end.

(** Binary operation on two arrays under NumPy's broadcasting rule for
    one-dimensional operands: equal shapes combine element by element, a
    one-element operand is stretched, anything else is a [ValueError]. *)
Definition broadcast2 {A B C : Type} (f : A -> B -> C)
  (a : list A) (b : list B) : M (list C) :=
  if Nat.eqb (length a) (length b) then ret (zip_with f a b)
  else
    match a, b with
    | [v], _ => ret (map (f v) b)
    | _, [w] => ret (map (fun v => f v w) a)
    | _, _ => raise ValueError
    end.

(** In-place operation [y op= b]: the result keeps the shape of [y]. *)
Definition inplace (f : float64 -> float64 -> float64)
  (y b : ndarray) : M ndarray :=
  if Nat.eqb (length y) (length b) then ret (zip_with f y b)
  else
    match b with
    | [w] => ret (map (fun v => f v w) y)
    | _ => raise ValueError
    end.

(** [y[m] -= v] with a boolean index array and a scalar. *)
Definition masked_isub (y : ndarray) (m : mask) (v : float64) : M ndarray :=
  if Nat.eqb (length y) (length m)
  then ret (zip_with (fun yi (b : bool) => if b then fsub yi v else yi) y m)
  else raise IndexError.

Definition arange (num : nat) : ndarray := map of_nat (seq 0 num).

Definition set_last (y : ndarray) (v : float64) : ndarray :=
  match y with
  | [] => []
  | _ :: _ => removelast y ++ [v]
  end.

(** [np.linspace(start, stop, num)] with the default [endpoint=True], as
    NumPy computes it: a negative [num] is a [ValueError]; the samples are
    [arange(0, num) * step + start] with [step = (stop - start) / (num - 1)]
    (or, when there is no step, [arange(0, num) * (stop - start) + start]);
    and for [num > 1] the last sample is then overwritten with [stop].
    The samples are the exact products and quotients; those of binary64
    are within a few units in the last place of them (about [1e-15] on
    the interval from 0 to 10), so a comparison of a sample with a
    threshold is the program's only for samples clear of the threshold
    (see [guard]). *)
Definition linspace (start stop : float64) (num : Z) : M ndarray :=
  if (num <? 0)%Z then raise ValueError
  else
    let div := (num - 1)%Z in
    let delta := fsub stop start in
    let y := arange (Z.to_nat num) in
    let y :=
      if (0 <? div)%Z then
        let step := fdiv delta (of_Z div) in
        if feq step (Fin 0)
        then map (fun v => fmul (fdiv v (of_Z div)) delta) y
        else map (fun v => fmul v step) y
      else map (fun v => fmul v delta) y in
    let y := map (fun v => fadd v start) y in
    ret (if (1 <? num)%Z then set_last y stop else y).

Definition ones (n : Z) : M ndarray :=
  if (n <? 0)%Z then raise ValueError
  else ret (repeat (Fin 1) (Z.to_nat n)).

Definition draws (tape : nat -> R) (from n : nat) : ndarray :=
  map (fun k => Fin (tape k)) (seq from n).

(** [np.random.random(n)] *)
Definition random (n : Z) : M ndarray :=
  fun s =>
    if (n <? 0)%Z then Raise ValueError
    else Ok (draws (uniform s) (drawn s) (Z.to_nat n),
             advance (Z.to_nat n) s).

(** [np.random.randn(n)] *)
Definition randn (n : Z) : M ndarray :=
  fun s =>
    if (n <? 0)%Z then Raise ValueError
    else Ok (draws (normal s) (drawn s) (Z.to_nat n),
             advance (Z.to_nat n) s).

Fixpoint cumsum_from (acc : float64) (l : ndarray) : ndarray :=
  match l with
  | [] => []
  | v :: l' => let acc' := fadd acc v in acc' :: cumsum_from acc' l'
  end.

Definition cumsum (l : ndarray) : ndarray :=
  match l with
  | [] => []
  | v :: l' => v :: cumsum_from v l'
  end.

(** [np.max]: a reduction with no identity, so an empty array raises. *)
Definition amax (l : ndarray) : M float64 :=
  match l with
  | [] => raise ValueError
  | v :: l' => ret (fold_left fmax l' v)
  end.

(** Scalar-with-array operations, named after the side the scalar is on. *)
Definition s_add (c : float64) (a : ndarray) : ndarray := map (fadd c) a.
Definition s_mul (c : float64) (a : ndarray) : ndarray := map (fmul c) a.
Definition mul_s (a : ndarray) (c : float64) : ndarray :=
  map (fun v => fmul v c) a.
Definition add_s (a : ndarray) (c : float64) : ndarray :=
  map (fun v => fadd v c) a.
Definition s_div (c : float64) (a : ndarray) : ndarray := map (fdiv c) a.
Definition sub_s (a : ndarray) (c : float64) : ndarray :=
  map (fun v => fsub v c) a.
Definition div_s (a : ndarray) (c : float64) : ndarray :=
  map (fun v => fdiv v c) a.
Definition pow_s (a : ndarray) (k : Z) : ndarray :=
  map (fun v => fpow v k) a.
Definition lt_s (a : ndarray) (c : float64) : mask :=
  map (fun v => flt v c) a.
Definition gt_s (a : ndarray) (c : float64) : mask :=
  map (fun v => fgt v c) a.

Definition np_sin (a : ndarray) : ndarray := map fsin a.
Definition np_exp (a : ndarray) : ndarray := map fexp a.
Definition np_abs (a : ndarray) : ndarray := map fabs a.
Definition np_neg (a : ndarray) : ndarray := map fneg a.

Definition add (a b : ndarray) : M ndarray := broadcast2 fadd a b.
Definition div (a b : ndarray) : M ndarray := broadcast2 fdiv a b.
Definition mask_and (a b : mask) : M mask := broadcast2 andb a b.
Definition iadd (y b : ndarray) : M ndarray := inplace fadd y b.
Definition isub (y b : ndarray) : M ndarray := inplace fsub y b.

(** A [for] loop that updates one variable: the body is run on every
    element of the list in order, threading the variable through. *)
Fixpoint for_each {A V : Type} (l : list A) (body : A -> V -> M V)
  (v : V) : M V :=
  match l with
  | [] => ret v
  | a :: l' => v' <- body a v ;; for_each l' body v'
  end.

End Numpy.

(* ===================================================================== *)
(** ** The NumPy reductions of the statistics panel *)
(* ===================================================================== *)

Module NumpyStats.

Import Float64 Numpy.
Local Open Scope R_scope.

Definition fsqrt (a : float64) : float64 :=
  match a with
  | Fin r => if Rlt_dec r 0 then NaN else Fin (sqrt r)
  | PInf => PInf
  | NInf | NaN => NaN
  end.

(** [np.minimum]: the smaller operand, not-a-number if either is. *)
Definition fmin (a b : float64) : float64 :=
  match a, b with
  | NaN, _ | _, NaN => NaN
  | _, _ => if flt b a then b else a
  end.

(** [np.min]: like [np.max], an empty array raises. *)
Definition amin (l : ndarray) : M float64 :=
  match l with
  | [] => raise ValueError
  | v :: l' => ret (fold_left fmin l' v)
  end.

Definition asum (l : ndarray) : float64 := fold_left fadd l (Fin 0).

(** [np.mean]: the sum over the number of entries; for an empty array
    this is [0 / 0], not-a-number, and nothing is raised. *)
Definition mean (l : ndarray) : float64 :=
  fdiv (asum l) (of_nat (length l)).

(** [np.std] with the default [ddof=0]: the root of the mean of the
    squared deviations from the mean. *)
Definition std (l : ndarray) : float64 :=
  let x := sub_s l (mean l) in
  fsqrt (mean (zip_with fmul x x)).

Fixpoint insert (v : float64) (l : ndarray) : ndarray :=
  match l with
  | [] => [v]
  | w :: l' => if flt w v then w :: insert v l' else v :: l
  end.

Definition sort (l : ndarray) : ndarray := fold_right insert [] l.

(** The Python slice [l[lo:hi]] for [0 <= lo <= hi]. *)
Definition slice {A : Type} (lo hi : nat) (l : list A) : list A :=
  firstn (hi - lo) (skipn lo l).

(** [np.median]: not-a-number if an entry is; otherwise the mean of the
    middle entry, or of the two middle entries, of the sorted array.  On an
    empty array it is the mean of an empty slice. *)
Definition median (l : ndarray) : float64 :=
  match l with
  | [] => mean []
  | _ :: _ =>
      if existsb is_nan l then NaN
      else
        let part := sort l in
        let index := (length part / 2)%nat in
        if Nat.odd (length part)
        then mean (slice index (index + 1) part)
        else mean (slice (index - 1) (index + 1) part)
  end.

End NumpyStats.

(* ===================================================================== *)
(** ** [foundation_dashboard.py]: the dashboard's generator *)
(* ===================================================================== *)

Module Dashboard.

Import Float64 Numpy.
Local Open Scope R_scope.
Local Open Scope np_scope.
Local Open Scope string_scope.

Definition _generate_data (data_type : string) (n_points : Z)
  (noise_level : float64) : M (ndarray * ndarray) :=
  x <- linspace (Fin 0) (Fin 10) n_points ;;
  y <-
    (if data_type =? "sine" then
       r <- random n_points ;;
       add (np_sin x) (s_mul noise_level r)
     else if data_type =? "exponential" then
       r <- random n_points ;;
       add (np_exp (div_s (np_neg x) (Fin 3)))
           (s_mul (fmul noise_level (Fin 0.5)) r)
     else if data_type =? "spectrum" then
       r <- random n_points ;;
       y <- add (s_add (Fin 1) (s_mul (Fin 0.1) (np_sin (s_mul (Fin 5) x))))
                (s_mul (fmul noise_level (Fin 0.5)) r) ;;
       let absorption_centers := [Fin 2.5; Fin 5.0; Fin 7.5] in
       let absorption_depths := [Fin 0.25; Fin 0.15; Fin 0.20] in
       for_each (combine absorption_centers absorption_depths)
         (fun cd y =>
            let '(center, depth) := cd in
            isub y (s_mul depth
                      (np_exp (div_s (np_neg (pow_s (sub_s x center) 2))
                                     (Fin 0.15)))))
         y
     else if data_type =? "lightcurve" then
       let trend := s_mul (Fin (- 0.01)) x in
       let periodic :=
         s_mul (Fin 0.08)
               (np_sin (div_s (s_mul (fmul (Fin 2) (Fin PI)) x) (Fin 2.5))) in
       y <- add (s_add (Fin 1) trend) periodic ;;
       r <- random n_points ;;
       add y (s_mul (fmul noise_level (Fin 0.2)) r)
     else if data_type =? "transit" then
       y <- ones n_points ;;
       let transit_center := Fin 5.0 in
       let transit_duration := Fin 1.5 in
       let transit_depth := Fin 0.015 in
       let in_transit :=
         lt_s (np_abs (sub_s x transit_center))
              (fdiv transit_duration (Fin 2)) in
       y <- masked_isub y in_transit transit_depth ;;
       ingress <-
         mask_and
           (gt_s x (fsub (fsub transit_center (fdiv transit_duration (Fin 2)))
                         (Fin 0.3)))
           (lt_s x (fadd (fsub transit_center (fdiv transit_duration (Fin 2)))
                         (Fin 0.1))) ;;
       egress <-
         mask_and
           (gt_s x (fsub (fadd transit_center (fdiv transit_duration (Fin 2)))
                         (Fin 0.1)))
           (lt_s x (fadd (fadd transit_center (fdiv transit_duration (Fin 2)))
                         (Fin 0.3))) ;;
       y <- masked_isub y ingress (fmul transit_depth (Fin 0.5)) ;;
       y <- masked_isub y egress (fmul transit_depth (Fin 0.5)) ;;
       r <- random n_points ;;
       iadd y (s_mul (fmul noise_level (Fin 0.1)) r)
     else
       g <- randn n_points ;;
       let y := cumsum (mul_s g (Fin 0.3)) in
       r <- random n_points ;;
       iadd y (s_mul noise_level r)) ;;
  ret (x, y).

(** *** The callback [update_dashboard] *)

(** An entry of [DATA_TYPE_INFO].  The icon and the two paragraphs of
    prose are display text and are left out. *)
Record DataTypeInfo : Type := mkDataTypeInfo {
  title : string;
  xlabel : string;
  ylabel : string
}.

(** [DATA_TYPE_INFO['sine']] *)
Definition sine_info : DataTypeInfo :=
  mkDataTypeInfo "Sine Wave" "Phase / Time" "Amplitude".

Definition DATA_TYPE_INFO : list (string * DataTypeInfo) :=
  [("sine", sine_info);
   ("exponential", mkDataTypeInfo "Exponential Decay" "Time" "Intensity");
   ("spectrum",
    mkDataTypeInfo "Astronomical Spectrum" "Wavelength (arbitrary units)"
      "Relative Flux");
   ("lightcurve",
    mkDataTypeInfo "Stellar Light Curve" "Time (days)" "Relative Brightness");
   ("transit", mkDataTypeInfo "Exoplanet Transit" "Time (hours)" "Relative Flux");
   ("random", mkDataTypeInfo "Random Walk" "Step Number" "Cumulative Value")].

(** [DATA_TYPE_INFO.get(key, default)] *)
Fixpoint info_get (d : list (string * DataTypeInfo)) (key : string)
  (default : DataTypeInfo) : DataTypeInfo :=
  match d with
  | [] => default
  | (k, v) :: d' => if k =? key then v else info_get d' key default
  end.

Record Statistics : Type := mkStatistics {
  mean_val : float64;
  std_val : float64;
  median_val : float64;
  min_val : float64;
  max_val : float64;
  range_val : float64
}.

(** What the callback hands to the page: the data of the main plot and
    of the histogram, the entry that labels them and heads the education
    panel, and the statistics panel.  Styling is left out. *)
Record Panels : Type := mkPanels {
  main_x : ndarray;
  main_y : ndarray;
  hist_x : ndarray;
  info : DataTypeInfo;
  stats : Statistics;
  points : Z;
  noise : float64
}.

Definition update_dashboard (data_type : string) (n_points : Z)
  (noise_level : float64) : M Panels :=
  xy <- _generate_data data_type n_points noise_level ;;
  let '(x, y) := xy in
  let info := info_get DATA_TYPE_INFO data_type sine_info in
  let mean_val := NumpyStats.mean y in
  let std_val := NumpyStats.std y in
  min_val <- NumpyStats.amin y ;;
  max_val <- amax y ;;
  let range_val := fsub max_val min_val in
  let median_val := NumpyStats.median y in
  ret (mkPanels x y y info
         (mkStatistics mean_val std_val median_val min_val max_val range_val)
         n_points noise_level).

(** The values offered by the data-type dropdown of [_setup_layout]. *)
Definition data_type_options : list string :=
  ["sine"; "exponential"; "spectrum"; "lightcurve"; "transit"; "random"].

End Dashboard.

(* ===================================================================== *)
(** ** [visual_foundations.py]: the plotting library's generator *)
(* ===================================================================== *)

Module VisualFoundations.

Import Float64 Numpy.
Local Open Scope R_scope.
Local Open Scope np_scope.
Local Open Scope string_scope.

Definition create_sample_data (data_type : string) (n_points : Z)
  (noise_level : float64) : M (ndarray * ndarray * string) :=
  x <- linspace (Fin 0) (Fin 10) n_points ;;
  yt <-
    (if data_type =? "sine" then
       r <- random n_points ;;
       y <- add (np_sin x) (s_mul noise_level r) ;;
       ret (y, "Sample Sine Wave Data")
     else if data_type =? "exponential" then
       r <- random n_points ;;
       y <- add (np_exp (div_s (np_neg x) (Fin 3)))
                (s_mul (fmul noise_level (Fin 0.5)) r) ;;
       ret (y, "Sample Exponential Decay")
     else if data_type =? "spectrum" then
       r <- random n_points ;;
       y <- add (s_add (Fin 1) (s_mul (Fin 0.1) (np_sin (s_mul (Fin 5) x))))
                (s_mul (fmul noise_level (Fin 0.5)) r) ;;
       let absorption_centers := [Fin 2.5; Fin 5.0; Fin 7.5] in
       let absorption_depths := [Fin 0.25; Fin 0.15; Fin 0.20] in
       let absorption_widths := [Fin 0.1; Fin 0.15; Fin 0.12] in
       y <- for_each
              (combine absorption_centers
                 (combine absorption_depths absorption_widths))
              (fun cdw y =>
                 let '(center, (depth, width)) := cdw in
                 isub y (s_mul depth
                           (np_exp (div_s (np_neg (pow_s (sub_s x center) 2))
                                          width))))
              y ;;
       ret (y, "Sample Astronomical Spectrum")
     else if data_type =? "lightcurve" then
       let trend := s_mul (Fin (- 0.01)) x in
       let periodic :=
         s_mul (Fin 0.05)
               (np_sin (div_s (s_mul (fmul (Fin 2) (Fin PI)) x) (Fin 2.5))) in
       r <- random n_points ;;
       let noise := s_mul (fmul noise_level (Fin 0.2)) r in
       y <- add (s_add (Fin 1) trend) periodic ;;
       y <- add y noise ;;
       ret (y, "Sample Light Curve")
     else if data_type =? "transit" then
       y <- ones n_points ;;
       let transit_center := Fin 5.0 in
       let transit_duration := Fin 1.5 in
       let transit_depth := Fin 0.02 in
       let in_transit :=
         lt_s (np_abs (sub_s x transit_center))
              (fdiv transit_duration (Fin 2)) in
       y <- masked_isub y in_transit transit_depth ;;
       ingress <-
         mask_and
           (gt_s x (fsub (fsub transit_center (fdiv transit_duration (Fin 2)))
                         (Fin 0.2)))
           (lt_s x (fadd (fsub transit_center (fdiv transit_duration (Fin 2)))
                         (Fin 0.2))) ;;
       egress <-
         mask_and
           (gt_s x (fsub (fadd transit_center (fdiv transit_duration (Fin 2)))
                         (Fin 0.2)))
           (lt_s x (fadd (fadd transit_center (fdiv transit_duration (Fin 2)))
                         (Fin 0.2))) ;;
       y <- masked_isub y ingress (fmul transit_depth (Fin 0.5)) ;;
       y <- masked_isub y egress (fmul transit_depth (Fin 0.5)) ;;
       r <- random n_points ;;
       y <- iadd y (s_mul (fmul noise_level (Fin 0.1)) r) ;;
       ret (y, "Sample Exoplanet Transit")
     else if data_type =? "blackbody" then
       d <- div (pow_s x (-5))
                (sub_s (np_exp (s_div (Fin 1.0) (add_s x (Fin 0.1))))
                       (Fin 1)) ;;
       m <- amax d ;;
       let y := div_s d m in
       r <- random n_points ;;
       y <- iadd y (s_mul (fmul noise_level (Fin 0.05)) r) ;;
       ret (y, "Sample Blackbody Spectrum")
     else
       r <- random n_points ;;
       y <- add (s_mul (Fin 0.5) x) (s_mul noise_level r) ;;
       ret (y, "Sample Linear Data")) ;;
  ret (x, fst yt, snd yt).

(** The list returned by [list_data_types]. *)
Definition list_data_types : list string :=
  ["sine"; "exponential"; "spectrum"; "lightcurve"; "transit"; "blackbody";
   "linear"].

(** Default of the keyword argument [noise_level]. *)
Definition default_noise_level : float64 := Fin 0.1.

(** A Python [dict] with string keys, in insertion order. *)
Definition dict (V : Type) : Type := list (string * V).

Fixpoint dict_set {V : Type} (d : dict V) (k : string) (v : V) : dict V :=
  match d with
  | [] => [(k, v)]
  | (k', v') :: d' =>
      if k' =? k then (k', v) :: d' else (k', v') :: dict_set d' k v
  end.

Fixpoint dict_get {V : Type} (d : dict V) (k : string) : option V :=
  match d with
  | [] => None
  | (k', v') :: d' => if k' =? k then Some v' else dict_get d' k
  end.

Definition keys {V : Type} (d : dict V) : list string := map fst d.

Definition learning_dashboard_data (n_points : Z)
  : M (dict (ndarray * ndarray)) :=
  let datasets : dict (ndarray * ndarray) := [] in
  let data_types :=
    ["sine"; "exponential"; "spectrum"; "lightcurve"; "transit";
     "blackbody"] in
  for_each data_types
    (fun dtype datasets =>
       xyt <- create_sample_data dtype n_points default_noise_level ;;
       let '(x, y, _) := xyt in
       let key := if negb (dtype =? "sine") then dtype else "sine_wave" in
       ret (dict_set datasets key (x, y)))
    datasets.

(** *** Colour schemes and utilities *)

Definition ACCESSIBLE_COLORS : dict string :=
  [("primary", "#3498DB"); ("secondary", "#E74C3C"); ("success", "#2ECC71");
   ("warning", "#F39C12"); ("info", "#9B59B6"); ("light", "#ECF0F1");
   ("dark", "#34495E"); ("cyan", "#1ABC9C")].

Definition WONG_PALETTE : list string :=
  ["#000000"; "#E69F00"; "#56B4E9"; "#009E73"; "#F0E442"; "#0072B2";
   "#D55E00"; "#CC79A7"].

(** The attributes of a [VisualFoundations] object. *)
Record instance : Type := mkInstance {
  colors : dict string;
  palette : list string;
  bg_colors : dict string
}.

(** [__init__]; [None] stands for the [IndexError] of a list index out of
    range. *)
Definition __init__ (color_scheme : string) : option instance :=
  let bg_colors :=
    [("figure", "#34495E"); ("axes", "#2C3E50"); ("grid", "#4A6278")] in
  if color_scheme =? "wong" then
    match nth_error WONG_PALETTE 5, nth_error WONG_PALETTE 6,
          nth_error WONG_PALETTE 3, nth_error WONG_PALETTE 1,
          nth_error WONG_PALETTE 7, nth_error WONG_PALETTE 2 with
    | Some blue, Some vermillion, Some green, Some orange, Some purple,
      Some sky =>
        Some (mkInstance
                [("primary", blue); ("secondary", vermillion);
                 ("success", green); ("warning", orange); ("info", purple);
                 ("light", "#ECF0F1"); ("dark", "#34495E"); ("cyan", sky)]
                WONG_PALETTE bg_colors)
    | _, _, _, _, _, _ => None
    end
  else
    Some (mkInstance ACCESSIBLE_COLORS (map snd ACCESSIBLE_COLORS) bg_colors).

(** [get_color]: [self.colors.get(name, self.colors['primary'])].  The
    default is looked up first; [None] stands for its [KeyError]. *)
Definition get_color (self : instance) (name : string) : option string :=
  match dict_get (colors self) "primary" with
  | None => None
  | Some default =>
      Some (match dict_get (colors self) name with
            | Some c => c
            | None => default
            end)
  end.

(** [list_colors] returns a copy of the dictionary (and prints it). *)
Definition list_colors (self : instance) : dict string := colors self.

(** *** The comparison figure *)

(** What [comparison_plot] puts on a subplot. *)
Record Trace : Type := mkTrace {
  trace_x : ndarray;
  trace_y : ndarray;
  trace_name : string;
  trace_color : string;
  trace_row : nat;
  trace_col : nat
}.

(** The content of the figure; fonts, spacing and templates are left
    out. *)
Record Figure : Type := mkFigure {
  subplot_titles : list string;
  traces : list Trace;
  title_text : string
}.

Inductive plot_error : Type :=
| PlotImportError
| PlotKeyError
| PlotIndexError.

(** [for i, (dataset, label) in enumerate(...)]: one trace per pair, at
    [positions[i]] and in [subplot_colors[i]]. *)
Fixpoint add_traces (i : nat) (pairs : list ((ndarray * ndarray) * string))
  (subplot_colors : list string) (positions : list (nat * nat))
  : plot_error + list Trace :=
  match pairs with
  | [] => inr []
  | ((x, y), label) :: rest =>
      match nth_error positions i, nth_error subplot_colors i with
      | Some (row, col), Some color =>
          match add_traces (S i) rest subplot_colors positions with
          | inr ts => inr (mkTrace x y label color row col :: ts)
          | inl e => inl e
          end
      | _, _ => inl PlotIndexError
      end
  end.

(** [comparison_plot] with [save_html=None] and [show=False];
    [plotly_available] is the module flag [PLOTLY_AVAILABLE]. *)
Definition comparison_plot (plotly_available : bool) (self : instance)
  (datasets : list (ndarray * ndarray)) (labels : list string)
  (title : string) : plot_error + Figure :=
  if negb plotly_available then inl PlotImportError
  else
    let n_datasets := Nat.min (length datasets) 4 in
    let titles :=
      map (fun label => "<b>" ++ label ++ "</b>") (firstn n_datasets labels) in
    match dict_get (colors self) "primary",
          dict_get (colors self) "secondary",
          dict_get (colors self) "success",
          dict_get (colors self) "warning" with
    | Some c1, Some c2, Some c3, Some c4 =>
        let subplot_colors := [c1; c2; c3; c4] in
        let positions := [(1, 1); (1, 2); (2, 1); (2, 2)]%nat in
        match add_traces 0
                (combine (firstn n_datasets datasets)
                         (firstn n_datasets labels))
                subplot_colors positions with
        | inr ts => inr (mkFigure titles ts ("<b>" ++ title ++ "</b>"))
        | inl e => inl e
        end
    | _, _, _, _ => inl PlotKeyError
    end.

(** *** The self-test of the library, [test_visual_foundations] *)

(** The plotting side of the machine: the module flags
    [MATPLOTLIB_AVAILABLE] and [PLOTLY_AVAILABLE], and for each plotting
    test whether the calls into the plotting library and the check of the
    saved file go through. *)
Record Backends : Type := mkBackends {
  MATPLOTLIB_AVAILABLE : bool;
  PLOTLY_AVAILABLE : bool;
  static_plot_saved : bool;
  interactive_plot_saved : bool;
  comparison_plot_saved : bool
}.

(** A [try] block whose body ends in assertions: it counts as passed when
    the body neither raises nor fails an assertion.  After a raise the
    random source is taken as the block found it; no decision of the
    self-test reads the position of the source. *)
Definition try_block (body : M bool) (s : RandomState)
  : bool * RandomState :=
  match body s with
  | Ok (b, s') => (b, s')
  | Raise _ => (false, s)
  end.

(** Test 1: fifty points of every data type, with both lengths
    asserted; the loop stops at the first failed assertion. *)
Fixpoint generation_test (data_types : list string) : M bool :=
  match data_types with
  | [] => ret true
  | dtype :: rest =>
      xyt <- create_sample_data dtype 50 default_noise_level ;;
      let '(x, y, _) := xyt in
      if (Nat.eqb (length x) 50 && Nat.eqb (length y) 50)%bool
      then generation_test rest
      else ret false
  end.

(** Test 2: a spectrum of 100 points, then the static plot. *)
Definition static_test (b : Backends) : M bool :=
  _ <- create_sample_data "spectrum" 100 default_noise_level ;;
  ret (static_plot_saved b).

(** Test 3: a light curve of 75 points, then the interactive plot. *)
Definition interactive_test (b : Backends) : M bool :=
  _ <- create_sample_data "lightcurve" 75 default_noise_level ;;
  ret (interactive_plot_saved b).

(** Test 4: four of the learning datasets in a comparison figure. *)
Definition comparison_test (b : Backends) (vf : instance) : M bool :=
  data_dict <- learning_dashboard_data 50 ;;
  match dict_get data_dict "sine_wave", dict_get data_dict "exponential",
        dict_get data_dict "spectrum", dict_get data_dict "lightcurve" with
  | Some d1, Some d2, Some d3, Some d4 =>
      let datasets := [d1; d2; d3; d4] in
      let labels :=
        ["Sine Wave"; "Exponential Decay"; "Spectrum"; "Light Curve"] in
      match comparison_plot (PLOTLY_AVAILABLE b) vf datasets labels
              "Foundation Data Types Comparison" with
      | inr _ => ret (comparison_plot_saved b)
      | inl _ => ret false
      end
  | _, _, _, _ => ret false
  end.

(** Test 5: the colour utilities and the learning datasets at the
    default of 75 points. *)
Definition utilities_test (vf : instance) : M bool :=
  match get_color vf "primary" with
  | None => ret false
  | Some primary =>
      if negb (String.prefix "#" primary) then ret false
      else
        match __init__ "wong" with
        | None => ret false
        | Some vf_wong =>
            if negb (Nat.eqb (length (palette vf_wong)) 8) then ret false
            else
              data <- learning_dashboard_data 75 ;;
              match dict_get data "sine_wave", dict_get data "spectrum" with
              | Some _, Some _ => ret true
              | _, _ => ret false
              end
        end
  end.

Definition count (passed failed : nat) (ok : bool) : nat * nat :=
  if ok then (S passed, failed) else (passed, S failed).

(** [test_visual_foundations]: the pair [(passed, failed)];  [None]
    stands for an exception of the constructor, which no [try] covers. *)
Definition test_visual_foundations (b : Backends) (s : RandomState)
  : option (nat * nat) :=
  match __init__ "accessible" with
  | None => None
  | Some vf =>
      let '(passed, failed) := (0, 0)%nat in
      let '(ok, s) :=
        try_block
          (generation_test
             ["sine"; "exponential"; "spectrum"; "lightcurve"; "transit";
              "blackbody"]) s in
      let '(passed, failed) := count passed failed ok in
      let '(passed, failed, s) :=
        if MATPLOTLIB_AVAILABLE b then
          let '(ok, s) := try_block (static_test b) s in
          (count passed failed ok, s)
        else (passed, failed, s) in
      let '(passed, failed, s) :=
        if PLOTLY_AVAILABLE b then
          let '(ok, s) := try_block (interactive_test b) s in
          (count passed failed ok, s)
        else (passed, failed, s) in
      let '(passed, failed, s) :=
        if PLOTLY_AVAILABLE b then
          let '(ok, s) := try_block (comparison_test b vf) s in
          (count passed failed ok, s)
        else (passed, failed, s) in
      let '(ok, s) := try_block (utilities_test vf) s in
      let '(passed, failed) := count passed failed ok in
      Some (passed, failed)
  end.

End VisualFoundations.

(* ===================================================================== *)
(** ** [test_foundation.py]: the environment diagnostic script *)
(* ===================================================================== *)

Module TestFoundation.

Import Float64 Numpy.
Local Open Scope string_scope.
Local Open Scope list_scope.

(** [TestResult.PASS], [FAIL], [WARN] and [SKIP]. *)
Inductive Status : Type :=
| PASS
| FAIL
| WARN
| SKIP.

Definition status_eqb (a b : Status) : bool :=
  match a, b with
  | PASS, PASS | FAIL, FAIL | WARN, WARN | SKIP, SKIP => true
  | _, _ => false
  end.

(** One recorded result.  The display texts [message] and [details] play
    no part in any decision and are left out. *)
Record TestResult : Type := mkTestResult {
  name : string;
  status : Status;
  fix_hint : option string
}.

(** The tracker [TestResults]; its [start_time] only feeds the printed
    duration and is left out. *)
Record TestResults : Type := mkTestResults {
  results : list TestResult
}.

Definition new_results : TestResults := mkTestResults [].

Definition add (t : TestResults) (r : TestResult) : TestResults :=
  mkTestResults (results t ++ [r]).

Definition count_status (st : Status) (t : TestResults) : nat :=
  length (filter (fun r => status_eqb (status r) st) (results t)).

Definition passed : TestResults -> nat := count_status PASS.
Definition failed : TestResults -> nat := count_status FAIL.
Definition warnings : TestResults -> nat := count_status WARN.
Definition total (t : TestResults) : nat := length (results t).

(** What an [import] finds: nothing, which raises [ImportError], or a
    module with or without a [__version__] attribute.  An installation so
    broken that importing it raises something else is not among the
    environments described. *)
Inductive import_outcome : Type :=
| ImportError
| Module_ (version : option string).

(** The exceptions no handler of the script catches: every [try] around
    an import has [except ImportError] only, so reading [__version__] off
    a module that has none, or parsing a version string that is not one,
    ends the run. *)
Inductive escaped : Type :=
| AttributeError
| InvalidVersion.

(** What a call leaves: its value, or the exception that escaped it. *)
Inductive outcome (A : Type) : Type :=
| Returned (a : A)
| Raised (x : escaped).

Arguments Returned {A} a.
Arguments Raised {A} x.

Definition ret {A : Type} (a : A) : outcome A := Returned a.

Definition bind {A B : Type} (c : outcome A) (k : A -> outcome B)
  : outcome B :=
  match c with
  | Returned a => k a
  | Raised x => Raised x
  end.

Declare Scope tf_scope.
Delimit Scope tf_scope with tf.
Notation "x <-- c ;; k" := (bind c (fun x => k))
  (at level 61, c at next level, right associativity) : tf_scope.
Local Open Scope tf_scope.

(** How far a [try] block with two reported steps got before raising. *)
Inductive progress : Type :=
| RaisedAtStart
| RaisedAfterFirst
| Completed.

Inductive plot_outcome : Type :=
| PlotRaised
| PlotFileMissing
| PlotSaved.

(** Everything the script observes of the machine it runs on. *)
Record Env : Type := mkEnv {
  import_module : string -> import_outcome;
  parses : string -> bool;
  parse_lt : string -> string -> bool;
  environ : string -> option string;
  isdir : string -> bool;
  executable_names_venv : bool;
  has_real_prefix : bool;
  base_prefix_differs : bool;
  version_info : Z * Z;
  vf_color_ok : bool;
  numpy_ops : progress;
  matplotlib_plot : plot_outcome;
  astropy_ops : progress;
  visual_test_ok : bool;
  rng : RandomState
}.

Definition lower_ascii (c : Ascii.ascii) : Ascii.ascii :=
  let n := Ascii.nat_of_ascii c in
  if (Nat.leb 65 n && Nat.leb n 90)%bool then Ascii.ascii_of_nat (n + 32)
  else c.

Fixpoint lower (s : string) : string :=
  match s with
  | EmptyString => EmptyString
  | String c s' => String (lower_ascii c) (lower s')
  end.

(** Truth value of an optional string: [None] and the empty string are
    false. *)
Definition truthy (o : option string) : bool :=
  match o with
  | Some s => negb (s =? "")
  | None => false
  end.

(** [pkg_version.parse(version) < pkg_version.parse(min_version)]: both
    strings are parsed before they are compared, and a string that is not
    a version raises [InvalidVersion]. *)
Definition version_lt (e : Env) (version min_version : string)
  : outcome bool :=
  if negb (parses e version) then Raised InvalidVersion
  else if negb (parses e min_version) then Raised InvalidVersion
  else ret (parse_lt e version min_version).

(** The [try] of [test_import] has [except ImportError] only: a missing
    module, or a missing [packaging], gives [FAIL]; an exception of the
    version comparison escapes. *)
Definition test_import (e : Env) (package_name : string)
  (import_name : option string) (min_version : option string)
  : outcome TestResult :=
  let import_name :=
    match import_name with
    | None => lower package_name
    | Some n => n
    end in
  match import_module e import_name with
  | ImportError =>
      ret (mkTestResult package_name FAIL
             (Some ("pip install " ++ import_name)%string))
  | Module_ v =>
      let version := match v with Some v => v | None => "unknown" end in
      if (truthy min_version && negb (version =? "unknown"))%bool then
        match import_module e "packaging" with
        | ImportError =>
            ret (mkTestResult package_name FAIL
                   (Some ("pip install " ++ import_name)%string))
        | Module_ _ =>
            older <-- version_lt e version
                        (match min_version with Some m => m | None => "" end) ;;
            if older
            then ret (mkTestResult package_name WARN
                        (Some ("pip install --upgrade " ++ import_name)%string))
            else ret (mkTestResult package_name PASS None)
        end
      else ret (mkTestResult package_name PASS None)
  end.

(** [packages] in the documented shape, a list of
    [(display_name, import_name, min_version)]; the results are appended
    in the order of the list, and the loop ends at the first call that
    raises. *)
Fixpoint test_package_group (e : Env) (group_name : string)
  (packages : list (string * string * string))
  : outcome (list TestResult) :=
  match packages with
  | [] => ret []
  | (display, import, minv) :: packages' =>
      r <-- test_import e display (Some import) (Some minv) ;;
      results <-- test_package_group e group_name packages' ;;
      ret (r :: results)
  end.

Definition test_core_scientific_stack (e : Env)
  : outcome (list TestResult) :=
  test_package_group e "Core Scientific Stack"
    [("NumPy", "numpy", "1.20.0");
     ("SciPy", "scipy", "1.7.0");
     ("Matplotlib", "matplotlib", "3.4.0");
     ("Pandas", "pandas", "1.3.0")].

Definition imports (e : Env) (m : string) : bool :=
  match import_module e m with
  | ImportError => false
  | Module_ _ => true
  end.

Definition test_astronomy_libraries (e : Env)
  : outcome (list TestResult) :=
  results <-- test_package_group e "Astronomy Libraries"
                [("Astropy", "astropy", "5.0")] ;;
  if (imports e "astropy.units" && imports e "astropy.coordinates")%bool
  then ret (results ++ [mkTestResult "Astropy Units" PASS None])
  else ret (results ++ [mkTestResult "Astropy Units" FAIL None]).

(** The pattern of every optional probe,
    [try: import m; ... f"... v{m.__version__}" ... except ImportError: ...]:
    [WARN] with an install hint when the import fails, [PASS] when the
    module imports and has a [__version__]; when it imports without one,
    the [AttributeError] of the message is not caught. *)
Definition optional_import (e : Env) (display module hint : string)
  : outcome TestResult :=
  match import_module e module with
  | ImportError => ret (mkTestResult display WARN (Some hint))
  | Module_ None => Raised AttributeError
  | Module_ (Some _) => ret (mkTestResult display PASS None)
  end.

Definition test_visualization_tools (e : Env)
  : outcome (list TestResult) :=
  results <-- test_package_group e "Visualization Tools"
                [("Plotly", "plotly", "5.0.0");
                 ("Seaborn", "seaborn", "0.11.0")] ;;
  r <-- optional_import e "Bokeh" "bokeh" "pip install bokeh" ;;
  ret (results ++ [r]).

Definition test_jupyter_components (e : Env)
  : outcome (list TestResult) :=
  let results := [] in
  r <-- optional_import e "JupyterLab" "jupyterlab"
          "pip install jupyterlab" ;;
  let results := results ++ [r] in
  r <-- optional_import e "IPyWidgets" "ipywidgets"
          "pip install ipywidgets" ;;
  let results := results ++ [r] in
  ret results.

Definition test_development_tools (e : Env)
  : outcome (list TestResult) :=
  let results := [] in
  r <-- optional_import e "Pytest" "pytest" "pip install pytest" ;;
  let results := results ++ [r] in
  r <-- optional_import e "h5py" "h5py" "pip install h5py" ;;
  let results := results ++ [r] in
  r <-- optional_import e "Scikit-learn" "sklearn"
          "pip install scikit-learn" ;;
  let results := results ++ [r] in
  ret results.

(** [version_info >= (major, minor)] on the leading two components. *)
Definition version_ge (v : Z * Z) (major minor : Z) : bool :=
  ((major <? fst v) || ((fst v =? major) && (minor <=? snd v)))%Z.

Definition test_environment_config (e : Env) : list TestResult :=
  let results := [] in
  let astro_home := environ e "ASTRO_HOME" in
  let results :=
    if truthy astro_home then
      if isdir e (match astro_home with Some p => p | None => "" end)
      then results ++ [mkTestResult "ASTRO_HOME" PASS None]
      else results ++
           [mkTestResult "ASTRO_HOME" WARN (Some "mkdir -p $ASTRO_HOME")]
    else
      if existsb (fun alt => truthy (environ e alt))
           ["ASTRO_DEV_HOME"; "ASTRONOMY_HOME"]
      then results ++ [mkTestResult "ASTRO_HOME" PASS None]
      else results ++
           [mkTestResult "ASTRO_HOME" WARN
              (Some "export ASTRO_HOME=~/.astro")] in
  let results :=
    if (executable_names_venv e || has_real_prefix e
        || base_prefix_differs e)%bool
    then results ++ [mkTestResult "Virtual Environment" PASS None]
    else results ++
         [mkTestResult "Virtual Environment" WARN
            (Some "python -m venv ~/.astro/env && source ~/.astro/env/bin/activate")] in
  let py_version := version_info e in
  if version_ge py_version 3 9
  then results ++ [mkTestResult "Python Version" PASS None]
  else if version_ge py_version 3 8
  then results ++ [mkTestResult "Python Version" WARN None]
  else results ++
       [mkTestResult "Python Version" FAIL
          (Some "Install Python 3.9 or later")].

Definition test_visual_foundations (e : Env) : list TestResult :=
  let results := [] in
  if imports e "visual_foundations" then
    let results :=
      results ++ [mkTestResult "Visual Foundations Import" PASS None] in
    let results :=
      match VisualFoundations.create_sample_data "spectrum" 50
              VisualFoundations.default_noise_level (rng e) with
      | Ok ((x, _, _), _) =>
          if Nat.eqb (length x) 50
          then results ++ [mkTestResult "Visual Foundations Data" PASS None]
          else results ++ [mkTestResult "Visual Foundations Data" FAIL None]
      | Raise _ =>
          results ++ [mkTestResult "Visual Foundations Data" FAIL None]
      end in
    if vf_color_ok e
    then results ++ [mkTestResult "Visual Foundations Colors" PASS None]
    else results ++ [mkTestResult "Visual Foundations Colors" WARN None]
  else
    results ++
    [mkTestResult "Visual Foundations Import" WARN
       (Some "Ensure visual_foundations.py is in the scripts/ directory")].

Definition test_numpy_operations (e : Env) : list TestResult :=
  match numpy_ops e with
  | RaisedAtStart => [mkTestResult "NumPy Operations" FAIL None]
  | RaisedAfterFirst =>
      [mkTestResult "NumPy Array Operations" PASS None;
       mkTestResult "NumPy Operations" FAIL None]
  | Completed =>
      [mkTestResult "NumPy Array Operations" PASS None;
       mkTestResult "NumPy FFT" PASS None]
  end.

Definition test_matplotlib_plotting (e : Env) : list TestResult :=
  match matplotlib_plot e with
  | PlotSaved => [mkTestResult "Matplotlib Plotting" PASS None]
  | PlotFileMissing => [mkTestResult "Matplotlib Plotting" FAIL None]
  | PlotRaised => [mkTestResult "Matplotlib Plotting" FAIL None]
  end.

Definition test_astropy_units (e : Env) : list TestResult :=
  match astropy_ops e with
  | RaisedAtStart => [mkTestResult "Astropy Functions" FAIL None]
  | RaisedAfterFirst =>
      [mkTestResult "Astropy Unit Conversion" PASS None;
       mkTestResult "Astropy Functions" FAIL None]
  | Completed =>
      [mkTestResult "Astropy Unit Conversion" PASS None;
       mkTestResult "Astropy Coordinates" PASS None]
  end.

(** [for r in results: all_results.add(r)] *)
Definition add_all (t : TestResults) (rs : list TestResult) : TestResults :=
  fold_left add rs t.

(** What a run that reaches its [return] leaves behind: the value
    [run_all_tests] returns, the tracker as it stands at the [return], and
    whether the visual test was started.  Printing is not modelled. *)
Record RunOutcome : Type := mkRunOutcome {
  exit_code : Z;
  all_results : TestResults;
  visual_test_ran : bool
}.

(** The groups are called one after the other with no handler around
    them, so an exception that escapes a group escapes the run, and the
    summary and the [return] are not reached. *)
Definition run_all_tests (visual verbose : bool) (e : Env)
  : outcome RunOutcome :=
  let all_results := new_results in
  results <-- test_core_scientific_stack e ;;
  let all_results := add_all all_results results in
  results <-- test_astronomy_libraries e ;;
  let all_results := add_all all_results results in
  results <-- test_visualization_tools e ;;
  let all_results := add_all all_results results in
  results <-- test_jupyter_components e ;;
  let all_results := add_all all_results results in
  results <-- test_development_tools e ;;
  let all_results := add_all all_results results in
  let all_results := add_all all_results (test_environment_config e) in
  let all_results := add_all all_results (test_visual_foundations e) in
  let all_results := add_all all_results (test_numpy_operations e) in
  let all_results := add_all all_results (test_matplotlib_plotting e) in
  let all_results := add_all all_results (test_astropy_units e) in
  let failed := failed all_results in
  let ran := (visual && Nat.eqb failed 0)%bool in
  ret (mkRunOutcome (if Nat.eqb failed 0 then 0%Z else 1%Z) all_results ran).

(** The parsed command line. *)
Record Namespace : Type := mkNamespace {
  no_visual : bool;
  quiet : bool
}.

(** [main] after argument parsing; the value returned is the status
    handed to [sys.exit].  [main] has no handler either: what escapes
    [run_all_tests] escapes [main]. *)
Definition main (args : Namespace) (e : Env) : outcome Z :=
  out <-- run_all_tests (negb (no_visual args)) (negb (quiet args)) e ;;
  let exit_code := exit_code out in
  ret exit_code.

End TestFoundation.

(* ===================================================================== *)
(** ** Vocabulary of the statements *)
(* ===================================================================== *)

Module Vocabulary.

Import Float64 Numpy.
Local Open Scope R_scope.

(** The [i]-th of [n] equally spaced samples of the interval from 0 to 10.
    For [n = 1] the only index is 0 and the value is 0 whatever the
    quotient is. *)
Definition sample (n i : nat) : R := INR i * (10 / (INR n - 1)).

Definition grid (n : nat) : ndarray :=
  map (fun i => Fin (sample n i)) (seq 0 n).

(** The value is finite and at most [tol] away from [r]. *)
Definition within (tol : R) (v : float64) (r : R) : Prop :=
  exists q, v = Fin q /\ Rabs (q - r) <= tol.

(** The results of a run, without the random source it leaves behind. *)
Definition value {A : Type} (r : result (A * RandomState)) : option A :=
  match r with
  | Ok (a, _) => Some a
  | Raise _ => None
  end.

(** Every entry is smaller than every later one, in the order of the
    floating-point comparison [<]. *)
Definition strictly_increasing (x : ndarray) : Prop :=
  forall i j : nat, (i < j < length x)%nat ->
    flt (nth i x NaN) (nth j x NaN) = true.

(** The margin kept between a sample and a threshold it is compared
    with.  It is far above the rounding error of a sample and of a
    threshold, so a sample at least this far from a threshold falls on
    the same side of it in binary64 as over the reals. *)
Definition guard : R := 1 / 1000000000.

(** The sample of index [i] is a grid point nearest to [c]. *)
Definition nearest (n i : nat) (c : R) : Prop :=
  forall j : nat, (j < n)%nat ->
    Rabs (sample n i - c) <= Rabs (sample n j - c).

(** One entry of the transit branch, read off the array program: the
    baseline, the dip inside the window, the two half-depth shoulders
    (each between a lower and an upper bound), and the noise term. *)
Definition transit_at (depth lo1 hi1 lo2 hi2 noise : float64)
  (xi u : float64) : float64 :=
  let y := Fin 1 in
  let y :=
    if flt (fabs (fsub xi (Fin 5.0))) (fdiv (Fin 1.5) (Fin 2))
    then fsub y depth else y in
  let y :=
    if (fgt xi lo1 && flt xi hi1)%bool
    then fsub y (fmul depth (Fin 0.5)) else y in
  let y :=
    if (fgt xi lo2 && flt xi hi2)%bool
    then fsub y (fmul depth (Fin 0.5)) else y in
  fadd y (fmul noise u).

(** The profile of one absorption line, as the spectrum branch computes
    it: [exp(-(x - center)**2 / width)]. *)
Definition gauss (center width x : R) : R :=
  exp (- ((x - center) * ((x - center) * 1)) / width).

(** The absorption lines of the two spectrum branches, each as
    (center, depth, width). *)
Definition dashboard_lines : list (R * R * R) :=
  [(2.5, 0.25, 0.15); (5.0, 0.15, 0.15); (7.5, 0.20, 0.15)].

Definition library_lines : list (R * R * R) :=
  [(2.5, 0.25, 0.1); (5.0, 0.15, 0.15); (7.5, 0.20, 0.12)].

(** A random source for concrete runs: every uniform draw is one half,
    every normal draw is one. *)
Definition example_source : RandomState :=
  mkRandomState (fun _ => 1 / 2) (fun _ => 1) 0.

(** A second random source, whose normal draws are two. *)
Definition other_source : RandomState :=
  mkRandomState (fun _ => 1 / 4) (fun _ => 2) 7.

(** A library result with the title dropped, to compare it with a
    dashboard result. *)
Definition without_title
  (r : result (ndarray * ndarray * string * RandomState))
  : result (ndarray * ndarray * RandomState) :=
  match r with
  | Ok ((x, y, _), s) => Ok ((x, y), s)
  | Raise e => Raise e
  end.

(** Every uniform draw of the source lies in the half-open unit
    interval, as [np.random.random] promises. *)
Definition uniform_in_unit (s : RandomState) : Prop :=
  forall k : nat, (0 <= uniform s k < 1)%R.

(** The factor by which each branch scales [noise_level] before it
    multiplies the uniform draws. *)
Definition noise_scale (data_type : string) : R :=
  if (data_type =? "sine")%string then 1
  else if (data_type =? "exponential")%string then 0.5
  else if (data_type =? "spectrum")%string then 0.5
  else if (data_type =? "lightcurve")%string then 0.2
  else if (data_type =? "transit")%string then 0.1
  else 1.

(** The five data types both generators compute in closed form. *)
Definition closed_form_types : list string :=
  ["sine"; "exponential"; "spectrum"; "lightcurve"; "transit"]%string.

(** The eight colour names of a scheme, in the order of the dictionary. *)
Definition color_names : list string :=
  ["primary"; "secondary"; "success"; "warning"; "info"; "light"; "dark";
   "cyan"]%string.

(** A colour in the form [#RRGGBB]: a hash sign and six more
    characters. *)
Definition is_hex_code (c : string) : bool :=
  (String.prefix "#" c && Nat.eqb (String.length c) 7)%bool.

(** The environment [e] in which importing [m] has the outcome [o]. *)
Definition with_module (m : string) (o : TestFoundation.import_outcome)
  (e : TestFoundation.Env) : TestFoundation.Env :=
  TestFoundation.mkEnv
    (fun k => if (k =? m)%string then o
              else TestFoundation.import_module e k)
    (TestFoundation.parses e)
    (TestFoundation.parse_lt e) (TestFoundation.environ e)
    (TestFoundation.isdir e) (TestFoundation.executable_names_venv e)
    (TestFoundation.has_real_prefix e) (TestFoundation.base_prefix_differs e)
    (TestFoundation.version_info e) (TestFoundation.vf_color_ok e)
    (TestFoundation.numpy_ops e) (TestFoundation.matplotlib_plot e)
    (TestFoundation.astropy_ops e) (TestFoundation.visual_test_ok e)
    (TestFoundation.rng e).

(** The environment [e] with the module [m] made unimportable. *)
Definition without (m : string) (e : TestFoundation.Env) : TestFoundation.Env :=
  with_module m TestFoundation.ImportError e.

(** The modules whose absence the script reports as a warning. *)
Definition optional_components : list string :=
  ["bokeh"; "jupyterlab"; "ipywidgets"; "pytest"; "h5py"; "sklearn";
   "visual_foundations"]%string.

(** The modules the script imports through [test_import], whose absence
    it reports as a failure. *)
Definition required_packages : list string :=
  ["numpy"; "scipy"; "matplotlib"; "pandas"; "astropy"; "plotly";
   "seaborn"]%string.

(** What [test_import] needs of a required package to report no
    failure: the module imports, and, when it carries a version to
    compare, [packaging] imports too. *)
Definition package_ok (e : TestFoundation.Env) (m : string) : Prop :=
  match TestFoundation.import_module e m with
  | TestFoundation.ImportError => False
  | TestFoundation.Module_ None => True
  | TestFoundation.Module_ (Some v) =>
      v = "unknown"%string
      \/ TestFoundation.import_module e "packaging"
         <> TestFoundation.ImportError
  end.

(** The required packages with the minimum versions [test_import]
    compares their versions with. *)
Definition minimum_versions : list (string * string) :=
  [("numpy", "1.20.0"); ("scipy", "1.7.0"); ("matplotlib", "3.4.0");
   ("pandas", "1.3.0"); ("astropy", "5.0"); ("plotly", "5.0.0");
   ("seaborn", "0.11.0")]%string.

(** The optional modules whose probe prints [__version__]. *)
Definition versioned_probes : list string :=
  ["bokeh"; "jupyterlab"; "ipywidgets"; "pytest"; "h5py"; "sklearn"]%string.

(** The version comparison of [test_import] raises for the module [m]:
    [m] imports with a version to compare, [packaging] imports, and one
    of the two version strings does not parse. *)
Definition comparison_raises (e : TestFoundation.Env) (m minv : string)
  : bool :=
  match TestFoundation.import_module e m with
  | TestFoundation.Module_ (Some v) =>
      negb (v =? "unknown")%string
      && TestFoundation.imports e "packaging"
      && (negb (TestFoundation.parses e v)
          || negb (TestFoundation.parses e minv))
  | _ => false
  end.

(** The probe of the optional module [m] raises: [m] imports but has no
    [__version__]. *)
Definition probe_raises (e : TestFoundation.Env) (m : string) : bool :=
  match TestFoundation.import_module e m with
  | TestFoundation.Module_ None => true
  | _ => false
  end.

(** No import test and no optional probe of a run raises. *)
Definition escape_free (e : TestFoundation.Env) : Prop :=
  (forall m minv, In (m, minv) minimum_versions ->
     comparison_raises e m minv = false)
  /\ (forall m, In m versioned_probes -> probe_raises e m = false).

(** What keeps every [FAIL] out of the tracker: the seven required
    packages pass their import test, both astropy submodules import,
    Python is at least 3.8, and the three functional tests run to the
    end. *)
Definition critical_ok (e : TestFoundation.Env) : Prop :=
  (forall m, In m required_packages -> package_ok e m)
  /\ TestFoundation.imports e "astropy.units" = true
  /\ TestFoundation.imports e "astropy.coordinates" = true
  /\ TestFoundation.version_ge (TestFoundation.version_info e) 3 8 = true
  /\ TestFoundation.numpy_ops e = TestFoundation.Completed
  /\ TestFoundation.matplotlib_plot e = TestFoundation.PlotSaved
  /\ TestFoundation.astropy_ops e = TestFoundation.Completed.

(** The value is a finite number between [lo] and [hi]. *)
Definition between (lo hi : R) (a : float64) : Prop :=
  exists r, a = Fin r /\ (lo <= r <= hi)%R.

(** Every entry of the array is a finite number. *)
Definition all_finite (l : ndarray) : Prop :=
  Forall (fun a => is_finite a = true) l.

(** No result of the list has [SKIP] status. *)
Definition no_skip (rs : list TestFoundation.TestResult) : Prop :=
  Forall (fun r => TestFoundation.status r <> TestFoundation.SKIP) rs.

(** Number of [FAIL] entries of a list of results. *)
Definition fail_count (rs : list TestFoundation.TestResult) : nat :=
  length (filter (fun r => TestFoundation.status_eqb
                             (TestFoundation.status r) TestFoundation.FAIL)
                 rs).

(** An environment in which everything is installed and works. *)
Definition healthy_env : TestFoundation.Env :=
  TestFoundation.mkEnv
    (fun _ => TestFoundation.Module_ (Some "9.9.9"%string))
    (fun _ => true)
    (fun _ _ => false) (fun _ => None) (fun _ => false)
    true false true (3, 11)%Z true
    TestFoundation.Completed TestFoundation.PlotSaved TestFoundation.Completed
    true example_source.

End Vocabulary.

(* ===================================================================== *)
(** ** Facts about the numeric kernel *)
(* ===================================================================== *)

Import Float64 Numpy Vocabulary.
Local Open Scope R_scope.
Local Open Scope np_scope.

Section Kernel.

Lemma fdiv_fin (x y : R) : y <> 0 -> fdiv (Fin x) (Fin y) = Fin (x / y).
Proof.
  intros Hy. unfold fdiv. destruct (Req_dec_T y 0) as [E | _]; [contradiction | reflexivity].
Qed.

Lemma feq_fin_false (x y : R) : x <> y -> feq (Fin x) (Fin y) = false.
Proof.
  intros H. unfold feq. destruct (Req_dec_T x y); [contradiction | reflexivity].
Qed.

Lemma flt_fin_true (x y : R) : x < y -> flt (Fin x) (Fin y) = true.
Proof.
  intros H. unfold flt. destruct (Rlt_dec x y); [reflexivity | contradiction].
Qed.

Lemma flt_fin_false (x y : R) : ~ x < y -> flt (Fin x) (Fin y) = false.
Proof.
  intros H. unfold flt. destruct (Rlt_dec x y); [contradiction | reflexivity].
Qed.

Lemma Rsgn_pos (r : R) : 0 < r -> Rsgn r = Gt.
Proof.
  intros H. unfold Rsgn.
  destruct (total_order_T r 0) as [[Hlt | Heq] | Hgt]; try reflexivity; lra.
Qed.

Lemma zip_with_length {A B C : Type} (f : A -> B -> C) (a : list A) (b : list B) :
  length (zip_with f a b) = Nat.min (length a) (length b).
Proof.
  revert b. induction a as [| v a IH]; intros [| w b]; simpl; auto.
Qed.

Lemma zip_with_nth {A B C : Type} (f : A -> B -> C) (a : list A) (b : list B)
  (i : nat) (da : A) (db : B) (dc : C) :
  (i < length a)%nat -> (i < length b)%nat ->
  nth i (zip_with f a b) dc = f (nth i a da) (nth i b db).
Proof.
  revert b i. induction a as [| v a IH]; intros [| w b] [| i] Ha Hb;
    simpl in *; try lia; auto.
  apply IH; lia.
Qed.

Lemma zip_with_map {A B C A' B' : Type} (f : A -> B -> C) (g : A' -> A)
  (h : B' -> B) (a : list A') (b : list B') :
  zip_with f (map g a) (map h b) = zip_with (fun v w => f (g v) (h w)) a b.
Proof.
  revert b. induction a as [| v a IH]; intros [| w b]; simpl; auto.
  now rewrite IH.
Qed.

Lemma cumsum_from_length (acc : float64) (l : ndarray) :
  length (cumsum_from acc l) = length l.
Proof.
  revert acc. induction l as [| v l IH]; intros acc; simpl; auto.
Qed.

Lemma cumsum_length (l : ndarray) : length (cumsum l) = length l.
Proof.
  destruct l; simpl; auto using cumsum_from_length.
Qed.

Lemma set_last_length (y : ndarray) (v : float64) :
  length (set_last y v) = length y.
Proof.
  destruct y as [| w y]; [reflexivity |].
  unfold set_last. rewrite length_app. simpl length at 2.
  assert (H : w :: y <> []) by discriminate.
  destruct (exists_last H) as [l [a E]]. rewrite E.
  rewrite removelast_last, length_app. simpl. reflexivity.
Qed.

Lemma draws_length (tape : nat -> R) (from n : nat) :
  length (draws tape from n) = n.
Proof.
  unfold draws. now rewrite length_map, length_seq.
Qed.

Lemma grid_length (n : nat) : length (grid n) = n.
Proof.
  unfold grid. now rewrite length_map, length_seq.
Qed.

End Kernel.

Create Rewrite HintDb len.
#[local] Hint Rewrite @zip_with_length @length_map @length_seq @repeat_length
  cumsum_length set_last_length draws_length grid_length @length_app
  @length_combine : len.

Ltac len := unfold s_add, s_mul, mul_s, add_s, s_div, sub_s, div_s, pow_s,
  lt_s, gt_s, np_sin, np_exp, np_abs, np_neg, arange in *;
  autorewrite with len in *; simpl length in *; try lia.

(** *** Runs of the NumPy operations on well-shaped operands *)

Section Runs.

Variable s : RandomState.

Lemma bind_run {A B : Type} (c : M A) (k : A -> M B) (a : A) (s' : RandomState) :
  c s = Ok (a, s') -> bind c k s = k a s'.
Proof.
  intros H. unfold bind. now rewrite H.
Qed.

Lemma bind_raise {A B : Type} (c : M A) (k : A -> M B) (e : exn) :
  c s = Raise e -> bind c k s = Raise e.
Proof.
  intros H. unfold bind. now rewrite H.
Qed.

Lemma broadcast2_run {A B C : Type} (f : A -> B -> C) (a : list A) (b : list B) :
  length a = length b -> broadcast2 f a b s = Ok (zip_with f a b, s).
Proof.
  intros H. unfold broadcast2. rewrite H, Nat.eqb_refl. reflexivity.
Qed.

Lemma add_run (a b : ndarray) :
  length a = length b -> add a b s = Ok (zip_with fadd a b, s).
Proof. apply broadcast2_run. Qed.

Lemma div_run (a b : ndarray) :
  length a = length b -> div a b s = Ok (zip_with fdiv a b, s).
Proof. apply broadcast2_run. Qed.

Lemma mask_and_run (a b : mask) :
  length a = length b -> mask_and a b s = Ok (zip_with andb a b, s).
Proof. apply broadcast2_run. Qed.

Lemma inplace_run (f : float64 -> float64 -> float64) (y b : ndarray) :
  length y = length b -> inplace f y b s = Ok (zip_with f y b, s).
Proof.
  intros H. unfold inplace. rewrite H, Nat.eqb_refl. reflexivity.
Qed.

Lemma iadd_run (y b : ndarray) :
  length y = length b -> iadd y b s = Ok (zip_with fadd y b, s).
Proof. apply inplace_run. Qed.

Lemma isub_run (y b : ndarray) :
  length y = length b -> isub y b s = Ok (zip_with fsub y b, s).
Proof. apply inplace_run. Qed.

Lemma masked_isub_run (y : ndarray) (m : mask) (v : float64) :
  length y = length m ->
  masked_isub y m v s =
  Ok (zip_with (fun yi (b : bool) => if b then fsub yi v else yi) y m, s).
Proof.
  intros H. unfold masked_isub. rewrite H, Nat.eqb_refl. reflexivity.
Qed.

Lemma ones_run (n : Z) :
  (0 <= n)%Z -> ones n s = Ok (repeat (Fin 1) (Z.to_nat n), s).
Proof.
  intros H. unfold ones. destruct (Z.ltb_spec n 0); [lia | reflexivity].
Qed.

Lemma random_run (n : Z) :
  (0 <= n)%Z ->
  random n s = Ok (draws (uniform s) (drawn s) (Z.to_nat n), advance (Z.to_nat n) s).
Proof.
  intros H. unfold random. destruct (Z.ltb_spec n 0); [lia | reflexivity].
Qed.

Lemma randn_run (n : Z) :
  (0 <= n)%Z ->
  randn n s = Ok (draws (normal s) (drawn s) (Z.to_nat n), advance (Z.to_nat n) s).
Proof.
  intros H. unfold randn. destruct (Z.ltb_spec n 0); [lia | reflexivity].
Qed.

Lemma set_last_snoc (l : ndarray) (a v : float64) :
  set_last (l ++ [a]) v = l ++ [v].
Proof.
  unfold set_last. destruct (l ++ [a]) eqn:E.
  - destruct l; discriminate.
  - rewrite <- E, removelast_last. reflexivity.
Qed.

Lemma linspace_run (n : Z) :
  (0 <= n)%Z -> linspace (Fin 0) (Fin 10) n s = Ok (grid (Z.to_nat n), s).
Proof.
  intros Hn. unfold linspace.
  destruct (Z.ltb_spec n 0) as [? | _]; [lia |].
  remember (Z.to_nat n) as N eqn:HN.
  assert (E : n = Z.of_nat N) by lia. subst n. clear HN Hn.
  unfold ret. f_equal. f_equal.
  unfold arange, grid, of_nat, of_Z. rewrite !map_map.
  destruct N as [| [| M]].
  - reflexivity.
  - simpl. f_equal. f_equal. unfold sample. simpl. lra.
  - assert (Hdiv : (0 <? Z.of_nat (S (S M)) - 1)%Z = true)
      by (apply Z.ltb_lt; lia).
    assert (H1 : (1 <? Z.of_nat (S (S M)))%Z = true)
      by (apply Z.ltb_lt; lia).
    rewrite Hdiv, H1.
    assert (HR : IZR (Z.of_nat (S (S M)) - 1) = INR (S (S M)) - 1).
    { rewrite minus_IZR, <- INR_IZR_INZ. reflexivity. }
    assert (Hpos : 0 < INR (S (S M)) - 1).
    { rewrite S_INR. pose proof (pos_INR (S M)). rewrite S_INR in *.
      pose proof (pos_INR M). lra. }
    simpl fsub. rewrite HR, fdiv_fin by lra.
    rewrite feq_fin_false.
    2:{ apply Rgt_not_eq. apply Rdiv_lt_0_compat; lra. }
    rewrite map_map.
    rewrite (seq_S (S M) 0), !map_app.
    change (map ?f [?a]) with [f a]. cbv beta. rewrite set_last_snoc.
    f_equal.
    + apply map_ext. intros i. cbn [fadd fmul]. f_equal. unfold sample.
      rewrite Rminus_0_r. ring.
    + f_equal. f_equal. unfold sample. simpl Nat.add.
      rewrite (S_INR (S M)). field. rewrite S_INR in Hpos. lra.
Qed.

End Runs.

Lemma amax_run (l : ndarray) (s : RandomState) :
  (0 < length l)%nat ->
  amax l s = Ok (fold_left fmax (tl l) (hd NaN l), s).
Proof.
  destruct l as [| v l]; simpl; [lia | reflexivity].
Qed.

(** Symbolic execution of a generator on a non-negative [n_points]: every
    NumPy call is replaced by its result, shapes being checked by [len]. *)
Ltac run :=
  repeat (first
    [ rewrite linspace_run by lia
    | rewrite random_run by lia
    | rewrite randn_run by lia
    | rewrite ones_run by lia
    | rewrite add_run by len
    | rewrite div_run by len
    | rewrite iadd_run by len
    | rewrite isub_run by len
    | rewrite mask_and_run by len
    | rewrite masked_isub_run by len
    | rewrite amax_run by len
    | progress cbv beta iota
    | progress unfold bind, ret
    | progress cbn [for_each combine fst snd String.eqb Ascii.eqb Bool.eqb] ]).

(* ===================================================================== *)
(** ** Shape of what the generators return *)
(* ===================================================================== *)

Section Lengths.

Variables (data_type : string) (n_points : Z) (noise_level : float64).
Variable s : RandomState.
Hypothesis n_points_pos : (1 <= n_points)%Z.

Lemma dashboard_shape :
  exists y s',
    Dashboard._generate_data data_type n_points noise_level s
    = Ok ((grid (Z.to_nat n_points), y), s')
    /\ length y = Z.to_nat n_points.
Proof.
  unfold Dashboard._generate_data.
  destruct (data_type =? "sine")%string;
    [| destruct (data_type =? "exponential")%string;
       [| destruct (data_type =? "spectrum")%string;
          [| destruct (data_type =? "lightcurve")%string;
             [| destruct (data_type =? "transit")%string]]]];
    run; do 2 eexists; (split; [reflexivity |]); len.
Qed.

Lemma library_shape :
  exists y title s',
    VisualFoundations.create_sample_data data_type n_points noise_level s
    = Ok ((grid (Z.to_nat n_points), y, title), s')
    /\ length y = Z.to_nat n_points.
Proof.
  unfold VisualFoundations.create_sample_data.
  destruct (data_type =? "sine")%string;
    [| destruct (data_type =? "exponential")%string;
       [| destruct (data_type =? "spectrum")%string;
          [| destruct (data_type =? "lightcurve")%string;
             [| destruct (data_type =? "transit")%string;
                [| destruct (data_type =? "blackbody")%string]]]]];
    run; do 3 eexists; (split; [reflexivity |]); len.
Qed.

End Lengths.

(** C1.  For every data type (the supported ones in particular) and every
    integer [n_points >= 1], the dashboard's [_generate_data] and the
    library's [create_sample_data] both return, without raising, sequences
    [x] and [y] with [len(x) == len(y) == n_points]. *)
Theorem C1_generators_return_n_points
  (data_type : string) (n_points : Z) (noise_level : float64)
  (s : RandomState) :
  (1 <= n_points)%Z ->
  (exists x y s',
      Dashboard._generate_data data_type n_points noise_level s
      = Ok ((x, y), s')
      /\ Z.of_nat (length x) = n_points /\ Z.of_nat (length y) = n_points)
  /\
  (exists x y title s',
      VisualFoundations.create_sample_data data_type n_points noise_level s
      = Ok ((x, y, title), s')
      /\ Z.of_nat (length x) = n_points /\ Z.of_nat (length y) = n_points).
Proof.
  intros Hn. split.
  - destruct (dashboard_shape data_type n_points noise_level s Hn)
      as (y & s' & E & Hy).
    exists (grid (Z.to_nat n_points)), y, s'.
    rewrite E, Hy, grid_length. repeat split; lia.
  - destruct (library_shape data_type n_points noise_level s Hn)
      as (y & t & s' & E & Hy).
    exists (grid (Z.to_nat n_points)), y, t, s'.
    rewrite E, Hy, grid_length. repeat split; lia.
Qed.

Lemma C1_witness :
  (1 <= 5)%Z /\
  exists x y s',
    Dashboard._generate_data "sine" 5 (Fin 0) example_source = Ok ((x, y), s')
    /\ Z.of_nat (length x) = 5%Z /\ Z.of_nat (length y) = 5%Z.
Proof.
  split; [lia |].
  apply (C1_generators_return_n_points "sine" 5 (Fin 0) example_source). lia.
Defined.

(* ===================================================================== *)
(** ** The sample grid *)
(* ===================================================================== *)

Section Grid.

Variable n : nat.

Lemma grid_nth (i : nat) :
  (i < n)%nat -> nth i (grid n) NaN = Fin (sample n i).
Proof.
  intros Hi. unfold grid.
  rewrite (nth_indep _ NaN (Fin (sample n 0))) by (rewrite length_map, length_seq; lia).
  rewrite (map_nth (fun i => Fin (sample n i)) (seq 0 n) 0%nat i).
  rewrite seq_nth by lia. reflexivity.
Qed.

Lemma sample_first : sample n 0 = 0.
Proof. unfold sample. simpl. ring. Qed.

Hypothesis two_points : (2 <= n)%nat.

Lemma step_pos : 0 < 10 / (INR n - 1).
Proof.
  apply Rdiv_lt_0_compat; [lra |].
  apply le_INR in two_points. simpl in two_points. lra.
Qed.

Lemma sample_last : sample n (n - 1) = 10.
Proof.
  unfold sample. rewrite minus_INR by lia. simpl INR.
  apply le_INR in two_points. simpl in two_points. field. lra.
Qed.

Lemma sample_increasing (i j : nat) : (i < j)%nat -> sample n i < sample n j.
Proof.
  intros Hij. unfold sample. apply Rmult_lt_compat_r; [apply step_pos |].
  now apply lt_INR.
Qed.

Lemma grid_strictly_increasing : strictly_increasing (grid n).
Proof.
  intros i j [Hij Hj]. rewrite grid_length in Hj.
  rewrite !grid_nth by lia. apply flt_fin_true. now apply sample_increasing.
Qed.

Lemma grid_first : nth 0 (grid n) NaN = Fin 0.
Proof. rewrite grid_nth by lia. now rewrite sample_first. Qed.

Lemma grid_last : last (grid n) NaN = Fin 10.
Proof.
  pose proof sample_last as Hl. unfold grid.
  destruct n as [| m]; [lia |].
  rewrite seq_S, map_app. change (map ?f [?a]) with [f a].
  rewrite last_last. simpl Nat.add. f_equal.
  replace m with (S m - 1)%nat at 2 by lia. exact Hl.
Qed.

End Grid.

(** C7.  For every [n_points >= 2] and every data type (the supported
    ones in particular), the [x] sequence returned by either generator is
    strictly increasing, its first element is exactly 0 and its last
    element is exactly 10. *)
Theorem C7_x_strictly_increasing_from_0_to_10
  (data_type : string) (n_points : Z) (noise_level : float64)
  (s : RandomState) :
  (2 <= n_points)%Z ->
  (exists x y s',
      Dashboard._generate_data data_type n_points noise_level s
      = Ok ((x, y), s')
      /\ strictly_increasing x
      /\ nth 0 x NaN = Fin 0 /\ last x NaN = Fin 10)
  /\
  (exists x y title s',
      VisualFoundations.create_sample_data data_type n_points noise_level s
      = Ok ((x, y, title), s')
      /\ strictly_increasing x
      /\ nth 0 x NaN = Fin 0 /\ last x NaN = Fin 10).
Proof.
  intros Hn.
  assert (H2 : (2 <= Z.to_nat n_points)%nat) by lia.
  assert (H1 : (1 <= n_points)%Z) by lia.
  split.
  - destruct (dashboard_shape data_type n_points noise_level s H1)
      as (y & s' & E & _).
    exists (grid (Z.to_nat n_points)), y, s'.
    auto using grid_strictly_increasing, grid_first, grid_last.
  - destruct (library_shape data_type n_points noise_level s H1)
      as (y & t & s' & E & _).
    exists (grid (Z.to_nat n_points)), y, t, s'.
    auto using grid_strictly_increasing, grid_first, grid_last.
Qed.

Lemma C7_witness :
  (2 <= 3)%Z /\
  exists x y s',
    Dashboard._generate_data "transit" 3 (Fin 0) example_source
    = Ok ((x, y), s')
    /\ strictly_increasing x
    /\ nth 0 x NaN = Fin 0 /\ last x NaN = Fin 10.
Proof.
  split; [lia |].
  apply (C7_x_strictly_increasing_from_0_to_10
           "transit" 3 (Fin 0) example_source).
  lia.
Defined.

(* ===================================================================== *)
(** ** Data types outside the enumerations *)
(* ===================================================================== *)

Section Fallback.

Variables (n_points : Z) (noise_level : float64).
Variable s : RandomState.
Hypothesis n_points_nonneg : (0 <= n_points)%Z.

Let n : nat := Z.to_nat n_points.

(** The random walk of the dashboard's [else] branch. *)
Lemma dashboard_random_walk :
  Dashboard._generate_data "random" n_points noise_level s
  = Ok ((grid n,
         zip_with fadd
           (cumsum (mul_s (draws (normal s) (drawn s) n) (Fin 0.3)))
           (s_mul noise_level (draws (uniform s) (drawn s + n) n))),
        advance n (advance n s)).
Proof.
  unfold Dashboard._generate_data. run. reflexivity.
Qed.

(** The ramp of the library's [else] branch. *)
Lemma library_linear :
  VisualFoundations.create_sample_data "linear" n_points noise_level s
  = Ok ((grid n,
         zip_with fadd (s_mul (Fin 0.5) (grid n))
           (s_mul noise_level (draws (uniform s) (drawn s) n)),
         "Sample Linear Data"%string),
        advance n s).
Proof.
  unfold VisualFoundations.create_sample_data. run. reflexivity.
Qed.

Lemma dashboard_else (data_type : string) :
  ~ In data_type Dashboard.data_type_options ->
  Dashboard._generate_data data_type n_points noise_level s
  = Dashboard._generate_data "random" n_points noise_level s.
Proof.
  intros H. unfold Dashboard.data_type_options in H. simpl in H.
  unfold Dashboard._generate_data.
  repeat match goal with
    | |- context [(data_type =? ?c)%string] =>
        replace (data_type =? c)%string with false
          by (symmetry; apply String.eqb_neq; intros ->; tauto)
    end.
  reflexivity.
Qed.

Lemma library_else (data_type : string) :
  ~ In data_type VisualFoundations.list_data_types ->
  VisualFoundations.create_sample_data data_type n_points noise_level s
  = VisualFoundations.create_sample_data "linear" n_points noise_level s.
Proof.
  intros H. unfold VisualFoundations.list_data_types in H. simpl in H.
  unfold VisualFoundations.create_sample_data.
  repeat match goal with
    | |- context [(data_type =? ?c)%string] =>
        replace (data_type =? c)%string with false
          by (symmetry; apply String.eqb_neq; intros ->; tauto)
    end.
  reflexivity.
Qed.

End Fallback.

Lemma dashboard_sine (n_points : Z) (noise_level : float64) (s : RandomState) :
  (0 <= n_points)%Z ->
  Dashboard._generate_data "sine" n_points noise_level s
  = Ok ((grid (Z.to_nat n_points),
         zip_with fadd (np_sin (grid (Z.to_nat n_points)))
           (s_mul noise_level
              (draws (uniform s) (drawn s) (Z.to_nat n_points)))),
        advance (Z.to_nat n_points) s).
Proof.
  intros Hn. unfold Dashboard._generate_data. run. reflexivity.
Qed.

Lemma library_sine (n_points : Z) (noise_level : float64) (s : RandomState) :
  (0 <= n_points)%Z ->
  VisualFoundations.create_sample_data "sine" n_points noise_level s
  = Ok ((grid (Z.to_nat n_points),
         zip_with fadd (np_sin (grid (Z.to_nat n_points)))
           (s_mul noise_level
              (draws (uniform s) (drawn s) (Z.to_nat n_points))),
         "Sample Sine Wave Data"%string),
        advance (Z.to_nat n_points) s).
Proof.
  intros Hn. unfold VisualFoundations.create_sample_data. run. reflexivity.
Qed.

(** Concrete sample counts: [Z.to_nat] of a literal is computed. *)
Ltac to_nat_eval :=
  repeat match goal with
    | |- context [Z.to_nat (Zpos ?p)] =>
        let v := eval vm_compute in (Z.to_nat (Zpos p)) in
        change (Z.to_nat (Zpos p)) with v
    end.

(** C3, as stated, fails for the dashboard: on the unlisted data type
    ["unknown"], one sample, no noise and a normal draw of one,
    [_generate_data] returns [y = [0.3]], the first step of a random walk,
    where the sine series is [y = [0]]. *)
Lemma C3_counterexample :
  ~ In "unknown"%string Dashboard.data_type_options
  /\ value (Dashboard._generate_data "unknown" 1 (Fin 0) example_source)
     = Some ([Fin 0], [Fin 0.3])
  /\ value (Dashboard._generate_data "sine" 1 (Fin 0) example_source)
     = Some ([Fin 0], [Fin 0])
  /\ Dashboard._generate_data "unknown" 1 (Fin 0) example_source
     <> Dashboard._generate_data "sine" 1 (Fin 0) example_source.
Proof.
  assert (Hno : ~ In "unknown"%string Dashboard.data_type_options).
  { unfold Dashboard.data_type_options. simpl.
    intros H. repeat (destruct H as [H | H]; [discriminate H |]). exact H. }
  assert (Hu : value (Dashboard._generate_data "unknown" 1 (Fin 0) example_source)
               = Some ([Fin 0], [Fin 0.3])).
  { rewrite dashboard_else by (lia || exact Hno).
    rewrite dashboard_random_walk by lia. to_nat_eval.
    cbn [value Nat.add grid draws map seq
         example_source normal uniform drawn mul_s s_mul cumsum cumsum_from
         zip_with fmul fadd].
    f_equal. f_equal; f_equal; f_equal; unfold sample; simpl; lra. }
  assert (Hs : value (Dashboard._generate_data "sine" 1 (Fin 0) example_source)
               = Some ([Fin 0], [Fin 0])).
  { rewrite dashboard_sine by lia. to_nat_eval.
    cbn [value Nat.add grid draws map seq
         example_source normal uniform drawn np_sin s_mul
         zip_with fmul fadd fsin].
    replace (sample 1 0) with 0 by (unfold sample; simpl; lra).
    rewrite sin_0.
    f_equal. f_equal; f_equal; f_equal; lra. }
  repeat split; try assumption.
  intros E. rewrite E, Hs in Hu.
  injection Hu as Hu. lra.
Qed.

(** C3, amended.  For every data type outside a module's enumeration and
    every [n_points >= 0], the generator does not raise and returns the
    series of its [else] branch: in the dashboard the random walk (what
    ["random"] returns: the running sum of 0.3 times normal draws, plus
    noise), in the library the linear ramp [0.5 x] plus noise with the
    title of the linear data. *)
Theorem C3_unknown_data_type_takes_else_branch
  (data_type : string) (n_points : Z) (noise_level : float64)
  (s : RandomState) :
  (0 <= n_points)%Z ->
  let n := Z.to_nat n_points in
  (~ In data_type Dashboard.data_type_options ->
   Dashboard._generate_data data_type n_points noise_level s
   = Dashboard._generate_data "random" n_points noise_level s
   /\ Dashboard._generate_data data_type n_points noise_level s
      = Ok ((grid n,
             zip_with fadd
               (cumsum (mul_s (draws (normal s) (drawn s) n) (Fin 0.3)))
               (s_mul noise_level (draws (uniform s) (drawn s + n) n))),
            advance n (advance n s)))
  /\
  (~ In data_type VisualFoundations.list_data_types ->
   VisualFoundations.create_sample_data data_type n_points noise_level s
   = VisualFoundations.create_sample_data "linear" n_points noise_level s
   /\ VisualFoundations.create_sample_data data_type n_points noise_level s
      = Ok ((grid n,
             zip_with fadd (s_mul (Fin 0.5) (grid n))
               (s_mul noise_level (draws (uniform s) (drawn s) n)),
             "Sample Linear Data"%string),
            advance n s)).
Proof.
  intros Hn n. split; intros Hout.
  - rewrite dashboard_else by assumption.
    split; [reflexivity | now apply dashboard_random_walk].
  - rewrite library_else by assumption.
    split; [reflexivity | now apply library_linear].
Qed.

Lemma C3_witness :
  (0 <= 2)%Z
  /\ ~ In "unknown"%string Dashboard.data_type_options
  /\ ~ In "unknown"%string VisualFoundations.list_data_types
  /\ Dashboard._generate_data "unknown" 2 (Fin 0) example_source
     = Dashboard._generate_data "random" 2 (Fin 0) example_source
  /\ VisualFoundations.create_sample_data "unknown" 2 (Fin 0) example_source
     = VisualFoundations.create_sample_data "linear" 2 (Fin 0) example_source.
Proof.
  assert (H0 : (0 <= 2)%Z) by lia.
  assert (Hd : ~ In "unknown"%string Dashboard.data_type_options).
  { simpl. intros H.
    repeat (destruct H as [H | H]; [discriminate H |]). exact H. }
  assert (Hl : ~ In "unknown"%string VisualFoundations.list_data_types).
  { simpl. intros H.
    repeat (destruct H as [H | H]; [discriminate H |]). exact H. }
  pose proof (C3_unknown_data_type_takes_else_branch
                "unknown" 2 (Fin 0) example_source H0) as [Hdash Hlib].
  exact (conj H0 (conj Hd (conj Hl
           (conj (proj1 (Hdash Hd)) (proj1 (Hlib Hl)))))).
Defined.

(* ===================================================================== *)
(** ** Entries of the arrays *)
(* ===================================================================== *)

Lemma map_nth_lt {A B : Type} (f : A -> B) (l : list A) (i : nat) (d : A) (d' : B) :
  (i < length l)%nat -> nth i (map f l) d' = f (nth i l d).
Proof.
  intros H. rewrite (nth_indep _ d' (f d)) by (rewrite length_map; lia).
  apply map_nth.
Qed.

Lemma draws_nth (tape : nat -> R) (from n i : nat) (d : float64) :
  (i < n)%nat -> nth i (draws tape from n) d = Fin (tape (from + i)%nat).
Proof.
  intros H. unfold draws.
  rewrite (map_nth_lt _ _ i 0%nat) by (rewrite length_seq; lia).
  now rewrite seq_nth.
Qed.

Lemma repeat_nth_lt {A : Type} (a d : A) (n i : nat) :
  (i < n)%nat -> nth i (repeat a n) d = a.
Proof.
  revert i. induction n as [| n IH]; intros [| i] H; simpl; try lia; auto.
  apply IH. lia.
Qed.

(** Entry [i] of an array expression, pushed through the elementwise
    operations down to the entries of its operands. *)
Ltac nth_push i :=
  unfold s_add, s_mul, mul_s, add_s, s_div, sub_s, div_s, pow_s,
    lt_s, gt_s, np_sin, np_exp, np_abs, np_neg;
  repeat first
    [ rewrite (zip_with_nth _ _ _ i NaN NaN NaN) by len
    | rewrite (zip_with_nth _ _ _ i NaN false NaN) by len
    | rewrite (zip_with_nth _ _ _ i false false false) by len
    | rewrite (map_nth_lt _ _ i NaN NaN) by len
    | rewrite (map_nth_lt _ _ i NaN false) by len
    | rewrite (repeat_nth_lt _ _ _ i) by len
    | rewrite (draws_nth _ _ _ i) by len ].

Section Transit.

Variables (n_points : Z) (noise_level : float64).
Variable s : RandomState.
Hypothesis n_points_nonneg : (0 <= n_points)%Z.

Let n : nat := Z.to_nat n_points.

Lemma dashboard_transit :
  exists y s',
    Dashboard._generate_data "transit" n_points noise_level s
    = Ok ((grid n, y), s')
    /\ forall i : nat, (i < n)%nat ->
         nth i y NaN =
         transit_at (Fin 0.015)
           (fsub (fsub (Fin 5.0) (fdiv (Fin 1.5) (Fin 2))) (Fin 0.3))
           (fadd (fsub (Fin 5.0) (fdiv (Fin 1.5) (Fin 2))) (Fin 0.1))
           (fsub (fadd (Fin 5.0) (fdiv (Fin 1.5) (Fin 2))) (Fin 0.1))
           (fadd (fadd (Fin 5.0) (fdiv (Fin 1.5) (Fin 2))) (Fin 0.3))
           (fmul noise_level (Fin 0.1))
           (nth i (grid n) NaN) (Fin (uniform s (drawn s + i))).
Proof.
  unfold Dashboard._generate_data. run.
  do 2 eexists. split; [reflexivity |].
  intros i Hi. fold n. nth_push i. reflexivity.
Qed.

Lemma library_transit :
  exists y s',
    VisualFoundations.create_sample_data "transit" n_points noise_level s
    = Ok ((grid n, y, "Sample Exoplanet Transit"%string), s')
    /\ forall i : nat, (i < n)%nat ->
         nth i y NaN =
         transit_at (Fin 0.02)
           (fsub (fsub (Fin 5.0) (fdiv (Fin 1.5) (Fin 2))) (Fin 0.2))
           (fadd (fsub (Fin 5.0) (fdiv (Fin 1.5) (Fin 2))) (Fin 0.2))
           (fsub (fadd (Fin 5.0) (fdiv (Fin 1.5) (Fin 2))) (Fin 0.2))
           (fadd (fadd (Fin 5.0) (fdiv (Fin 1.5) (Fin 2))) (Fin 0.2))
           (fmul noise_level (Fin 0.1))
           (nth i (grid n) NaN) (Fin (uniform s (drawn s + i))).
Proof.
  unfold VisualFoundations.create_sample_data. run.
  do 2 eexists. split; [reflexivity |].
  intros i Hi. fold n. nth_push i. reflexivity.
Qed.

End Transit.

(** *** One transit entry over the reals, without noise *)

Section TransitEntry.

Variables (d l1 h1 l2 h2 : R).
Variables (x u : R).

Let entry : float64 :=
  transit_at (Fin d) (Fin l1) (Fin h1) (Fin l2) (Fin h2)
    (fmul (Fin 0) (Fin 0.1)) (Fin x) (Fin u).

Lemma window_iff : Rabs (x - 5.0) < 1.5 / 2 <-> 4.25 < x < 5.75.
Proof.
  split.
  - intros H. apply Rabs_def2 in H. lra.
  - intros H. apply Rabs_def1; lra.
Qed.

Lemma transit_entry_cases :
  entry =
  Fin (1 - (if Rlt_dec (Rabs (x - 5.0)) (1.5 / 2) then d else 0)
         - (if Rlt_dec l1 x then if Rlt_dec x h1 then d * 0.5 else 0 else 0)
         - (if Rlt_dec l2 x then if Rlt_dec x h2 then d * 0.5 else 0 else 0)).
Proof.
  unfold entry, transit_at, fgt. cbn [fsub fabs fmul fadd].
  rewrite fdiv_fin by lra. unfold flt.
  destruct (Rlt_dec (Rabs (x - 5.0)) (1.5 / 2));
    destruct (Rlt_dec l1 x); destruct (Rlt_dec x h1);
    destruct (Rlt_dec l2 x); destruct (Rlt_dec x h2);
    cbn [andb fsub fadd]; f_equal; lra.
Qed.

Lemma transit_entry_baseline :
  ~ Rabs (x - 5.0) < 0.75 -> ~ l1 < x < h1 -> ~ l2 < x < h2 ->
  entry = Fin 1.
Proof.
  intros Hw H1 H2. rewrite transit_entry_cases.
  destruct (Rlt_dec (Rabs (x - 5.0)) (1.5 / 2)) as [W | W];
    [exfalso; apply Hw; apply window_iff in W; apply Rabs_def1; lra |].
  destruct (Rlt_dec l1 x); destruct (Rlt_dec x h1);
    destruct (Rlt_dec l2 x); destruct (Rlt_dec x h2);
    try (exfalso; lra); f_equal; lra.
Qed.

Lemma transit_entry_bottom :
  Rabs (x - 5.0) < 0.75 -> ~ l1 < x < h1 -> ~ l2 < x < h2 ->
  entry = Fin (1 - d).
Proof.
  intros Hw H1 H2. rewrite transit_entry_cases.
  destruct (Rlt_dec (Rabs (x - 5.0)) (1.5 / 2)) as [W | W];
    [| exfalso; apply W; apply Rabs_def2 in Hw; apply Rabs_def1; lra].
  destruct (Rlt_dec l1 x); destruct (Rlt_dec x h1);
    destruct (Rlt_dec l2 x); destruct (Rlt_dec x h2);
    try (exfalso; lra); f_equal; lra.
Qed.

Lemma transit_entry_shoulder_outside :
  ~ Rabs (x - 5.0) < 0.75 -> l1 < x < h1 -> ~ l2 < x < h2 ->
  entry = Fin (1 - d * 0.5).
Proof.
  intros Hw H1 H2. rewrite transit_entry_cases.
  destruct (Rlt_dec (Rabs (x - 5.0)) (1.5 / 2)) as [W | W];
    [exfalso; apply Hw; apply window_iff in W; apply Rabs_def1; lra |].
  destruct (Rlt_dec l1 x); destruct (Rlt_dec x h1);
    destruct (Rlt_dec l2 x); destruct (Rlt_dec x h2);
    try (exfalso; lra); f_equal; lra.
Qed.

Lemma transit_entry_shoulder_inside :
  Rabs (x - 5.0) < 0.75 -> l1 < x < h1 -> ~ l2 < x < h2 ->
  entry = Fin (1 - d - d * 0.5).
Proof.
  intros Hw H1 H2. rewrite transit_entry_cases.
  destruct (Rlt_dec (Rabs (x - 5.0)) (1.5 / 2)) as [W | W];
    [| exfalso; apply W; apply Rabs_def2 in Hw; apply Rabs_def1; lra].
  destruct (Rlt_dec l1 x); destruct (Rlt_dec x h1);
    destruct (Rlt_dec l2 x); destruct (Rlt_dec x h2);
    try (exfalso; lra); f_equal; lra.
Qed.

End TransitEntry.

(** C4, amended.  For every [n_points >= 1] and [noise_level = 0], the
    transit series equals the baseline 1.0 at every sample [x] that lies
    outside the transit window and, by the margin [guard] at least,
    outside both ingress/egress intervals (dashboard: [3.95 < x < 4.35]
    and [5.65 < x < 6.05]; library: [4.05 < x < 4.45] and
    [5.55 < x < 5.95]), and at every sample with [|x - 5.0| < 0.75] that
    far outside those intervals it is the baseline reduced by exactly the
    transit depth (0.015 in the dashboard, 0.02 in the library).  The two
    edges of the window lie inside the intervals left out, so every
    comparison that decides such a sample is clear of its threshold. *)
Theorem C4_transit_baseline_and_flat_bottom
  (n_points : Z) (s : RandomState) (i : nat) :
  (1 <= n_points)%Z -> (i < Z.to_nat n_points)%nat ->
  let xi := sample (Z.to_nat n_points) i in
  (exists x y s',
      Dashboard._generate_data "transit" n_points (Fin 0) s = Ok ((x, y), s')
      /\ nth i x NaN = Fin xi
      /\ (~ Rabs (xi - 5.0) < 0.75 ->
          ~ 3.95 - guard < xi < 4.35 + guard ->
          ~ 5.65 - guard < xi < 6.05 + guard ->
          nth i y NaN = Fin 1.0)
      /\ (Rabs (xi - 5.0) < 0.75 ->
          ~ 3.95 - guard < xi < 4.35 + guard ->
          ~ 5.65 - guard < xi < 6.05 + guard ->
          nth i y NaN = Fin (1.0 - 0.015)))
  /\
  (exists x y title s',
      VisualFoundations.create_sample_data "transit" n_points (Fin 0) s
      = Ok ((x, y, title), s')
      /\ nth i x NaN = Fin xi
      /\ (~ Rabs (xi - 5.0) < 0.75 ->
          ~ 4.05 - guard < xi < 4.45 + guard ->
          ~ 5.55 - guard < xi < 5.95 + guard ->
          nth i y NaN = Fin 1.0)
      /\ (Rabs (xi - 5.0) < 0.75 ->
          ~ 4.05 - guard < xi < 4.45 + guard ->
          ~ 5.55 - guard < xi < 5.95 + guard ->
          nth i y NaN = Fin (1.0 - 0.02))).
Proof.
  intros Hn Hi xi.
  assert (H0 : (0 <= n_points)%Z) by lia.
  assert (G : 0 < guard) by (unfold guard; lra).
  split.
  - destruct (dashboard_transit n_points (Fin 0) s H0) as (y & s' & E & Hy).
    exists (grid (Z.to_nat n_points)), y, s'.
    split; [exact E |]. split; [now apply grid_nth |].
    specialize (Hy i Hi). rewrite grid_nth in Hy by exact Hi. fold xi in Hy.
    rewrite fdiv_fin in Hy by lra. cbn [fsub fadd] in Hy.
    split; intros Hw H1 H2; rewrite Hy.
    + replace 1.0 with 1 by lra.
      apply transit_entry_baseline; [exact Hw | lra | lra].
    + replace (1.0 - 0.015) with (1 - 0.015) by lra.
      apply transit_entry_bottom; [exact Hw | lra | lra].
  - destruct (library_transit n_points (Fin 0) s H0) as (y & s' & E & Hy).
    exists (grid (Z.to_nat n_points)), y, "Sample Exoplanet Transit"%string, s'.
    split; [exact E |]. split; [now apply grid_nth |].
    specialize (Hy i Hi). rewrite grid_nth in Hy by exact Hi. fold xi in Hy.
    rewrite fdiv_fin in Hy by lra. cbn [fsub fadd] in Hy.
    split; intros Hw H1 H2; rewrite Hy.
    + replace 1.0 with 1 by lra.
      apply transit_entry_baseline; [exact Hw | lra | lra].
    + replace (1.0 - 0.02) with (1 - 0.02) by lra.
      apply transit_entry_bottom; [exact Hw | lra | lra].
Qed.

Lemma sample_5_2 : sample (Z.to_nat 5) 2 = 5.
Proof. to_nat_eval. unfold sample. simpl INR. lra. Qed.

Lemma C4_witness :
  (1 <= 5)%Z /\ (2 < Z.to_nat 5)%nat /\
  exists x y s',
    Dashboard._generate_data "transit" 5 (Fin 0) example_source
    = Ok ((x, y), s')
    /\ nth 2 x NaN = Fin (sample (Z.to_nat 5) 2)
    /\ sample (Z.to_nat 5) 2 = 5
    /\ nth 2 y NaN = Fin (1.0 - 0.015).
Proof.
  assert (H1 : (1 <= 5)%Z) by lia.
  assert (H2 : (2 < Z.to_nat 5)%nat) by (vm_compute; lia).
  split; [exact H1 |]. split; [exact H2 |].
  destruct (C4_transit_baseline_and_flat_bottom 5 example_source 2 H1 H2)
    as [(x & y & s' & E & Hx & _ & Hbottom) _].
  exists x, y, s'. split; [exact E |]. split; [exact Hx |].
  split; [exact sample_5_2 |].
  apply Hbottom; rewrite sample_5_2; unfold guard.
  - apply Rabs_def1; lra.
  - lra.
  - lra.
Defined.

(** C4, as stated, fails in both modules.  With eight samples the fourth
    one, [x = 30/7], lies inside the window [|x - 5.0| < 0.75] and inside
    the ingress interval, and the value is the baseline less one and a
    half times the depth (0.9775 in the dashboard, 0.97 in the library),
    not the baseline less the depth.  With six samples the third one,
    [x = 4], lies outside the window and the dashboard value is 0.9925,
    not the baseline. *)
Lemma C4_counterexample :
  (exists y s',
      Dashboard._generate_data "transit" 8 (Fin 0) example_source
      = Ok ((grid 8, y), s')
      /\ nth 3 (grid 8) NaN = Fin (30 / 7)
      /\ Rabs (30 / 7 - 5.0) < 0.75
      /\ nth 3 y NaN = Fin 0.9775
      /\ nth 3 y NaN <> Fin (1.0 - 0.015))
  /\
  (exists y s',
      VisualFoundations.create_sample_data "transit" 8 (Fin 0) example_source
      = Ok ((grid 8, y, "Sample Exoplanet Transit"%string), s')
      /\ nth 3 (grid 8) NaN = Fin (30 / 7)
      /\ Rabs (30 / 7 - 5.0) < 0.75
      /\ nth 3 y NaN = Fin 0.97
      /\ nth 3 y NaN <> Fin (1.0 - 0.02))
  /\
  (exists y s',
      Dashboard._generate_data "transit" 6 (Fin 0) example_source
      = Ok ((grid 6, y), s')
      /\ nth 2 (grid 6) NaN = Fin 4
      /\ ~ Rabs (4 - 5.0) < 0.75
      /\ nth 2 y NaN = Fin 0.9925
      /\ nth 2 y NaN <> Fin 1.0).
Proof.
  assert (X8 : sample 8 3 = 30 / 7) by (unfold sample; simpl INR; lra).
  assert (X6 : sample 6 2 = 4) by (unfold sample; simpl INR; lra).
  assert (W8 : Rabs (30 / 7 - 5.0) < 0.75) by (apply Rabs_def1; lra).
  assert (W6 : ~ Rabs (4 - 5.0) < 0.75).
  { intros H. apply Rabs_def2 in H. lra. }
  assert (G8 : nth 3 (grid 8) NaN = Fin (30 / 7))
    by (rewrite grid_nth by lia; now rewrite X8).
  assert (G6 : nth 2 (grid 6) NaN = Fin 4)
    by (rewrite grid_nth by lia; now rewrite X6).
  split; [| split].
  - destruct (dashboard_transit 8 (Fin 0) example_source) as (y & s' & E & Hy);
      [lia |].
    change (Z.to_nat 8) with 8%nat in *.
    exists y, s'. split; [exact E |]. split; [exact G8 |]. split; [exact W8 |].
    assert (V : nth 3 y NaN = Fin 0.9775).
    { rewrite (Hy 3%nat) by lia. rewrite G8.
      rewrite fdiv_fin by lra. cbn [fsub fadd].
      replace 0.9775 with (1 - 0.015 - 0.015 * 0.5) by lra.
      apply transit_entry_shoulder_inside; [exact W8 | lra | lra]. }
    split; [exact V |]. rewrite V. intros H. injection H as H. lra.
  - destruct (library_transit 8 (Fin 0) example_source) as (y & s' & E & Hy);
      [lia |].
    change (Z.to_nat 8) with 8%nat in *.
    exists y, s'. split; [exact E |]. split; [exact G8 |]. split; [exact W8 |].
    assert (V : nth 3 y NaN = Fin 0.97).
    { rewrite (Hy 3%nat) by lia. rewrite G8.
      rewrite fdiv_fin by lra. cbn [fsub fadd].
      replace 0.97 with (1 - 0.02 - 0.02 * 0.5) by lra.
      apply transit_entry_shoulder_inside; [exact W8 | lra | lra]. }
    split; [exact V |]. rewrite V. intros H. injection H as H. lra.
  - destruct (dashboard_transit 6 (Fin 0) example_source) as (y & s' & E & Hy);
      [lia |].
    change (Z.to_nat 6) with 6%nat in *.
    exists y, s'. split; [exact E |]. split; [exact G6 |]. split; [exact W6 |].
    assert (V : nth 2 y NaN = Fin 0.9925).
    { rewrite (Hy 2%nat) by lia. rewrite G6.
      rewrite fdiv_fin by lra. cbn [fsub fadd].
      replace 0.9925 with (1 - 0.015 * 0.5) by lra.
      apply transit_entry_shoulder_outside; [exact W6 | lra | lra]. }
    split; [exact V |]. rewrite V. intros H. injection H as H. lra.
Qed.

(* ===================================================================== *)
(** ** The blackbody branch of the library *)
(* ===================================================================== *)

Lemma fpow_zero_neg5 : fpow (Fin 0) (-5) = PInf.
Proof.
  unfold fpow. change (-5 <? 0)%Z with true. cbv iota.
  change (Z.to_nat (- -5)) with 5%nat. cbn [fpow_nat fmul].
  unfold fdiv. destruct (Req_dec_T (0 * (0 * (0 * (0 * (0 * 1))))) 0) as [_ | H];
    [| exfalso; apply H; ring].
  now rewrite Rsgn_pos by lra.
Qed.

Lemma fpow_pos_neg5 (x : R) : 0 < x -> exists r, fpow (Fin x) (-5) = Fin r.
Proof.
  intros Hx. unfold fpow. change (-5 <? 0)%Z with true. cbv iota.
  change (Z.to_nat (- -5)) with 5%nat. cbn [fpow_nat fmul].
  assert (H : 0 < x * (x * (x * (x * (x * 1))))).
  { repeat apply Rmult_lt_0_compat; lra. }
  rewrite fdiv_fin by lra. eauto.
Qed.

(** The denominator [exp(1 / (x + 0.1)) - 1] is finite and positive at
    every sample. *)
Lemma planck_denominator (x : R) :
  0 <= x ->
  exists r, 0 < r /\
    fsub (fexp (fdiv (Fin 1.0) (fadd (Fin x) (Fin 0.1)))) (Fin 1) = Fin r.
Proof.
  intros Hx. cbn [fadd]. rewrite fdiv_fin by lra. cbn [fexp fsub].
  eexists. split; [| reflexivity].
  assert (H : 0 < 1.0 / (x + 0.1)) by (apply Rdiv_lt_0_compat; lra).
  pose proof (exp_ineq1 (1.0 / (x + 0.1))) as E.
  assert (1.0 / (x + 0.1) <> 0) by lra. specialize (E H0). lra.
Qed.

Lemma fold_fmax_pinf (l : ndarray) :
  (forall v, In v l -> is_nan v = false) -> fold_left fmax l PInf = PInf.
Proof.
  induction l as [| v l IH]; intros H; [reflexivity |].
  simpl. destruct v; simpl in *.
  - apply IH. auto.
  - apply IH. auto.
  - apply IH. auto.
  - specialize (H NaN (or_introl eq_refl)). discriminate.
Qed.

Lemma sample_nonneg (n i : nat) : (1 <= n)%nat -> 0 <= sample n i.
Proof.
  intros Hn. unfold sample. pose proof (pos_INR i).
  destruct (Nat.eq_dec n 1) as [-> | Hne].
  - simpl INR. replace (1 - 1) with 0 by lra. unfold Rdiv. rewrite Rinv_0. lra.
  - assert (2 <= n)%nat by lia. pose proof (step_pos n H0).
    apply Rmult_le_pos; lra.
Qed.

Lemma sample_pos (n i : nat) : (1 <= i < n)%nat -> 0 < sample n i.
Proof.
  intros [Hi Hn]. unfold sample.
  assert (2 <= n)%nat by lia. pose proof (step_pos n H).
  apply Rmult_lt_0_compat; [| assumption].
  apply lt_0_INR. lia.
Qed.

Section Blackbody.

Variables (n_points : Z) (noise_level : float64).
Variable s : RandomState.
Hypothesis n_points_pos : (1 <= n_points)%Z.

Let n : nat := Z.to_nat n_points.

(** The quotient [x ** -5 / (exp(1 / (x + 0.1)) - 1)] before it is
    normalised. *)
Let planck : ndarray :=
  zip_with fdiv (pow_s (grid n) (-5))
    (sub_s (np_exp (s_div (Fin 1.0) (add_s (grid n) (Fin 0.1)))) (Fin 1)).

Lemma planck_length : length planck = n.
Proof. unfold planck. len. Qed.

Lemma planck_entry (i : nat) :
  (i < n)%nat ->
  nth i planck NaN =
  fdiv (fpow (Fin (sample n i)) (-5))
       (fsub (fexp (fdiv (Fin 1.0) (fadd (Fin (sample n i)) (Fin 0.1))))
             (Fin 1)).
Proof.
  intros Hi. unfold planck. nth_push i. now rewrite grid_nth.
Qed.

(** The first sample is [x = 0]: the power divides by zero and the
    quotient is plus infinity. *)
Lemma planck_first : nth 0 planck NaN = PInf.
Proof.
  rewrite planck_entry by (unfold n; lia).
  rewrite sample_first, fpow_zero_neg5.
  destruct (planck_denominator 0) as (r & Hr & ->); [lra |].
  unfold fdiv. destruct (Rlt_dec r 0); [lra | reflexivity].
Qed.

Lemma planck_rest (i : nat) :
  (1 <= i < n)%nat -> exists r, nth i planck NaN = Fin r.
Proof.
  intros Hi. rewrite planck_entry by lia.
  pose proof (sample_pos n i Hi) as Hx.
  destruct (fpow_pos_neg5 _ Hx) as (p & ->).
  destruct (planck_denominator (sample n i)) as (r & Hr & ->); [lra |].
  rewrite fdiv_fin by lra. eauto.
Qed.

Lemma planck_max : fold_left fmax (tl planck) (hd NaN planck) = PInf.
Proof.
  pose proof planck_length as L. pose proof planck_first as F.
  pose proof planck_rest as R.
  destruct planck as [| v l]; [simpl in L; unfold n in L; lia |].
  simpl in F. subst v. simpl. apply fold_fmax_pinf.
  intros v Hv. apply (In_nth _ _ NaN) in Hv. destruct Hv as (i & Hi & <-).
  simpl in L. destruct (R (S i)) as (r & E); [lia |].
  simpl in E. now rewrite E.
Qed.

Lemma library_blackbody :
  exists y s',
    VisualFoundations.create_sample_data "blackbody" n_points noise_level s
    = Ok ((grid n, y, "Sample Blackbody Spectrum"%string), s')
    /\ length y = n
    /\ nth 0 y NaN = NaN
    /\ forall i : nat, (1 <= i < n)%nat ->
         nth i y NaN =
         fadd (Fin 0)
              (fmul (fmul noise_level (Fin 0.05))
                    (Fin (uniform s (drawn s + i)))).
Proof.
  unfold VisualFoundations.create_sample_data. run.
  fold n. fold planck. rewrite planck_max.
  do 2 eexists. split; [reflexivity |].
  pose proof planck_length as L.
  split; [len |].
  split.
  - nth_push 0%nat; try (unfold n; lia).
    now rewrite planck_first.
  - intros i Hi. nth_push i.
    destruct (planck_rest i Hi) as (r & ->). reflexivity.
Qed.

End Blackbody.

(** C6.  The claim fails on the code.  On
    [create_sample_data('blackbody', n_points=5, noise_level=0)] the first
    sample is [x = 0], the power [x ** -5] divides by zero and gives plus
    infinity, the maximum of the quotient is plus infinity, and the
    normalised series is [[nan, 0, 0, 0, 0]]: its first entry is not
    finite and its maximum is not 1. *)
Theorem C6_blackbody_first_entry_is_nan (s : RandomState) :
  exists s',
    VisualFoundations.create_sample_data "blackbody" 5 (Fin 0) s
    = Ok ((grid 5, [NaN; Fin 0; Fin 0; Fin 0; Fin 0],
           "Sample Blackbody Spectrum"%string), s')
    /\ nth 0 (grid 5) NaN = Fin 0
    /\ fpow (Fin 0) (-5) = PInf.
Proof.
  destruct (library_blackbody 5 (Fin 0) s) as (y & s' & E & L & H0 & Hi);
    [lia |].
  change (Z.to_nat 5) with 5%nat in *.
  exists s'. split; [| split; [apply grid_first; lia | apply fpow_zero_neg5]].
  rewrite E. do 4 f_equal.
  apply (nth_ext _ _ NaN NaN); [exact L |].
  intros i Hlt. rewrite L in Hlt.
  destruct i as [| i]; [exact H0 |].
  rewrite Hi by lia. cbn [fmul fadd].
  do 4 (destruct i as [| i]; [simpl; f_equal; lra |]). lia.
Qed.

(* ===================================================================== *)
(** ** Without noise, the output does not depend on the random source *)
(* ===================================================================== *)

Lemma fadd_zero_r (a : float64) (z : R) : z = 0 -> fadd a (Fin z) = a.
Proof.
  intros ->. destruct a; simpl; try reflexivity. f_equal. lra.
Qed.

(** Adding a noise array scaled by zero changes nothing: the draws are
    finite, so each product is zero. *)
Lemma noise_free (a : ndarray) (c : R) (tape : nat -> R) (from n : nat) :
  c = 0 -> length a = n ->
  zip_with fadd a (s_mul (Fin c) (draws tape from n)) = a.
Proof.
  intros -> L. apply (nth_ext _ _ NaN NaN); [len |].
  intros i Hi. autorewrite with len in Hi. unfold s_mul in Hi.
  autorewrite with len in Hi.
  nth_push i. cbn [fmul]. apply fadd_zero_r. lra.
Qed.

Section NoiseFree.

Variable n_points : Z.
Variables s1 s2 : RandomState.
Hypothesis n_points_pos : (1 <= n_points)%Z.

Ltac noise_free_run :=
  run; cbn [fmul value];
  rewrite !noise_free by (lra || len);
  reflexivity.

Lemma library_noise_free (data_type : string) :
  value (VisualFoundations.create_sample_data data_type n_points (Fin 0) s1)
  = value (VisualFoundations.create_sample_data data_type n_points (Fin 0) s2).
Proof.
  unfold VisualFoundations.create_sample_data.
  destruct (data_type =? "sine")%string;
    [| destruct (data_type =? "exponential")%string;
       [| destruct (data_type =? "spectrum")%string;
          [| destruct (data_type =? "lightcurve")%string;
             [| destruct (data_type =? "transit")%string;
                [| destruct (data_type =? "blackbody")%string]]]]];
    noise_free_run.
Qed.

Lemma dashboard_noise_free (data_type : string) :
  In data_type ["sine"; "exponential"; "spectrum"; "lightcurve"; "transit"]%string ->
  value (Dashboard._generate_data data_type n_points (Fin 0) s1)
  = value (Dashboard._generate_data data_type n_points (Fin 0) s2).
Proof.
  intros H. simpl in H.
  unfold Dashboard._generate_data.
  repeat (destruct H as [<- | H]; [noise_free_run |]).
  contradiction.
Qed.

End NoiseFree.

Lemma dashboard_random_depends :
  value (Dashboard._generate_data "random" 1 (Fin 0) example_source)
  <> value (Dashboard._generate_data "random" 1 (Fin 0) other_source).
Proof.
  rewrite !dashboard_random_walk by lia. to_nat_eval.
  cbn [value Nat.add grid draws map seq example_source other_source
       normal uniform drawn mul_s s_mul cumsum cumsum_from zip_with fmul fadd].
  intros H. injection H as H. lra.
Qed.

(** C8.  With [noise_level = 0] and [n_points >= 1], what a generator
    returns does not depend on the random source it is started on (so two
    successive calls, the second running on the source the first one left
    behind, return the same arrays): in the library for every data type,
    hence for sine, exponential, spectrum, lightcurve, transit, blackbody
    and linear, and in the dashboard for sine, exponential, spectrum,
    lightcurve and transit.  The dashboard's random walk is the one branch
    whose output still depends on the random source. *)
Theorem C8_noise_free_output_is_reproducible
  (data_type : string) (n_points : Z) (s1 s2 : RandomState) :
  (1 <= n_points)%Z ->
  value (VisualFoundations.create_sample_data data_type n_points (Fin 0) s1)
  = value (VisualFoundations.create_sample_data data_type n_points (Fin 0) s2)
  /\ (In data_type
        ["sine"; "exponential"; "spectrum"; "lightcurve"; "transit"]%string ->
      value (Dashboard._generate_data data_type n_points (Fin 0) s1)
      = value (Dashboard._generate_data data_type n_points (Fin 0) s2))
  /\ value (Dashboard._generate_data "random" 1 (Fin 0) example_source)
     <> value (Dashboard._generate_data "random" 1 (Fin 0) other_source).
Proof.
  intros Hn. split; [| split].
  - now apply library_noise_free.
  - now apply dashboard_noise_free.
  - exact dashboard_random_depends.
Qed.

Lemma C8_witness :
  (1 <= 4)%Z
  /\ In "transit"%string
       ["sine"; "exponential"; "spectrum"; "lightcurve"; "transit"]%string
  /\ value (VisualFoundations.create_sample_data "transit" 4 (Fin 0)
              example_source)
     = value (VisualFoundations.create_sample_data "transit" 4 (Fin 0)
                other_source)
  /\ value (Dashboard._generate_data "transit" 4 (Fin 0) example_source)
     = value (Dashboard._generate_data "transit" 4 (Fin 0) other_source).
Proof.
  assert (H1 : (1 <= 4)%Z) by lia.
  assert (HIn : In "transit"%string
                  ["sine"; "exponential"; "spectrum"; "lightcurve";
                   "transit"]%string).
  { simpl. do 4 right. left. reflexivity. }
  pose proof (C8_noise_free_output_is_reproducible
                "transit" 4 example_source other_source H1) as [Hl [Hd _]].
  exact (conj H1 (conj HIn (conj Hl (Hd HIn)))).
Defined.

(* ===================================================================== *)
(** ** The collection of learning datasets *)
(* ===================================================================== *)

(** C10.  For every [n_points >= 1], [learning_dashboard_data(n_points)]
    returns a dictionary with exactly the six keys ['sine_wave'],
    ['exponential'], ['spectrum'], ['lightcurve'], ['transit'] and
    ['blackbody'], every value is a pair [(x, y)] of sequences of length
    [n_points], and the ['sine_wave'] entry is what
    [create_sample_data('sine', n_points)] returns, without the title. *)
Theorem C10_learning_dashboard_data_has_six_datasets
  (n_points : Z) (s : RandomState) :
  (1 <= n_points)%Z ->
  exists d s',
    VisualFoundations.learning_dashboard_data n_points s = Ok (d, s')
    /\ VisualFoundations.keys d
       = ["sine_wave"; "exponential"; "spectrum"; "lightcurve"; "transit";
          "blackbody"]%string
    /\ (forall k x y,
          VisualFoundations.dict_get d k = Some (x, y) ->
          Z.of_nat (length x) = n_points /\ Z.of_nat (length y) = n_points)
    /\ exists x y title s1,
         VisualFoundations.create_sample_data "sine" n_points
           VisualFoundations.default_noise_level s
         = Ok ((x, y, title), s1)
         /\ VisualFoundations.dict_get d "sine_wave" = Some (x, y).
Proof.
  intros Hn.
  unfold VisualFoundations.learning_dashboard_data.
  cbn [for_each]. unfold bind, ret.
  set (nl := VisualFoundations.default_noise_level).
  destruct (library_shape "sine" n_points nl s Hn)
    as (y1 & t1 & s1 & E1 & L1).
  rewrite E1. cbv beta iota.
  destruct (library_shape "exponential" n_points nl s1 Hn)
    as (y2 & t2 & s2 & E2 & L2).
  rewrite E2. cbv beta iota.
  destruct (library_shape "spectrum" n_points nl s2 Hn)
    as (y3 & t3 & s3 & E3 & L3).
  rewrite E3. cbv beta iota.
  destruct (library_shape "lightcurve" n_points nl s3 Hn)
    as (y4 & t4 & s4 & E4 & L4).
  rewrite E4. cbv beta iota.
  destruct (library_shape "transit" n_points nl s4 Hn)
    as (y5 & t5 & s5 & E5 & L5).
  rewrite E5. cbv beta iota.
  destruct (library_shape "blackbody" n_points nl s5 Hn)
    as (y6 & t6 & s6 & E6 & L6).
  rewrite E6. cbv beta iota.
  cbn [negb String.eqb Ascii.eqb Bool.eqb VisualFoundations.dict_set].
  do 2 eexists. split; [reflexivity |].
  split; [reflexivity |].
  pose proof (grid_length (Z.to_nat n_points)) as G.
  split.
  - intros k x y.
    cbn [VisualFoundations.dict_get].
    repeat match goal with
      | |- context [(?c =? k)%string] => destruct (c =? k)%string
      end;
      intros H; inversion H; subst; lia.
  - exists (grid (Z.to_nat n_points)), y1, t1, s1.
    split; [reflexivity | reflexivity].
Qed.

Lemma C10_witness :
  (1 <= 3)%Z /\
  exists d s',
    VisualFoundations.learning_dashboard_data 3 example_source = Ok (d, s')
    /\ VisualFoundations.keys d
       = ["sine_wave"; "exponential"; "spectrum"; "lightcurve"; "transit";
          "blackbody"]%string.
Proof.
  assert (H1 : (1 <= 3)%Z) by lia.
  split; [exact H1 |].
  destruct (C10_learning_dashboard_data_has_six_datasets 3 example_source H1)
    as (d & s' & E & K & _).
  exists d, s'. exact (conj E K).
Defined.

(* ===================================================================== *)
(** ** The exit code of the diagnostic run *)
(* ===================================================================== *)

Module TF := TestFoundation.

Lemma add_all_results (t : TF.TestResults) (rs : list TF.TestResult) :
  TF.results (TF.add_all t rs) = TF.results t ++ rs.
Proof.
  unfold TF.add_all. revert t. induction rs as [| r rs IH]; intros t; simpl.
  - now rewrite app_nil_r.
  - rewrite IH. unfold TF.add. simpl. now rewrite <- app_assoc.
Qed.

Lemma fail_count_app (a b : list TF.TestResult) :
  fail_count (a ++ b) = (fail_count a + fail_count b)%nat.
Proof.
  unfold fail_count. now rewrite filter_app, length_app.
Qed.

Lemma fail_count_zero (rs : list TF.TestResult) :
  fail_count rs = 0%nat <->
  forall r, In r rs -> TF.status r <> TF.FAIL.
Proof.
  unfold fail_count. induction rs as [| r rs IH]; simpl.
  - split; [intros _ r [] | reflexivity].
  - destruct (TF.status r) eqn:E; simpl; rewrite ?IH.
    + split.
      * intros H r' [<- | Hr]; [congruence | auto].
      * intros H. intros r' Hr. apply H. now right.
    + split; [discriminate |].
      intros H. exfalso. apply (H r); [now left | exact E].
    + split.
      * intros H r' [<- | Hr]; [congruence | auto].
      * intros H. intros r' Hr. apply H. now right.
    + split.
      * intros H r' [<- | Hr]; [congruence | auto].
      * intros H. intros r' Hr. apply H. now right.
Qed.

Lemma fail_count_cons (r : TF.TestResult) (rs : list TF.TestResult) :
  fail_count (r :: rs) = 0%nat
  <-> TF.status r <> TF.FAIL /\ fail_count rs = 0%nat.
Proof.
  unfold fail_count. cbn [filter].
  destruct (TF.status r); cbn [TF.status_eqb length];
    split; try (intros [? ?]); try tauto; try discriminate;
    try (intros H; split; [discriminate | exact H]).
Qed.

Lemma no_skip_app (a b : list TF.TestResult) :
  no_skip a -> no_skip b -> no_skip (a ++ b).
Proof. intros Ha Hb. apply Forall_app. now split. Qed.

Lemma no_skip_counts (rs : list TF.TestResult) :
  no_skip rs ->
  (TF.passed (TF.mkTestResults rs) + TF.failed (TF.mkTestResults rs)
   + TF.warnings (TF.mkTestResults rs) = length rs)%nat.
Proof.
  unfold TF.passed, TF.failed, TF.warnings, TF.count_status. cbn [TF.results].
  induction 1 as [| r rs Hr _ IH]; [reflexivity |].
  cbn [filter length]. destruct (TF.status r); cbn [TF.status_eqb length];
    try lia. congruence.
Qed.

Ltac group_cases :=
  repeat match goal with
    | |- context [if ?c then _ else _] => destruct c
    | |- context [match ?c with _ => _ end] => destruct c
    end.

Ltac no_skip_list :=
  repeat (apply Forall_cons; [discriminate |]); apply Forall_nil.

(** *** The probes, one by one *)

Section Probes.

Variable e : TF.Env.

(** An import test whose version comparison does not raise returns a
    result, and the result is a failure exactly when the package is not
    in order. *)
Lemma test_import_returns (display module minv : string) :
  minv <> ""%string ->
  comparison_raises e module minv = false ->
  exists r,
    TF.test_import e display (Some module) (Some minv) = TF.Returned r
    /\ TF.status r <> TF.SKIP
    /\ (TF.status r <> TF.FAIL <-> package_ok e module).
Proof.
  intros Hm. unfold TF.test_import, comparison_raises, package_ok, TF.truthy,
    TF.version_lt, TF.imports.
  apply String.eqb_neq in Hm. rewrite Hm. cbn [negb andb].
  destruct (TF.import_module e module) as [| [v |]].
  - intros _. eexists. split; [reflexivity |]. cbn [TF.status].
    split; [discriminate | tauto].
  - destruct (String.eqb_spec v "unknown") as [-> | Hv]; cbn [negb andb].
    + intros _. eexists. split; [reflexivity |]. cbn [TF.status].
      split; [discriminate |]. split; [auto | discriminate].
    + destruct (TF.import_module e "packaging") as [| pv]; cbn [andb].
      * intros _. eexists. split; [reflexivity |]. cbn [TF.status].
        split; [discriminate |]. split; [tauto | intros [? | H]; congruence].
      * destruct (TF.parses e v); cbn [negb orb]; [| discriminate].
        destruct (TF.parses e minv); cbn [negb]; [| discriminate].
        intros _. unfold TF.ret. cbn [TF.bind].
        destruct (TF.parse_lt e v minv);
          (eexists; split; [reflexivity |]; cbn [TF.status];
           split; [discriminate |];
           split; [intros _; right; discriminate | discriminate]).
  - intros _. eexists. split; [reflexivity |]. cbn [TF.status].
    split; [discriminate |]. split; [auto | discriminate].
Qed.

Lemma test_import_raises (display module minv : string) :
  minv <> ""%string ->
  comparison_raises e module minv = true ->
  TF.test_import e display (Some module) (Some minv)
  = TF.Raised TF.InvalidVersion.
Proof.
  intros Hm. unfold TF.test_import, comparison_raises, TF.truthy,
    TF.version_lt, TF.imports.
  apply String.eqb_neq in Hm. rewrite Hm. cbn [negb andb].
  destruct (TF.import_module e module) as [| [v |]]; try discriminate.
  destruct (String.eqb_spec v "unknown") as [-> | Hv]; cbn [negb andb];
    [discriminate |].
  destruct (TF.import_module e "packaging") as [| pv]; cbn [andb];
    [discriminate |].
  destruct (TF.parses e v); cbn [negb orb]; [| reflexivity].
  destruct (TF.parses e minv); cbn [negb]; [discriminate | reflexivity].
Qed.

Lemma test_import_missing (display module minv : string) :
  TF.import_module e module = TF.ImportError ->
  exists r,
    TF.test_import e display (Some module) (Some minv) = TF.Returned r
    /\ TF.status r = TF.FAIL.
Proof.
  intros H. unfold TF.test_import. rewrite H. eexists. split; reflexivity.
Qed.

Lemma package_group_returns (group_name : string)
  (packages : list (string * string * string)) :
  (forall d m v, In (d, m, v) packages ->
     v <> ""%string /\ comparison_raises e m v = false) ->
  exists rs,
    TF.test_package_group e group_name packages = TF.Returned rs
    /\ length rs = length packages
    /\ no_skip rs
    /\ (fail_count rs = 0%nat
        <-> forall d m v, In (d, m, v) packages -> package_ok e m).
Proof.
  induction packages as [| [[d m] v] packages IH]; intros H.
  - exists []. split; [reflexivity |]. split; [reflexivity |].
    split; [constructor |]. split; [intros _ ? ? ? [] | reflexivity].
  - destruct (H d m v (or_introl eq_refl)) as [Hv Hc].
    destruct (test_import_returns d m v Hv Hc) as (r & Er & Sr & Fr).
    destruct IH as (rs & Ers & L & N & F).
    { intros d' m' v' HIn. apply (H d' m' v'). now right. }
    exists (r :: rs). cbn [TF.test_package_group].
    rewrite Er. cbn [TF.bind]. rewrite Ers. cbn [TF.bind].
    split; [reflexivity |]. split; [simpl; lia |].
    split; [constructor; assumption |].
    rewrite fail_count_cons, Fr, F. split.
    + intros [Hm Hrest] d' m' v' [E | HIn];
        [injection E as <- <- <-; exact Hm | eauto].
    + intros Hall. split; [apply (Hall d m v); now left |].
      intros d' m' v' HIn. apply (Hall d' m' v'). now right.
Qed.

Lemma package_group_returned (group_name : string)
  (packages : list (string * string * string)) (rs : list TF.TestResult) :
  (forall d m v, In (d, m, v) packages -> v <> ""%string) ->
  TF.test_package_group e group_name packages = TF.Returned rs ->
  forall d m v, In (d, m, v) packages -> comparison_raises e m v = false.
Proof.
  revert rs. induction packages as [| [[d m] v] packages IH];
    intros rs Hv E d' m' v' HIn; [destruct HIn |].
  cbn [TF.test_package_group] in E.
  destruct (comparison_raises e m v) eqn:C.
  - rewrite (test_import_raises d m v) in E;
      [discriminate | apply (Hv d m v); now left | exact C].
  - destruct HIn as [X | HIn]; [injection X as <- <- <-; exact C |].
    destruct (TF.test_import e d (Some m) (Some v)) as [r | x];
      cbn [TF.bind] in E; [| discriminate].
    destruct (TF.test_package_group e group_name packages) as [rs' | x] eqn:E';
      cbn [TF.bind] in E; [| discriminate].
    eapply (IH rs'); [| reflexivity | exact HIn].
    intros d0 m0 v0 H0. apply (Hv d0 m0 v0). now right.
Qed.

(** An optional probe that does not raise gives [PASS] or [WARN]. *)
Lemma optional_import_returns (display module hint : string) :
  probe_raises e module = false ->
  exists r,
    TF.optional_import e display module hint = TF.Returned r
    /\ TF.status r <> TF.SKIP /\ TF.status r <> TF.FAIL.
Proof.
  unfold probe_raises, TF.optional_import.
  destruct (TF.import_module e module) as [| [v |]]; intros H;
    try discriminate H;
    (eexists; split; [reflexivity |]; split; discriminate).
Qed.

Lemma optional_import_returned (display module hint : string)
  (r : TF.TestResult) :
  TF.optional_import e display module hint = TF.Returned r ->
  probe_raises e module = false.
Proof.
  unfold probe_raises, TF.optional_import.
  destruct (TF.import_module e module) as [| [v |]]; intros H;
    try discriminate H; reflexivity.
Qed.

(** *** The groups *)

Lemma core_returns :
  (forall m v, In (m, v) minimum_versions -> comparison_raises e m v = false) ->
  exists rs,
    TF.test_core_scientific_stack e = TF.Returned rs
    /\ length rs = 4%nat /\ no_skip rs
    /\ (fail_count rs = 0%nat
        <-> package_ok e "numpy" /\ package_ok e "scipy"
            /\ package_ok e "matplotlib" /\ package_ok e "pandas").
Proof.
  intros H. unfold TF.test_core_scientific_stack.
  destruct (package_group_returns "Core Scientific Stack"
              [("NumPy", "numpy", "1.20.0");
               ("SciPy", "scipy", "1.7.0");
               ("Matplotlib", "matplotlib", "3.4.0");
               ("Pandas", "pandas", "1.3.0")]%string)
    as (rs & E & L & N & F).
  { intros d m v HIn. simpl in HIn.
    repeat (destruct HIn as [X | HIn];
            [injection X as <- <- <-;
             split; [discriminate | apply H; simpl; tauto] |]).
    contradiction. }
  exists rs. split; [exact E |]. split; [exact L |]. split; [exact N |].
  rewrite F. split.
  - intros A. repeat split; eapply A; simpl; eauto.
  - intros A d m v HIn. simpl in HIn.
    repeat (destruct HIn as [X | HIn]; [injection X as <- <- <-; tauto |]).
    contradiction.
Qed.

Lemma astronomy_returns :
  (forall m v, In (m, v) minimum_versions -> comparison_raises e m v = false) ->
  exists rs,
    TF.test_astronomy_libraries e = TF.Returned rs
    /\ length rs = 2%nat /\ no_skip rs
    /\ (fail_count rs = 0%nat
        <-> package_ok e "astropy"
            /\ TF.imports e "astropy.units" = true
            /\ TF.imports e "astropy.coordinates" = true).
Proof.
  intros H. unfold TF.test_astronomy_libraries.
  destruct (package_group_returns "Astronomy Libraries"
              [("Astropy", "astropy", "5.0")]%string)
    as (rs & E & L & N & F).
  { intros d m v HIn. simpl in HIn.
    repeat (destruct HIn as [X | HIn];
            [injection X as <- <- <-;
             split; [discriminate | apply H; simpl; tauto] |]).
    contradiction. }
  rewrite E. cbn [TF.bind].
  assert (F' : fail_count rs = 0%nat <-> package_ok e "astropy").
  { rewrite F. split.
    - intros A. eapply A. simpl. eauto.
    - intros A d m v HIn. simpl in HIn.
      destruct HIn as [X | []]. injection X as <- <- <-. exact A. }
  destruct (TF.imports e "astropy.units"),
    (TF.imports e "astropy.coordinates"); cbn [andb];
    (eexists; split; [reflexivity |];
     split; [rewrite length_app, L; reflexivity |];
     split; [apply no_skip_app; [exact N | no_skip_list] |]);
    rewrite fail_count_app, <- F'; unfold fail_count at 2;
    cbn [filter length TF.status TF.status_eqb];
    split; intros A; try lia;
    try (destruct A as (_ & ? & ?); discriminate);
    repeat split; lia.
Qed.

Lemma visualization_returns :
  (forall m v, In (m, v) minimum_versions -> comparison_raises e m v = false) ->
  probe_raises e "bokeh" = false ->
  exists rs,
    TF.test_visualization_tools e = TF.Returned rs
    /\ length rs = 3%nat /\ no_skip rs
    /\ (fail_count rs = 0%nat
        <-> package_ok e "plotly" /\ package_ok e "seaborn").
Proof.
  intros H Hb. unfold TF.test_visualization_tools.
  destruct (package_group_returns "Visualization Tools"
              [("Plotly", "plotly", "5.0.0");
               ("Seaborn", "seaborn", "0.11.0")]%string)
    as (rs & E & L & N & F).
  { intros d m v HIn. simpl in HIn.
    repeat (destruct HIn as [X | HIn];
            [injection X as <- <- <-;
             split; [discriminate | apply H; simpl; tauto] |]).
    contradiction. }
  destruct (optional_import_returns "Bokeh" "bokeh" "pip install bokeh" Hb)
    as (r & Er & Sr & Fr).
  rewrite E. cbn [TF.bind]. rewrite Er. cbn [TF.bind].
  eexists. split; [reflexivity |].
  split; [rewrite length_app, L; reflexivity |].
  split; [apply no_skip_app; [exact N | now repeat constructor] |].
  assert (Z : fail_count [r] = 0%nat)
    by (apply fail_count_cons; split; [exact Fr | reflexivity]).
  rewrite fail_count_app, Z, Nat.add_0_r, F. split.
  - intros A. split; eapply A; simpl; eauto.
  - intros A d m v HIn. simpl in HIn.
    repeat (destruct HIn as [X | HIn]; [injection X as <- <- <-; tauto |]).
    contradiction.
Qed.

Lemma jupyter_returns :
  probe_raises e "jupyterlab" = false ->
  probe_raises e "ipywidgets" = false ->
  exists rs,
    TF.test_jupyter_components e = TF.Returned rs
    /\ length rs = 2%nat /\ no_skip rs /\ fail_count rs = 0%nat.
Proof.
  intros H1 H2. unfold TF.test_jupyter_components.
  destruct (optional_import_returns "JupyterLab" "jupyterlab"
              "pip install jupyterlab" H1) as (r1 & E1 & S1 & F1).
  destruct (optional_import_returns "IPyWidgets" "ipywidgets"
              "pip install ipywidgets" H2) as (r2 & E2 & S2 & F2).
  rewrite E1. cbn [TF.bind]. rewrite E2. cbn [TF.bind app].
  eexists. split; [reflexivity |]. split; [reflexivity |].
  split; [now repeat constructor |].
  rewrite !fail_count_cons. now repeat split.
Qed.

Lemma development_returns :
  probe_raises e "pytest" = false ->
  probe_raises e "h5py" = false ->
  probe_raises e "sklearn" = false ->
  exists rs,
    TF.test_development_tools e = TF.Returned rs
    /\ length rs = 3%nat /\ no_skip rs /\ fail_count rs = 0%nat.
Proof.
  intros H1 H2 H3. unfold TF.test_development_tools.
  destruct (optional_import_returns "Pytest" "pytest"
              "pip install pytest" H1) as (r1 & E1 & S1 & F1).
  destruct (optional_import_returns "h5py" "h5py"
              "pip install h5py" H2) as (r2 & E2 & S2 & F2).
  destruct (optional_import_returns "Scikit-learn" "sklearn"
              "pip install scikit-learn" H3) as (r3 & E3 & S3 & F3).
  rewrite E1. cbn [TF.bind]. rewrite E2. cbn [TF.bind].
  rewrite E3. cbn [TF.bind app].
  eexists. split; [reflexivity |]. split; [reflexivity |].
  split; [now repeat constructor |].
  rewrite !fail_count_cons. now repeat split.
Qed.

Lemma environment_shape :
  no_skip (TF.test_environment_config e)
  /\ length (TF.test_environment_config e) = 3%nat.
Proof.
  unfold TF.test_environment_config.
  group_cases; (split; [no_skip_list | reflexivity]).
Qed.

Lemma environment_ok :
  fail_count (TF.test_environment_config e) = 0%nat
  <-> TF.version_ge (TF.version_info e) 3 8 = true.
Proof.
  assert (M : forall v, TF.version_ge v 3 9 = true ->
                        TF.version_ge v 3 8 = true).
  { intros [major minor]. unfold TF.version_ge. cbn [fst snd]. lia. }
  unfold TF.test_environment_config.
  destruct (TF.version_ge (TF.version_info e) 3 9) eqn:V9;
    [rewrite (M _ V9) |
     destruct (TF.version_ge (TF.version_info e) 3 8)];
    repeat match goal with
      | |- context [if ?c then _ else _] => destruct c
      end;
    cbn [app]; unfold fail_count; cbn [filter length TF.status TF.status_eqb];
    split; intros H; try reflexivity; discriminate.
Qed.

Lemma visual_foundations_shape :
  no_skip (TF.test_visual_foundations e)
  /\ (1 <= length (TF.test_visual_foundations e) <= 3)%nat.
Proof.
  unfold TF.test_visual_foundations.
  destruct (TF.imports e "visual_foundations");
    [| split; [no_skip_list | simpl; lia]].
  destruct (VisualFoundations.create_sample_data _ _ _ _)
    as [[[[x y] t] s'] | ex];
    group_cases; (split; [no_skip_list | simpl; lia]).
Qed.

(** The data-generation test of the library group always passes: the
    generator returns fifty samples. *)
Lemma visual_foundations_fail_count :
  fail_count (TF.test_visual_foundations e) = 0%nat.
Proof.
  unfold TF.test_visual_foundations.
  destruct (TF.imports e "visual_foundations"); [| reflexivity].
  destruct (library_shape "spectrum" 50
              VisualFoundations.default_noise_level (TF.rng e))
    as (y & t & s' & E & _); [lia |].
  rewrite E. change (Z.to_nat 50) with 50%nat. rewrite grid_length.
  cbn [Nat.eqb]. destruct (TF.vf_color_ok e); reflexivity.
Qed.

Lemma numpy_shape :
  no_skip (TF.test_numpy_operations e)
  /\ (1 <= length (TF.test_numpy_operations e) <= 2)%nat.
Proof.
  unfold TF.test_numpy_operations.
  group_cases; (split; [no_skip_list | simpl; lia]).
Qed.

Lemma numpy_ok :
  fail_count (TF.test_numpy_operations e) = 0%nat
  <-> TF.numpy_ops e = TF.Completed.
Proof.
  unfold TF.test_numpy_operations.
  destruct (TF.numpy_ops e); unfold fail_count;
    cbn [filter length TF.status TF.status_eqb];
    split; intros H; try reflexivity; discriminate.
Qed.

Lemma matplotlib_shape :
  no_skip (TF.test_matplotlib_plotting e)
  /\ length (TF.test_matplotlib_plotting e) = 1%nat.
Proof.
  unfold TF.test_matplotlib_plotting.
  group_cases; (split; [no_skip_list | reflexivity]).
Qed.

Lemma matplotlib_ok :
  fail_count (TF.test_matplotlib_plotting e) = 0%nat
  <-> TF.matplotlib_plot e = TF.PlotSaved.
Proof.
  unfold TF.test_matplotlib_plotting.
  destruct (TF.matplotlib_plot e); unfold fail_count;
    cbn [filter length TF.status TF.status_eqb];
    split; intros H; try reflexivity; discriminate.
Qed.

Lemma astropy_shape :
  no_skip (TF.test_astropy_units e)
  /\ (1 <= length (TF.test_astropy_units e) <= 2)%nat.
Proof.
  unfold TF.test_astropy_units.
  group_cases; (split; [no_skip_list | simpl; lia]).
Qed.

Lemma astropy_ok :
  fail_count (TF.test_astropy_units e) = 0%nat
  <-> TF.astropy_ops e = TF.Completed.
Proof.
  unfold TF.test_astropy_units.
  destruct (TF.astropy_ops e); unfold fail_count;
    cbn [filter length TF.status TF.status_eqb];
    split; intros H; try reflexivity; discriminate.
Qed.

End Probes.

(** *** The run *)

Section Run.

Variables (visual verbose : bool) (e : TF.Env).

Lemma required_packages_ok :
  (forall m, In m required_packages -> package_ok e m) <->
  package_ok e "numpy" /\ package_ok e "scipy"
  /\ package_ok e "matplotlib" /\ package_ok e "pandas"
  /\ package_ok e "astropy" /\ package_ok e "plotly"
  /\ package_ok e "seaborn".
Proof.
  unfold required_packages. split.
  - intros H. repeat split; apply H; simpl; tauto.
  - intros H m Hm. simpl in Hm.
    repeat (destruct Hm as [<- | Hm]; [tauto |]). contradiction.
Qed.

(** A run in which nothing escapes reaches its [return], and this is
    what it has recorded by then. *)
Lemma run_returns :
  escape_free e ->
  exists out,
    TF.run_all_tests visual verbose e = TF.Returned out
    /\ no_skip (TF.results (TF.all_results out))
    /\ (21 <= length (TF.results (TF.all_results out)) <= 25)%nat
    /\ TF.exit_code out
       = (if Nat.eqb (fail_count (TF.results (TF.all_results out))) 0
          then 0 else 1)%Z
    /\ (fail_count (TF.results (TF.all_results out)) = 0%nat
        <-> critical_ok e)
    /\ TF.visual_test_ran out
       = (visual
          && Nat.eqb (fail_count (TF.results (TF.all_results out))) 0)%bool.
Proof.
  intros [Hc Hp].
  assert (P : forall m, In m versioned_probes -> probe_raises e m = false)
    by exact Hp.
  destruct (core_returns e Hc) as (r1 & E1 & L1 & N1 & F1).
  destruct (astronomy_returns e Hc) as (r2 & E2 & L2 & N2 & F2).
  destruct (visualization_returns e Hc) as (r3 & E3 & L3 & N3 & F3);
    [apply P; simpl; tauto |].
  destruct (jupyter_returns e) as (r4 & E4 & L4 & N4 & F4);
    [apply P; simpl; tauto | apply P; simpl; tauto |].
  destruct (development_returns e) as (r5 & E5 & L5 & N5 & F5);
    [apply P; simpl; tauto | apply P; simpl; tauto | apply P; simpl; tauto |].
  destruct (environment_shape e) as [N6 L6].
  destruct (visual_foundations_shape e) as [N7 L7].
  destruct (numpy_shape e) as [N8 L8].
  destruct (matplotlib_shape e) as [N9 L9].
  destruct (astropy_shape e) as [N10 L10].
  unfold TF.run_all_tests.
  rewrite E1. cbn [TF.bind]. rewrite E2. cbn [TF.bind].
  rewrite E3. cbn [TF.bind]. rewrite E4. cbn [TF.bind].
  rewrite E5. cbn [TF.bind]. unfold TF.ret.
  eexists. split; [reflexivity |].
  cbn [TF.all_results TF.exit_code TF.visual_test_ran].
  match goal with
  | |- context [TF.add_all ?a (TF.test_astropy_units e)] =>
      set (t := TF.add_all a (TF.test_astropy_units e))
  end.
  change (TF.failed t) with (fail_count (TF.results t)).
  assert (R : TF.results t =
              r1 ++ r2 ++ r3 ++ r4 ++ r5
              ++ TF.test_environment_config e
              ++ TF.test_visual_foundations e
              ++ TF.test_numpy_operations e
              ++ TF.test_matplotlib_plotting e
              ++ TF.test_astropy_units e).
  { unfold t. rewrite !add_all_results. cbn [TF.results TF.new_results app].
    now rewrite <- !app_assoc. }
  rewrite R. clear R t.
  split; [repeat (apply no_skip_app; [assumption |]); assumption |].
  split; [rewrite !length_app; lia |].
  split; [reflexivity |].
  split; [| reflexivity].
  rewrite !fail_count_app, F4, F5, (visual_foundations_fail_count e).
  unfold critical_ok. rewrite required_packages_ok.
  rewrite <- (environment_ok e), <- (numpy_ok e), <- (matplotlib_ok e),
    <- (astropy_ok e).
  split.
  - intros Z.
    assert (Z1 : fail_count r1 = 0%nat) by lia.
    assert (Z2 : fail_count r2 = 0%nat) by lia.
    assert (Z3 : fail_count r3 = 0%nat) by lia.
    repeat split; try tauto; lia.
  - intros A.
    assert (Z1 : fail_count r1 = 0%nat) by tauto.
    assert (Z2 : fail_count r2 = 0%nat) by tauto.
    assert (Z3 : fail_count r3 = 0%nat) by tauto.
    lia.
Qed.

(** Conversely a run that reaches its [return] met no escaping
    exception. *)
Lemma run_returned (out : TF.RunOutcome) :
  TF.run_all_tests visual verbose e = TF.Returned out -> escape_free e.
Proof.
  unfold TF.run_all_tests, TF.test_core_scientific_stack,
    TF.test_astronomy_libraries, TF.test_visualization_tools,
    TF.test_jupyter_components, TF.test_development_tools.
  intros H.
  repeat match type of H with
    | context [TF.bind (TF.test_package_group e ?g ?p) _] =>
        let G := fresh "G" in
        destruct (TF.test_package_group e g p) eqn:G;
        cbn [TF.bind] in H; [| discriminate H]
    | context [TF.bind (TF.optional_import e ?d ?m ?h) _] =>
        let P := fresh "P" in
        destruct (TF.optional_import e d m h) eqn:P;
        cbn [TF.bind] in H; [| discriminate H]
    | context [TF.bind (if ?c then _ else _) _] =>
        destruct c; cbn [TF.bind TF.ret] in H
    end.
  all: split.
  all: try (intros m v HIn; unfold minimum_versions in HIn; simpl in HIn;
            repeat (destruct HIn as [X | HIn];
                    [injection X as <- <-;
                     match goal with
                     | G : TF.test_package_group e ?g ?p = TF.Returned ?rs
                       |- _ =>
                         eapply (package_group_returned e g p rs);
                         [ intros d' m' v' HIn'; simpl in HIn';
                           repeat (destruct HIn' as [X' | HIn'];
                                   [injection X' as <- <- <-; discriminate |]);
                           contradiction
                         | exact G
                         | solve [simpl; eauto 8] ]
                     end |]);
            contradiction).
  all: intros m HIn; unfold versioned_probes in HIn; simpl in HIn;
    repeat (destruct HIn as [<- | HIn];
            [match goal with
             | P : TF.optional_import e ?d ?k ?h = TF.Returned ?r |- _ =>
                 exact (optional_import_returned e d k h r P)
             end |]);
    contradiction.
Qed.

Lemma run_returned_unique (out out' : TF.RunOutcome) :
  TF.run_all_tests visual verbose e = TF.Returned out ->
  TF.run_all_tests visual verbose e = TF.Returned out' -> out = out'.
Proof. intros H H'. rewrite H in H'. now injection H'. Qed.

End Run.

(** The environments of the examples. *)
Lemma healthy_escape_free : escape_free healthy_env.
Proof.
  split.
  - intros m v HIn. unfold minimum_versions in HIn. simpl in HIn.
    repeat (destruct HIn as [X | HIn]; [injection X as <- <-; reflexivity |]).
    contradiction.
  - intros m HIn. unfold versioned_probes in HIn. simpl in HIn.
    repeat (destruct HIn as [<- | HIn]; [reflexivity |]). contradiction.
Qed.

Lemma healthy_critical_ok : critical_ok healthy_env.
Proof.
  unfold critical_ok. rewrite required_packages_ok.
  repeat split; try reflexivity; right; discriminate.
Qed.

(** Making an optional component unimportable creates no escape and
    changes none of the critical conditions. *)
Lemma without_optional (e : TF.Env) (m : string) :
  In m optional_components ->
  (escape_free e -> escape_free (without m e))
  /\ (critical_ok (without m e) <-> critical_ok e).
Proof.
  intros Hm. unfold optional_components in Hm. simpl in Hm.
  split.
  - intros [Hc Hp]. split.
    + intros k v HIn. specialize (Hc k v HIn). revert Hc.
      unfold minimum_versions in HIn. simpl in HIn.
      repeat (destruct Hm as [<- | Hm];
        [repeat (destruct HIn as [X | HIn];
                 [injection X as <- <-; exact (fun H => H) |]);
         contradiction |]).
      contradiction.
    + intros k HIn. specialize (Hp k HIn). revert Hp.
      unfold probe_raises, without, with_module. cbn [TF.import_module].
      destruct (k =? m)%string; [reflexivity | exact (fun H => H)].
  - unfold critical_ok. rewrite !required_packages_ok.
    repeat (destruct Hm as [<- | Hm]; [reflexivity |]). contradiction.
Qed.

(** C9 at its failing input.  In an environment where everything is
    installed and works, the run returns exit code 0, and it still does
    when bokeh is uninstalled.  When [import bokeh] succeeds but the
    module has no [__version__] (a stray directory named [bokeh] on the
    path is enough), every critical condition holds and the three groups
    up to the probe record no [FAIL], yet [run_all_tests] does not return
    0: the [AttributeError] of the probe's message escapes the run and
    [main]. *)
Theorem C9_unversioned_optional_module_ends_the_run :
  let e := with_module "bokeh" (TF.Module_ None) healthy_env in
  (exists out,
      TF.run_all_tests true true healthy_env = TF.Returned out
      /\ TF.exit_code out = 0%Z)
  /\ (exists out,
        TF.run_all_tests true true (without "bokeh" healthy_env)
        = TF.Returned out
        /\ TF.exit_code out = 0%Z)
  /\ critical_ok e
  /\ (exists r1 r2 r3,
        TF.test_core_scientific_stack e = TF.Returned r1
        /\ TF.test_astronomy_libraries e = TF.Returned r2
        /\ TF.test_package_group e "Visualization Tools"
             [("Plotly", "plotly", "5.0.0");
              ("Seaborn", "seaborn", "0.11.0")]%string
           = TF.Returned r3
        /\ fail_count (r1 ++ r2 ++ r3) = 0%nat)
  /\ TF.run_all_tests true true e = TF.Raised TF.AttributeError
  /\ TF.main (TF.mkNamespace false false) e = TF.Raised TF.AttributeError.
Proof.
  intros e.
  assert (Z : forall e', escape_free e' -> critical_ok e' ->
                exists out, TF.run_all_tests true true e' = TF.Returned out
                            /\ TF.exit_code out = 0%Z).
  { intros e' He Hc.
    destruct (run_returns true true e' He) as (out & E & _ & _ & X & F & _).
    exists out. split; [exact E |].
    apply F in Hc. rewrite X, Hc. reflexivity. }
  assert (Hb : In "bokeh"%string optional_components) by (now left).
  destruct (without_optional healthy_env "bokeh"%string Hb) as [We Wc].
  split; [apply Z; [exact healthy_escape_free | exact healthy_critical_ok] |].
  split; [apply Z; [exact (We healthy_escape_free)
                   | apply Wc; exact healthy_critical_ok] |].
  split.
  { unfold critical_ok. rewrite required_packages_ok.
    repeat split; try reflexivity; right; discriminate. }
  split.
  { do 3 eexists. split; [reflexivity |]. split; [reflexivity |].
    split; reflexivity. }
  assert (R : TF.run_all_tests true true e = TF.Raised TF.AttributeError)
    by reflexivity.
  split; [exact R |].
  unfold TF.main. cbn [TF.no_visual TF.quiet negb]. rewrite R. reflexivity.
Qed.

(* ===================================================================== *)
(** ** The absorption lines of the spectrum *)
(* ===================================================================== *)

Section Exponential.

Lemma exp_le_mono (x y : R) : x <= y -> exp x <= exp y.
Proof.
  intros [H | ->]; [left; now apply exp_increasing | right; reflexivity].
Qed.

Lemma exp_double (x : R) : exp (2 * x) = exp x * exp x.
Proof.
  replace (2 * x) with (x + x) by ring. apply exp_plus.
Qed.

Lemma exp_24 : 16777216 <= exp 24.
Proof.
  pose proof (exp_ineq1_le 1) as H1.
  assert (H2 : 4 <= exp 2).
  { replace 2 with (2 * 1) by ring. rewrite exp_double. nra. }
  assert (H4 : 16 <= exp 4).
  { replace 4 with (2 * 2) by ring. rewrite exp_double. nra. }
  assert (H8 : 256 <= exp 8).
  { replace 8 with (2 * 4) by ring. rewrite exp_double. nra. }
  assert (H16 : 65536 <= exp 16).
  { replace 16 with (2 * 8) by ring. rewrite exp_double. nra. }
  replace 24 with (16 + 8) by ring. rewrite exp_plus. nra.
Qed.

Lemma exp_neg_small (t : R) : 24 <= t -> exp (- t) <= / 16777216.
Proof.
  intros Ht. rewrite exp_Ropp.
  apply Rinv_le_contravar; [lra |].
  apply Rle_trans with (exp 24); [apply exp_24 | now apply exp_le_mono].
Qed.

Variables (c w x : R).
Hypothesis width_pos : 0 < w.

Lemma gauss_pos : 0 < gauss c w x.
Proof. apply exp_pos. Qed.

Lemma gauss_le_1 : gauss c w x <= 1.
Proof.
  unfold gauss.
  apply Rle_trans with (exp 0); [| rewrite exp_0; lra].
  apply exp_le_mono.
  assert (0 <= (x - c) * ((x - c) * 1)).
  { replace ((x - c) * ((x - c) * 1)) with (Rsqr (x - c))
      by (unfold Rsqr; ring).
    apply Rle_0_sqr. }
  assert (0 <= (x - c) * ((x - c) * 1) / w)
    by (apply Rmult_le_pos; [assumption | left; now apply Rinv_0_lt_compat]).
  replace (- ((x - c) * ((x - c) * 1)) / w)
    with (- ((x - c) * ((x - c) * 1) / w)) by (field; lra).
  lra.
Qed.

Lemma gauss_lower : 1 - (x - c) * (x - c) / w <= gauss c w x.
Proof.
  unfold gauss.
  pose proof (exp_ineq1_le (- ((x - c) * ((x - c) * 1)) / w)) as H.
  replace (1 + - ((x - c) * ((x - c) * 1)) / w)
    with (1 - (x - c) * (x - c) / w) in H by (field; lra).
  exact H.
Qed.

Lemma gauss_far : w <= 0.15 -> 2 <= Rabs (x - c) -> gauss c w x <= / 16777216.
Proof.
  intros Hw Hfar. unfold gauss.
  assert (Hsq : 4 <= (x - c) * ((x - c) * 1)).
  { generalize dependent (x - c). intros v Hfar.
    replace (v * (v * 1)) with (v * v) by ring.
    unfold Rabs in Hfar. destruct (Rcase_abs v); nra. }
  replace (- ((x - c) * ((x - c) * 1)) / w)
    with (- ((x - c) * ((x - c) * 1) / w)) by (field; lra).
  apply exp_neg_small.
  apply Rmult_le_reg_r with w; [assumption |].
  unfold Rdiv. rewrite Rmult_assoc, Rinv_l by lra. nra.
Qed.

End Exponential.

Lemma fpow_2_fin (v : R) : fpow (Fin v) 2 = Fin (v * (v * 1)).
Proof. reflexivity. Qed.

Section Spectrum.

Variable n_points : Z.
Variable s : RandomState.
Hypothesis n_points_nonneg : (0 <= n_points)%Z.

Let n : nat := Z.to_nat n_points.

Lemma dashboard_spectrum :
  exists y s',
    Dashboard._generate_data "spectrum" n_points (Fin 0) s
    = Ok ((grid n, y), s')
    /\ forall i : nat, (i < n)%nat ->
         nth i y NaN =
         Fin (1 + 0.1 * sin (5 * sample n i)
              - 0.25 * gauss 2.5 0.15 (sample n i)
              - 0.15 * gauss 5.0 0.15 (sample n i)
              - 0.20 * gauss 7.5 0.15 (sample n i)).
Proof.
  unfold Dashboard._generate_data. run.
  do 2 eexists. split; [reflexivity |].
  intros i Hi. fold n. nth_push i. rewrite grid_nth by exact Hi.
  cbn [fmul fadd fsin fsub]. rewrite !fpow_2_fin. cbn [fneg].
  rewrite !fdiv_fin by lra. cbn [fexp fmul fsub].
  f_equal. unfold gauss. lra.
Qed.

Lemma library_spectrum :
  exists y s',
    VisualFoundations.create_sample_data "spectrum" n_points (Fin 0) s
    = Ok ((grid n, y, "Sample Astronomical Spectrum"%string), s')
    /\ forall i : nat, (i < n)%nat ->
         nth i y NaN =
         Fin (1 + 0.1 * sin (5 * sample n i)
              - 0.25 * gauss 2.5 0.1 (sample n i)
              - 0.15 * gauss 5.0 0.15 (sample n i)
              - 0.20 * gauss 7.5 0.12 (sample n i)).
Proof.
  unfold VisualFoundations.create_sample_data. run.
  do 2 eexists. split; [reflexivity |].
  intros i Hi. fold n. nth_push i. rewrite grid_nth by exact Hi.
  cbn [fmul fadd fsin fsub]. rewrite !fpow_2_fin. cbn [fneg].
  rewrite !fdiv_fin by lra. cbn [fexp fmul fsub].
  f_equal. unfold gauss. lra.
Qed.

End Spectrum.

(** One line near the sample, two lines at least two units away: the dip
    is the depth of the near line, less at most its relative fall-off
    [delta^2 / width], plus at most a millionth. *)
Lemma near_line_dominates (x c d w cA dA wA cB dB wB : R) :
  0 < w -> 0 <= d ->
  0 < wA <= 0.15 -> 0 <= dA <= 0.25 ->
  0 < wB <= 0.15 -> 0 <= dB <= 0.25 ->
  2 <= Rabs (x - cA) -> 2 <= Rabs (x - cB) ->
  d * (1 - (x - c) * (x - c) / w)
  <= d * gauss c w x + dA * gauss cA wA x + dB * gauss cB wB x
  <= d + 1 / 1000000.
Proof.
  intros Hw Hd [HwA HwA'] [HdA HdA'] [HwB HwB'] [HdB HdB'] HfarA HfarB.
  pose proof (gauss_lower c w x Hw) as L.
  pose proof (gauss_le_1 c w x Hw) as U.
  pose proof (gauss_pos cA wA x) as PA.
  pose proof (gauss_pos cB wB x) as PB.
  pose proof (gauss_far cA wA x HwA HwA' HfarA) as FA.
  pose proof (gauss_far cB wB x HwB HwB' HfarB) as FB.
  assert (E : / 16777216 <= 1 / 1000000) by lra.
  generalize dependent (gauss c w x). intros g L U.
  generalize dependent (gauss cA wA x). intros gA PA FA.
  generalize dependent (gauss cB wB x). intros gB PB FB.
  split; nra.
Qed.

Ltac rabs := unfold Rabs in *; repeat destruct (Rcase_abs _); lra.

(** Uses an implication [H] whose premises are linear facts, possibly
    about absolute values. *)
Ltac discharge H :=
  repeat (lapply H; [clear H; intros H | first [lra | rabs]]); lra.

Lemma dashboard_dips (x c d w : R) :
  In (c, d, w) dashboard_lines -> Rabs (x - c) <= 1 / 2 ->
  d * (1 - (x - c) * (x - c) / w)
  <= 0.25 * gauss 2.5 0.15 x + 0.15 * gauss 5.0 0.15 x
     + 0.20 * gauss 7.5 0.15 x
  <= d + 1 / 1000000.
Proof.
  intros HIn Hnear. unfold dashboard_lines in HIn. simpl in HIn.
  destruct HIn as [E | [E | [E | []]]]; injection E as <- <- <-.
  - pose proof (near_line_dominates x 2.5 0.25 0.15 5.0 0.15 0.15 7.5 0.20 0.15)
      as H.
    discharge H.
  - pose proof (near_line_dominates x 5.0 0.15 0.15 2.5 0.25 0.15 7.5 0.20 0.15)
      as H.
    discharge H.
  - pose proof (near_line_dominates x 7.5 0.20 0.15 2.5 0.25 0.15 5.0 0.15 0.15)
      as H.
    discharge H.
Qed.

Lemma library_dips (x c d w : R) :
  In (c, d, w) library_lines -> Rabs (x - c) <= 1 / 2 ->
  d * (1 - (x - c) * (x - c) / w)
  <= 0.25 * gauss 2.5 0.1 x + 0.15 * gauss 5.0 0.15 x
     + 0.20 * gauss 7.5 0.12 x
  <= d + 1 / 1000000.
Proof.
  intros HIn Hnear. unfold library_lines in HIn. simpl in HIn.
  destruct HIn as [E | [E | [E | []]]]; injection E as <- <- <-.
  - pose proof (near_line_dominates x 2.5 0.25 0.1 5.0 0.15 0.15 7.5 0.20 0.12)
      as H.
    discharge H.
  - pose proof (near_line_dominates x 5.0 0.15 0.15 2.5 0.25 0.1 7.5 0.20 0.12)
      as H.
    discharge H.
  - pose proof (near_line_dominates x 7.5 0.20 0.12 2.5 0.25 0.1 5.0 0.15 0.15)
      as H.
    discharge H.
Qed.

(** The lines of a sparse grid: far from a centre a profile is small. *)
Lemma exp_neg_le (t : R) : 0 <= t -> exp (- t) <= / (1 + t).
Proof.
  intros Ht. rewrite exp_Ropp.
  apply Rinv_le_contravar; [lra | apply exp_ineq1_le].
Qed.

Lemma gauss_upper (c w x t : R) :
  0 < w -> 0 <= t -> t * w <= (x - c) * (x - c) ->
  gauss c w x <= / (1 + t).
Proof.
  intros Hw Ht H. unfold gauss.
  replace (- ((x - c) * ((x - c) * 1)) / w)
    with (- ((x - c) * (x - c) / w)) by (field; lra).
  apply Rle_trans with (exp (- t)); [| now apply exp_neg_le].
  apply exp_le_mono.
  assert (t <= (x - c) * (x - c) / w); [| lra].
  apply Rmult_le_reg_r with w; [exact Hw |].
  unfold Rdiv. rewrite Rmult_assoc, Rinv_l by lra. lra.
Qed.

Lemma sample_4_1 : sample 4 1 = 10 / 3.
Proof. unfold sample. simpl INR. lra. Qed.

Lemma nearest_4_1 : nearest 4 1 2.5.
Proof.
  intros j Hj. rewrite sample_4_1.
  destruct j as [| [| [| [| j]]]]; try lia;
    unfold sample; simpl INR; rabs.
Qed.


(** On a grid of at least 101 points some sample lies within 0.05 of
    each of the three centres [2.5 * q], [q = 1, 2, 3]. *)
Lemma grid_reaches (n q : nat) :
  (101 <= n)%nat -> (1 <= q <= 3)%nat ->
  exists k, (k < n)%nat /\ Rabs (sample n k - 2.5 * INR q) <= 0.05.
Proof.
  intros Hn Hq. destruct n as [| N]; [lia |].
  assert (HN : (100 <= N)%nat) by lia.
  set (k := ((q * N + 2) / 4)%nat).
  pose proof (Nat.div_mod (q * N + 2) 4 ltac:(lia)) as D.
  pose proof (Nat.mod_upper_bound (q * N + 2) 4 ltac:(lia)) as M.
  fold k in D.
  exists k. split; [nia |].
  unfold sample. rewrite S_INR.
  replace (INR N + 1 - 1) with (INR N) by ring.
  assert (RN : 100 <= INR N).
  { replace 100 with (INR 100) by (simpl; lra). now apply le_INR. }
  assert (Lo : INR q * INR N <= 4 * INR k + 2).
  { rewrite <- mult_INR.
    replace (4 * INR k + 2) with (INR (4 * k + 2))
      by (rewrite plus_INR, mult_INR; simpl; lra).
    apply le_INR. lia. }
  assert (Hi : 4 * INR k <= INR q * INR N + 2).
  { rewrite <- mult_INR.
    replace (INR (q * N) + 2) with (INR (q * N + 2))
      by (rewrite plus_INR; simpl; lra).
    replace (4 * INR k) with (INR (4 * k))
      by (rewrite mult_INR; simpl; lra).
    apply le_INR. lia. }
  assert (E : INR k * (10 / INR N) - 2.5 * INR q
              = (4 * INR k - INR q * INR N) * (2.5 / INR N)).
  { replace 2.5 with (5 / 2) by lra. field. lra. }
  rewrite E.
  assert (P : 0 < 2.5 / INR N) by (apply Rdiv_lt_0_compat; lra).
  assert (U : 2 * (2.5 / INR N) <= 0.05).
  { replace 2.5 with (5 / 2) by lra.
    apply Rmult_le_reg_r with (INR N); [lra |].
    replace (2 * (5 / 2 / INR N) * INR N) with 5 by (field; lra). lra. }
  apply Rabs_le. split; nra.
Qed.

Lemma nearest_is_close (n i : nat) (c : R) :
  (101 <= n)%nat -> c = 2.5 \/ c = 5.0 \/ c = 7.5 ->
  nearest n i c -> Rabs (sample n i - c) <= 0.05.
Proof.
  intros Hn Hc Hnear.
  assert (K : exists k, (k < n)%nat /\ Rabs (sample n k - c) <= 0.05).
  { destruct Hc as [-> | [-> | ->]].
    - destruct (grid_reaches n 1 Hn ltac:(lia)) as (k & Hk & B).
      exists k. split; [exact Hk |].
      replace 2.5 with (2.5 * INR 1) by (simpl; lra). exact B.
    - destruct (grid_reaches n 2 Hn ltac:(lia)) as (k & Hk & B).
      exists k. split; [exact Hk |].
      replace 5.0 with (2.5 * INR 2) by (simpl; lra). exact B.
    - destruct (grid_reaches n 3 Hn ltac:(lia)) as (k & Hk & B).
      exists k. split; [exact Hk |].
      replace 7.5 with (2.5 * INR 3) by (simpl; lra). exact B. }
  destruct K as (k & Hk & B).
  apply Rle_trans with (Rabs (sample n k - c)); [now apply Hnear | exact B].
Qed.

(** Within 0.05 of a centre the fall-off of the line is at most a
    fortieth, whatever the width of the line. *)
Lemma close_dip (x c d w lo : R) :
  0.1 <= w -> 0 <= d -> Rabs (x - c) <= 0.05 ->
  d * (1 - (x - c) * (x - c) / w) <= lo -> 0.975 * d <= lo.
Proof.
  intros Hw Hd Hx H.
  assert (S : (x - c) * (x - c) <= 0.0025).
  { generalize dependent (x - c). intros v Hv _.
    unfold Rabs in Hv. destruct (Rcase_abs v); nra. }
  assert (Q : (x - c) * (x - c) / w <= 0.025).
  { apply Rmult_le_reg_r with w; [lra |].
    unfold Rdiv. rewrite Rmult_assoc, Rinv_l by lra. nra. }
  nra.
Qed.

Lemma line_centres (c d w : R) :
  In (c, d, w) dashboard_lines \/ In (c, d, w) library_lines ->
  (c = 2.5 \/ c = 5.0 \/ c = 7.5) /\ 0.1 <= w /\ 0 <= d.
Proof.
  unfold dashboard_lines, library_lines. simpl.
  intros [H | H];
    repeat (destruct H as [E | H]; [injection E as <- <- <-; lra |]);
    contradiction.
Qed.


Lemma sample_101_25 : sample (Z.to_nat 101) 25 = 2.5.
Proof.
  change (Z.to_nat 101) with 101%nat. unfold sample.
  rewrite (INR_IZR_INZ 25), (INR_IZR_INZ 101). simpl IZR. lra.
Qed.


(* ===================================================================== *)
(** ** Values of the sine at the five-point grid *)
(* ===================================================================== *)

(** Taylor polynomials of the standard library's bounds, with the
    factorials computed. *)
Lemma INR_fact (k : nat) (z : Z) :
  Z.of_nat (fact k) = z -> INR (fact k) = IZR z.
Proof. intros <-. apply INR_IZR_INZ. Qed.

Lemma sin_lb_poly (a : R) :
  sin_lb a = a - a ^ 3 / 6 + a ^ 5 / 120 - a ^ 7 / 5040.
Proof.
  unfold sin_lb, sin_approx, sin_term. cbn [sum_f_R0].
  change (2 * 0 + 1)%nat with 1%nat. change (2 * 1 + 1)%nat with 3%nat.
  change (2 * 2 + 1)%nat with 5%nat. change (2 * 3 + 1)%nat with 7%nat.
  rewrite (INR_fact 1 1), (INR_fact 3 6), (INR_fact 5 120), (INR_fact 7 5040)
    by (vm_compute; reflexivity).
  field.
Qed.

Lemma sin_ub_poly (a : R) :
  sin_ub a = a - a ^ 3 / 6 + a ^ 5 / 120 - a ^ 7 / 5040 + a ^ 9 / 362880.
Proof.
  unfold sin_ub, sin_approx, sin_term. cbn [sum_f_R0].
  change (2 * 0 + 1)%nat with 1%nat. change (2 * 1 + 1)%nat with 3%nat.
  change (2 * 2 + 1)%nat with 5%nat. change (2 * 3 + 1)%nat with 7%nat.
  change (2 * 4 + 1)%nat with 9%nat.
  rewrite (INR_fact 1 1), (INR_fact 3 6), (INR_fact 5 120), (INR_fact 7 5040),
    (INR_fact 9 362880) by (vm_compute; reflexivity).
  field.
Qed.

Lemma cos_lb_poly (a : R) :
  cos_lb a = 1 - a ^ 2 / 2 + a ^ 4 / 24 - a ^ 6 / 720.
Proof.
  unfold cos_lb, cos_approx, cos_term. cbn [sum_f_R0].
  change (2 * 0)%nat with 0%nat. change (2 * 1)%nat with 2%nat.
  change (2 * 2)%nat with 4%nat. change (2 * 3)%nat with 6%nat.
  rewrite (INR_fact 0 1), (INR_fact 2 2), (INR_fact 4 24), (INR_fact 6 720)
    by (vm_compute; reflexivity).
  field.
Qed.

Lemma cos_ub_poly (a : R) :
  cos_ub a = 1 - a ^ 2 / 2 + a ^ 4 / 24 - a ^ 6 / 720 + a ^ 8 / 40320.
Proof.
  unfold cos_ub, cos_approx, cos_term. cbn [sum_f_R0].
  change (2 * 0)%nat with 0%nat. change (2 * 1)%nat with 2%nat.
  change (2 * 2)%nat with 4%nat. change (2 * 3)%nat with 6%nat.
  change (2 * 4)%nat with 8%nat.
  rewrite (INR_fact 0 1), (INR_fact 2 2), (INR_fact 4 24), (INR_fact 6 720),
    (INR_fact 8 40320) by (vm_compute; reflexivity).
  field.
Qed.

Lemma within_bounds (l u lo hi v : R) :
  lo <= v <= hi -> l <= lo -> hi <= u -> l <= v <= u.
Proof. lra. Qed.

(** Sine and cosine of 5/16 from the Taylor bounds, then of 5/8, 5/4,
    5/2, 5 and 10 by the double-angle formulas, in interval arithmetic
    on eight decimals. *)
Lemma trig_5_16 :
  0.30743851 <= sin (5 / 16) <= 0.30743852
  /\ 0.95156794 <= cos (5 / 16) <= 0.95156795.
Proof.
  pose proof PI2_1 as HPI.
  pose proof (SIN (5 / 16)) as HS. pose proof (COS (5 / 16)) as HC.
  rewrite sin_lb_poly, sin_ub_poly in HS. rewrite cos_lb_poly, cos_ub_poly in HC.
  split;
    [ apply (within_bounds _ _ _ _ _ (HS ltac:(lra) ltac:(lra)))
    | apply (within_bounds _ _ _ _ _ (HC ltac:(lra) ltac:(lra))) ];
    lra.
Qed.

Lemma trig_5_8 :
  0.58509725 <= sin (5 / 8) <= 0.58509729
  /\ 0.81096311 <= cos (5 / 8) <= 0.81096313.
Proof.
  destruct trig_5_16 as [[S1 S2] [C1 C2]].
  replace (5 / 8) with (2 * (5 / 16)) by lra.
  rewrite sin_2a, cos_2a_sin.
  generalize dependent (sin (5 / 16)). generalize dependent (cos (5 / 16)).
  intros c C1 C2 s S1 S2. repeat split; nra.
Qed.

Lemma trig_5_4 :
  0.94898457 <= sin (5 / 4) <= 0.94898466
  /\ 0.31532233 <= cos (5 / 4) <= 0.31532240.
Proof.
  destruct trig_5_8 as [[S1 S2] [C1 C2]].
  replace (5 / 4) with (2 * (5 / 8)) by lra.
  rewrite sin_2a, cos_2a_cos.
  generalize dependent (sin (5 / 8)). generalize dependent (cos (5 / 8)).
  intros c C1 C2 s S1 S2. repeat split; nra.
Qed.

Lemma trig_5_2 :
  0.59847205 <= sin (5 / 2) <= 0.59847225
  /\ (-0.80114366) <= cos (5 / 2) <= (-0.80114356).
Proof.
  destruct trig_5_4 as [[S1 S2] [C1 C2]].
  replace (5 / 2) with (2 * (5 / 4)) by lra.
  rewrite sin_2a, cos_2a_cos.
  generalize dependent (sin (5 / 4)). generalize dependent (cos (5 / 4)).
  intros c C1 C2 s S1 S2. repeat split; nra.
Qed.

Lemma trig_5 :
  (-0.95892450) <= sin (5) <= (-0.95892405)
  /\ 0.28366200 <= cos (5) <= 0.28366233.
Proof.
  destruct trig_5_2 as [[S1 S2] [C1 C2]].
  replace (5) with (2 * (5 / 2)) by lra.
  rewrite sin_2a, cos_2a_cos.
  generalize dependent (sin (5 / 2)). generalize dependent (cos (5 / 2)).
  intros c C1 C2 s S1 S2. repeat split; nra.
Qed.

Lemma trig_10 :
  (-0.54402152) <= sin (10) <= (-0.54402062)
  /\ (-0.83907174) <= cos (10) <= (-0.83907136).
Proof.
  destruct trig_5 as [[S1 S2] [C1 C2]].
  replace (10) with (2 * (5)) by lra.
  rewrite sin_2a, cos_2a_cos.
  generalize dependent (sin (5)). generalize dependent (cos (5)).
  intros c C1 C2 s S1 S2. repeat split; nra.
Qed.

Lemma sin_15_2 : 0.93799960 <= sin (15 / 2) <= 0.93800032.
Proof.
  destruct trig_5 as [[S1 S2] [C1 C2]]. destruct trig_5_2 as [[S3 S4] [C3 C4]].
  replace (15 / 2) with (5 + 5 / 2) by lra. rewrite sin_plus.
  generalize dependent (sin 5). generalize dependent (cos 5).
  generalize dependent (sin (5 / 2)). generalize dependent (cos (5 / 2)).
  intros c' C3 C4 s' S3 S4 c C1 C2 s S1 S2. split; nra.
Qed.

Lemma within_of_bounds (tol v r lo hi : R) :
  lo <= v <= hi -> r - tol <= lo -> hi <= r + tol -> within tol (Fin v) r.
Proof.
  intros Hv Hlo Hhi. exists v. split; [reflexivity |].
  apply Rabs_le. lra.
Qed.

Lemma sine_values :
  Forall2 (within 0.001)
    [Fin (sin 0); Fin (sin 2.5); Fin (sin 5.0); Fin (sin 7.5); Fin (sin 10.0)]
    [0.0; 0.599; -0.959; 0.938; -0.544].
Proof.
  replace 2.5 with (5 / 2) by lra. replace 5.0 with 5 by lra.
  replace 7.5 with (15 / 2) by lra. replace 10.0 with 10 by lra.
  repeat constructor.
  - rewrite sin_0. apply (within_of_bounds _ _ _ 0 0); lra.
  - eapply within_of_bounds; [apply trig_5_2 | lra | lra].
  - eapply within_of_bounds; [apply trig_5 | lra | lra].
  - eapply within_of_bounds; [apply sin_15_2 | lra | lra].
  - eapply within_of_bounds; [apply trig_10 | lra | lra].
Qed.

Lemma grid_5 : grid 5 = [Fin 0; Fin 2.5; Fin 5.0; Fin 7.5; Fin 10.0].
Proof.
  unfold grid. cbn [map seq]. unfold sample. simpl INR.
  repeat (apply f_equal2; [apply f_equal; lra |]). reflexivity.
Qed.

(** C2.  Generating ['sine'] data with [n_points = 5] and
    [noise_level = 0] returns [x = [0, 2.5, 5.0, 7.5, 10.0]] and
    [y = [sin(0), sin(2.5), sin(5.0), sin(7.5), sin(10.0)]], which is
    [[0.0, 0.599, -0.959, 0.938, -0.544]] within 0.001, in the dashboard
    generator and in the library generator alike. *)
Theorem C2_sine_on_five_points (s : RandomState) :
  let x := [Fin 0; Fin 2.5; Fin 5.0; Fin 7.5; Fin 10.0] in
  let y :=
    [Fin (sin 0); Fin (sin 2.5); Fin (sin 5.0); Fin (sin 7.5);
     Fin (sin 10.0)] in
  (exists s', Dashboard._generate_data "sine" 5 (Fin 0) s = Ok ((x, y), s'))
  /\ (exists title s',
        VisualFoundations.create_sample_data "sine" 5 (Fin 0) s
        = Ok ((x, y, title), s'))
  /\ Forall2 (within 0.001) y [0.0; 0.599; -0.959; 0.938; -0.544].
Proof.
  intros x y.
  assert (Y : zip_with fadd (np_sin (grid 5))
                (s_mul (Fin 0) (draws (uniform s) (drawn s) 5)) = y).
  { rewrite noise_free by (reflexivity || len).
    rewrite grid_5. reflexivity. }
  split; [| split].
  - rewrite dashboard_sine by lia. to_nat_eval. rewrite Y, grid_5. eauto.
  - rewrite library_sine by lia. to_nat_eval. rewrite Y, grid_5. eauto.
  - exact sine_values.
Qed.

(* ===================================================================== *)
(** ** Further properties of the generators *)
(* ===================================================================== *)

(** *** Sample counts that are not positive *)

Lemma linspace_negative (a b : float64) (n : Z) (s : RandomState) :
  (n < 0)%Z -> linspace a b n s = Raise ValueError.
Proof.
  intros H. unfold linspace. destruct (Z.ltb_spec n 0); [reflexivity | lia].
Qed.

(** X1.  A negative [n_points] makes both generators raise [ValueError],
    whatever the data type and the noise level: [np.linspace] refuses a
    negative number of samples before any branch is chosen. *)
Theorem X1_negative_n_points_raises
  (data_type : string) (n_points : Z) (noise_level : float64)
  (s : RandomState) :
  (n_points < 0)%Z ->
  Dashboard._generate_data data_type n_points noise_level s = Raise ValueError
  /\ VisualFoundations.create_sample_data data_type n_points noise_level s
     = Raise ValueError.
Proof.
  intros H. split.
  - unfold Dashboard._generate_data.
    apply bind_raise. now apply linspace_negative.
  - unfold VisualFoundations.create_sample_data.
    apply bind_raise. now apply linspace_negative.
Qed.

Lemma X1_witness :
  (-1 < 0)%Z
  /\ Dashboard._generate_data "sine" (-1) (Fin 0) example_source
     = Raise ValueError
  /\ VisualFoundations.create_sample_data "sine" (-1) (Fin 0) example_source
     = Raise ValueError.
Proof.
  assert (H : (-1 < 0)%Z) by lia.
  exact (conj H (X1_negative_n_points_raises
                   "sine" (-1) (Fin 0) example_source H)).
Defined.

(** X2.  With [n_points = 0] the dashboard generator returns two empty
    arrays for every data type, and so does the library generator for
    every data type but ['blackbody'], where [np.max] of the empty
    quotient raises [ValueError]. *)
Theorem X2_zero_points
  (data_type : string) (noise_level : float64) (s : RandomState) :
  value (Dashboard._generate_data data_type 0 noise_level s) = Some ([], [])
  /\ (data_type <> "blackbody"%string ->
      exists title,
        value (VisualFoundations.create_sample_data data_type 0 noise_level s)
        = Some ([], [], title))
  /\ VisualFoundations.create_sample_data "blackbody" 0 noise_level s
     = Raise ValueError.
Proof.
  split; [| split].
  - unfold Dashboard._generate_data.
    destruct (data_type =? "sine")%string;
      [| destruct (data_type =? "exponential")%string;
         [| destruct (data_type =? "spectrum")%string;
            [| destruct (data_type =? "lightcurve")%string;
               [| destruct (data_type =? "transit")%string]]]];
      run; reflexivity.
  - intros Hbb. apply String.eqb_neq in Hbb.
    unfold VisualFoundations.create_sample_data. rewrite Hbb.
    destruct (data_type =? "sine")%string;
      [| destruct (data_type =? "exponential")%string;
         [| destruct (data_type =? "spectrum")%string;
            [| destruct (data_type =? "lightcurve")%string;
               [| destruct (data_type =? "transit")%string]]]];
      run; eexists; reflexivity.
  - unfold VisualFoundations.create_sample_data. run. reflexivity.
Qed.

(** *** The two generators side by side *)

Lemma library_matches_dashboard
  (data_type : string) (n_points : Z) (noise_level : float64)
  (s : RandomState) :
  In data_type ["sine"; "exponential"]%string ->
  without_title
    (VisualFoundations.create_sample_data data_type n_points noise_level s)
  = Dashboard._generate_data data_type n_points noise_level s.
Proof.
  intros HIn.
  destruct (Z.lt_ge_cases n_points 0) as [Hneg | Hpos].
  - unfold VisualFoundations.create_sample_data, Dashboard._generate_data.
    rewrite !(bind_raise _ _ _ _ (linspace_negative _ _ _ s Hneg)).
    reflexivity.
  - simpl in HIn. destruct HIn as [<- | [<- | []]];
      unfold VisualFoundations.create_sample_data, Dashboard._generate_data;
      run; reflexivity.
Qed.

(** X3.  For ['sine'] and ['exponential'] the dashboard generator and the
    library generator are the same function up to the title: on the same
    arguments and the same random source they return the same arrays,
    leave the same source behind, and raise in the same cases. *)
Theorem X3_sine_and_exponential_agree
  (data_type : string) (n_points : Z) (noise_level : float64)
  (s : RandomState) :
  In data_type ["sine"; "exponential"]%string ->
  without_title
    (VisualFoundations.create_sample_data data_type n_points noise_level s)
  = Dashboard._generate_data data_type n_points noise_level s.
Proof.
  exact (library_matches_dashboard data_type n_points noise_level s).
Qed.

Lemma X3_witness :
  In "exponential"%string ["sine"; "exponential"]%string
  /\ without_title
       (VisualFoundations.create_sample_data "exponential" 4 (Fin 0.1)
          example_source)
     = Dashboard._generate_data "exponential" 4 (Fin 0.1) example_source.
Proof.
  assert (H : In "exponential"%string ["sine"; "exponential"]%string)
    by (right; left; reflexivity).
  exact (conj H (X3_sine_and_exponential_agree
                   "exponential" 4 (Fin 0.1) example_source H)).
Defined.

(** *** What a call takes from the random source *)

Section Consumption.

Variables (data_type : string) (n_points : Z) (noise_level : float64).
Variable s : RandomState.
Hypothesis n_points_pos : (1 <= n_points)%Z.

Let n : nat := Z.to_nat n_points.

Lemma library_consumes :
  exists y title,
    VisualFoundations.create_sample_data data_type n_points noise_level s
    = Ok ((grid n, y, title), advance n s)
    /\ length y = n.
Proof.
  unfold VisualFoundations.create_sample_data.
  destruct (data_type =? "sine")%string;
    [| destruct (data_type =? "exponential")%string;
       [| destruct (data_type =? "spectrum")%string;
          [| destruct (data_type =? "lightcurve")%string;
             [| destruct (data_type =? "transit")%string;
                [| destruct (data_type =? "blackbody")%string]]]]];
    run; do 2 eexists; (split; [reflexivity |]); len.
Qed.

Lemma dashboard_consumes :
  exists y,
    Dashboard._generate_data data_type n_points noise_level s
    = Ok ((grid n, y),
          if existsb (String.eqb data_type)
               ["sine"; "exponential"; "spectrum"; "lightcurve"; "transit"]%string
          then advance n s else advance n (advance n s))
    /\ length y = n.
Proof.
  unfold Dashboard._generate_data. cbn [existsb].
  destruct (data_type =? "sine")%string;
    [| destruct (data_type =? "exponential")%string;
       [| destruct (data_type =? "spectrum")%string;
          [| destruct (data_type =? "lightcurve")%string;
             [| destruct (data_type =? "transit")%string]]]];
    run; eexists; (split; [reflexivity |]); len.
Qed.

End Consumption.

(** X4.  A call with [n_points >= 1] takes exactly [n_points] draws from
    the random source, whatever the data type and the noise level (the
    draws are taken even when the noise level is 0); the one exception is
    the dashboard's random walk, reached by every data type outside its
    five closed-form ones, which takes [2 * n_points]. *)
Theorem X4_draws_taken_from_the_source
  (data_type : string) (n_points : Z) (noise_level : float64)
  (s : RandomState) :
  (1 <= n_points)%Z ->
  let n := Z.to_nat n_points in
  (exists v,
      VisualFoundations.create_sample_data data_type n_points noise_level s
      = Ok (v, advance n s))
  /\ (exists v s',
        Dashboard._generate_data data_type n_points noise_level s = Ok (v, s')
        /\ uniform s' = uniform s /\ normal s' = normal s
        /\ drawn s' =
           if existsb (String.eqb data_type)
                ["sine"; "exponential"; "spectrum"; "lightcurve";
                 "transit"]%string
           then (drawn s + n)%nat else (drawn s + 2 * n)%nat).
Proof.
  intros Hn n. split.
  - destruct (library_consumes data_type n_points noise_level s Hn)
      as (y & t & E & _).
    eexists. exact E.
  - destruct (dashboard_consumes data_type n_points noise_level s Hn)
      as (y & E & _).
    do 2 eexists. split; [exact E |].
    fold n.
    destruct (existsb _ _); cbn [advance uniform normal drawn];
      repeat split; lia.
Qed.

Lemma X4_witness :
  (1 <= 3)%Z
  /\ exists v s',
       Dashboard._generate_data "random" 3 (Fin 0) example_source = Ok (v, s')
       /\ drawn s' = 6%nat.
Proof.
  assert (H : (1 <= 3)%Z) by lia.
  split; [exact H |].
  destruct (X4_draws_taken_from_the_source "random" 3 (Fin 0) example_source H)
    as [_ (v & s' & E & _ & _ & D)].
  exists v, s'. split; [exact E |]. rewrite D. reflexivity.
Defined.

(** *** Noise *)

(** Entry [i] of a series, brought to a finite real: the sample is
    [sample n i], constant divisors are non-zero, squares are products,
    and comparisons of reals are decided both ways. *)
Ltac entry_to_real i Hi :=
  nth_push i; rewrite ?grid_nth by exact Hi;
  repeat (progress (cbn [fmul fadd fsin fsub fneg fabs fexp];
                    rewrite ?fpow_2_fin; rewrite ?fdiv_fin by lra));
  unfold fgt, flt;
  repeat match goal with
    | |- context [Rlt_dec ?a ?b] => destruct (Rlt_dec a b)
    end;
  cbn [andb fsub fadd fmul].

Section Noise.

Variables (n_points : Z) (a : R).
Variable s : RandomState.
Hypothesis n_points_pos : (1 <= n_points)%Z.

Let n : nat := Z.to_nat n_points.

Lemma dashboard_noise (data_type : string) :
  In data_type closed_form_types ->
  exists y0 ya,
    value (Dashboard._generate_data data_type n_points (Fin 0) s)
    = Some (grid n, y0)
    /\ value (Dashboard._generate_data data_type n_points (Fin a) s)
       = Some (grid n, ya)
    /\ forall i, (i < n)%nat ->
         exists r,
           nth i y0 NaN = Fin r
           /\ nth i ya NaN =
              Fin (r + noise_scale data_type * a * uniform s (drawn s + i)).
Proof.
  intros HIn. unfold closed_form_types in HIn. simpl in HIn.
  unfold Dashboard._generate_data.
  repeat (destruct HIn as [<- | HIn];
    [ run; cbn [value]; do 2 eexists;
      split; [reflexivity |]; split; [reflexivity |];
      intros i Hi; fold n; entry_to_real i Hi;
      (eexists; split; [reflexivity |]);
      unfold noise_scale; cbn [String.eqb Ascii.eqb Bool.eqb];
      f_equal; ring
    | ]).
  contradiction.
Qed.

Lemma library_noise (data_type : string) :
  In data_type closed_form_types ->
  exists y0 ya title,
    value (VisualFoundations.create_sample_data data_type n_points (Fin 0) s)
    = Some (grid n, y0, title)
    /\ value (VisualFoundations.create_sample_data data_type n_points (Fin a) s)
       = Some (grid n, ya, title)
    /\ forall i, (i < n)%nat ->
         exists r,
           nth i y0 NaN = Fin r
           /\ nth i ya NaN =
              Fin (r + noise_scale data_type * a * uniform s (drawn s + i)).
Proof.
  intros HIn. unfold closed_form_types in HIn. simpl in HIn.
  unfold VisualFoundations.create_sample_data.
  repeat (destruct HIn as [<- | HIn];
    [ run; cbn [value]; do 3 eexists;
      split; [reflexivity |]; split; [reflexivity |];
      intros i Hi; fold n; entry_to_real i Hi;
      (eexists; split; [reflexivity |]);
      unfold noise_scale; cbn [String.eqb Ascii.eqb Bool.eqb];
      f_equal; ring
    | ]).
  contradiction.
Qed.

End Noise.

Lemma noise_scale_range (data_type : string) :
  0 < noise_scale data_type <= 1.
Proof.
  unfold noise_scale.
  repeat match goal with
    | |- context [(data_type =? ?c)%string] => destruct (data_type =? c)%string
    end; lra.
Qed.

(** X5.  In the five closed-form branches noise is additive and
    one-sided: with a noise level [a >= 0] and uniform draws in [[0, 1)],
    entry [i] of the series is the entry of the noise-free series plus
    [k * a * u_i], where [u_i] is the [i]-th draw and [k] is the branch's
    factor (1, 0.5, 0.5, 0.2, 0.1 for sine, exponential, spectrum,
    lightcurve, transit).  So noise never lowers a value and raises it by
    less than [k * a], in the dashboard and in the library alike. *)
Theorem X5_noise_is_additive_and_one_sided
  (data_type : string) (n_points : Z) (a : R) (s : RandomState) (i : nat) :
  (1 <= n_points)%Z -> 0 <= a -> uniform_in_unit s ->
  In data_type closed_form_types -> (i < Z.to_nat n_points)%nat ->
  let n := Z.to_nat n_points in
  let k := noise_scale data_type in
  (exists y0 ya r0 ra,
      value (Dashboard._generate_data data_type n_points (Fin 0) s)
      = Some (grid n, y0)
      /\ value (Dashboard._generate_data data_type n_points (Fin a) s)
         = Some (grid n, ya)
      /\ nth i y0 NaN = Fin r0 /\ nth i ya NaN = Fin ra
      /\ ra = r0 + k * a * uniform s (drawn s + i)
      /\ r0 <= ra <= r0 + k * a)
  /\
  (exists y0 ya title r0 ra,
      value (VisualFoundations.create_sample_data data_type n_points (Fin 0) s)
      = Some (grid n, y0, title)
      /\ value (VisualFoundations.create_sample_data data_type n_points
                  (Fin a) s)
         = Some (grid n, ya, title)
      /\ nth i y0 NaN = Fin r0 /\ nth i ya NaN = Fin ra
      /\ ra = r0 + k * a * uniform s (drawn s + i)
      /\ r0 <= ra <= r0 + k * a).
Proof.
  intros Hn Ha Hu HIn Hi n k.
  pose proof (noise_scale_range data_type) as Hk. fold k in Hk.
  pose proof (Hu (drawn s + i)%nat) as U.
  assert (B : 0 <= k * a * uniform s (drawn s + i) <= k * a).
  { generalize dependent (uniform s (drawn s + i)). intros u U.
    split; [repeat apply Rmult_le_pos; lra |].
    rewrite <- (Rmult_1_r (k * a)) at 2.
    apply Rmult_le_compat_l; [apply Rmult_le_pos; lra | lra]. }
  split.
  - destruct (dashboard_noise n_points a s Hn data_type HIn)
      as (y0 & ya & E0 & Ea & H).
    destruct (H i Hi) as (r & R0 & Ra).
    exists y0, ya, r, (r + k * a * uniform s (drawn s + i)).
    repeat split; try assumption; lra.
  - destruct (library_noise n_points a s Hn data_type HIn)
      as (y0 & ya & t & E0 & Ea & H).
    destruct (H i Hi) as (r & R0 & Ra).
    exists y0, ya, t, r, (r + k * a * uniform s (drawn s + i)).
    repeat split; try assumption; lra.
Qed.

Lemma example_source_uniform : uniform_in_unit example_source.
Proof. intros k. simpl. lra. Qed.

Lemma X5_witness :
  (1 <= 5)%Z /\ 0 <= 0.1 /\ uniform_in_unit example_source
  /\ In "spectrum"%string closed_form_types /\ (2 < Z.to_nat 5)%nat
  /\ exists y0 ya r0 ra,
       value (Dashboard._generate_data "spectrum" 5 (Fin 0) example_source)
       = Some (grid (Z.to_nat 5), y0)
       /\ value (Dashboard._generate_data "spectrum" 5 (Fin 0.1)
                   example_source)
          = Some (grid (Z.to_nat 5), ya)
       /\ nth 2 y0 NaN = Fin r0 /\ nth 2 ya NaN = Fin ra
       /\ r0 <= ra <= r0 + noise_scale "spectrum" * 0.1.
Proof.
  assert (H1 : (1 <= 5)%Z) by lia.
  assert (H2 : 0 <= 0.1) by lra.
  assert (H3 : In "spectrum"%string closed_form_types)
    by (right; right; left; reflexivity).
  assert (H4 : (2 < Z.to_nat 5)%nat) by (vm_compute; lia).
  destruct (X5_noise_is_additive_and_one_sided
              "spectrum" 5 0.1 example_source 2
              H1 H2 example_source_uniform H3 H4)
    as [(y0 & ya & r0 & ra & E0 & Ea & R0 & Ra & _ & B) _].
  split; [exact H1 |]. split; [exact H2 |].
  split; [exact example_source_uniform |].
  split; [exact H3 |]. split; [exact H4 |].
  exists y0, ya, r0, ra. exact (conj E0 (conj Ea (conj R0 (conj Ra B)))).
Defined.

(** *** The noise-free series, branch by branch *)

Lemma sample_le_10 (n i : nat) : (i < n)%nat -> sample n i <= 10.
Proof.
  intros Hi. destruct (Nat.eq_dec n 1) as [-> | Hne].
  - replace i with 0%nat by lia. rewrite sample_first. lra.
  - assert (H2 : (2 <= n)%nat) by lia.
    rewrite <- (sample_last n H2).
    destruct (Nat.eq_dec i (n - 1)) as [-> | Hlt]; [lra |].
    left. apply sample_increasing; [exact H2 | lia].
Qed.

Section ClosedForms.

Variable n_points : Z.
Variable s : RandomState.
Hypothesis n_points_pos : (1 <= n_points)%Z.

Let n : nat := Z.to_nat n_points.

Lemma dashboard_exponential :
  exists y,
    value (Dashboard._generate_data "exponential" n_points (Fin 0) s)
    = Some (grid n, y)
    /\ length y = n
    /\ forall i, (i < n)%nat -> nth i y NaN = Fin (exp (- sample n i / 3)).
Proof.
  unfold Dashboard._generate_data. run. cbn [value].
  eexists. split; [reflexivity |]. split; [len |].
  intros i Hi. fold n. entry_to_real i Hi. f_equal. lra.
Qed.

Lemma dashboard_lightcurve :
  exists y,
    value (Dashboard._generate_data "lightcurve" n_points (Fin 0) s)
    = Some (grid n, y)
    /\ forall i, (i < n)%nat ->
         nth i y NaN =
         Fin (1 - 0.01 * sample n i
              + 0.08 * sin (2 * PI * sample n i / 2.5)).
Proof.
  unfold Dashboard._generate_data. run. cbn [value].
  eexists. split; [reflexivity |].
  intros i Hi. fold n. entry_to_real i Hi. f_equal. lra.
Qed.

Lemma library_lightcurve :
  exists y,
    value (VisualFoundations.create_sample_data "lightcurve" n_points (Fin 0) s)
    = Some (grid n, y, "Sample Light Curve"%string)
    /\ forall i, (i < n)%nat ->
         nth i y NaN =
         Fin (1 - 0.01 * sample n i
              + 0.05 * sin (2 * PI * sample n i / 2.5)).
Proof.
  unfold VisualFoundations.create_sample_data. run. cbn [value].
  eexists. split; [reflexivity |].
  intros i Hi. fold n. entry_to_real i Hi. f_equal. lra.
Qed.

End ClosedForms.

(** X6.  Without noise the ['exponential'] series is [exp(-x / 3)] at
    every sample: it starts at exactly 1, stays in the interval from 0
    (excluded) to 1, and is strictly decreasing.  By X3 the library series
    is the same. *)
Theorem X6_exponential_decays_from_one
  (n_points : Z) (s : RandomState) :
  (1 <= n_points)%Z ->
  let n := Z.to_nat n_points in
  exists y,
    value (Dashboard._generate_data "exponential" n_points (Fin 0) s)
    = Some (grid n, y)
    /\ without_title
         (VisualFoundations.create_sample_data "exponential" n_points (Fin 0) s)
       = Dashboard._generate_data "exponential" n_points (Fin 0) s
    /\ nth 0 y NaN = Fin 1
    /\ (forall i, (i < n)%nat ->
          exists r, nth i y NaN = Fin r /\ r = exp (- sample n i / 3)
                    /\ 0 < r <= 1)
    /\ (forall i j, (i < j < n)%nat ->
          flt (nth j y NaN) (nth i y NaN) = true).
Proof.
  intros Hn n.
  destruct (dashboard_exponential n_points s Hn) as (y & E & L & Hy).
  fold n in E, L, Hy.
  exists y. split; [exact E |].
  split; [apply library_matches_dashboard; right; left; reflexivity |].
  split; [| split].
  - rewrite Hy by (unfold n; lia). rewrite sample_first.
    replace (- 0 / 3) with 0 by lra. now rewrite exp_0.
  - intros i Hi. eexists. split; [now apply Hy |]. split; [reflexivity |].
    split; [apply exp_pos |].
    rewrite <- exp_0. apply exp_le_mono.
    pose proof (sample_nonneg n i ltac:(unfold n; lia)). lra.
  - intros i j [Hij Hj]. rewrite !Hy by lia.
    apply flt_fin_true. apply exp_increasing.
    pose proof (sample_increasing n ltac:(lia) i j Hij). lra.
Qed.

Lemma X6_witness :
  (1 <= 3)%Z /\
  exists y,
    value (Dashboard._generate_data "exponential" 3 (Fin 0) example_source)
    = Some (grid (Z.to_nat 3), y)
    /\ nth 0 y NaN = Fin 1
    /\ flt (nth 2 y NaN) (nth 1 y NaN) = true.
Proof.
  assert (H : (1 <= 3)%Z) by lia.
  split; [exact H |].
  destruct (X6_exponential_decays_from_one 3 example_source H)
    as (y & E & _ & H0 & _ & Hdec).
  exists y. split; [exact E |]. split; [exact H0 |].
  apply Hdec. vm_compute. lia.
Defined.

(** X7.  Without noise the ['lightcurve'] series is
    [1 - 0.01 x + A sin(2 pi x / 2.5)] with [A = 0.08] in the dashboard
    and [A = 0.05] in the library, so every value lies between 0.82 and
    1.08 in the dashboard and between 0.85 and 1.05 in the library. *)
Theorem X7_lightcurve_stays_in_band
  (n_points : Z) (s : RandomState) (i : nat) :
  (1 <= n_points)%Z -> (i < Z.to_nat n_points)%nat ->
  let n := Z.to_nat n_points in
  (exists y r,
      value (Dashboard._generate_data "lightcurve" n_points (Fin 0) s)
      = Some (grid n, y)
      /\ nth i y NaN = Fin r
      /\ r = 1 - 0.01 * sample n i + 0.08 * sin (2 * PI * sample n i / 2.5)
      /\ 0.82 <= r <= 1.08)
  /\
  (exists y title r,
      value (VisualFoundations.create_sample_data "lightcurve" n_points
               (Fin 0) s)
      = Some (grid n, y, title)
      /\ nth i y NaN = Fin r
      /\ r = 1 - 0.01 * sample n i + 0.05 * sin (2 * PI * sample n i / 2.5)
      /\ 0.85 <= r <= 1.05).
Proof.
  intros Hn Hi n.
  pose proof (sample_nonneg n i ltac:(unfold n; lia)) as X0.
  pose proof (sample_le_10 n i Hi) as X10.
  pose proof (SIN_bound (2 * PI * sample n i / 2.5)) as B.
  split.
  - destruct (dashboard_lightcurve n_points s Hn) as (y & E & Hy).
    exists y. eexists. split; [exact E |].
    split; [now apply Hy |]. split; [reflexivity |]. fold n. lra.
  - destruct (library_lightcurve n_points s Hn) as (y & E & Hy).
    exists y. do 2 eexists. split; [exact E |].
    split; [now apply Hy |]. split; [reflexivity |]. fold n. lra.
Qed.

Lemma X7_witness :
  (1 <= 4)%Z /\ (3 < Z.to_nat 4)%nat /\
  exists y r,
    value (Dashboard._generate_data "lightcurve" 4 (Fin 0) example_source)
    = Some (grid (Z.to_nat 4), y)
    /\ nth 3 y NaN = Fin r /\ 0.82 <= r <= 1.08.
Proof.
  assert (H1 : (1 <= 4)%Z) by lia.
  assert (H2 : (3 < Z.to_nat 4)%nat) by (vm_compute; lia).
  split; [exact H1 |]. split; [exact H2 |].
  destruct (X7_lightcurve_stays_in_band 4 example_source 3 H1 H2)
    as [(y & r & E & R & _ & B) _].
  exists y, r. exact (conj E (conj R B)).
Defined.

(** X8.  Without noise every entry of the ['transit'] series is at one
    of four levels: the baseline, the flat bottom one depth below it,
    half a depth below the baseline, or one and a half depths below it.
    A sample in an ingress/egress interval is at half a depth when it is
    outside the window [|x - 5.0| < 0.75] and at one and a half depths
    when it is inside: the shoulders overlap the window, so the deepest
    points of the dip are at its edges.  Which of the two a sample takes
    is stated for samples clear, by the margin [guard], of the edges of
    the intervals and of the window. *)
Theorem X8_transit_shoulders
  (n_points : Z) (s : RandomState) (i : nat) :
  (1 <= n_points)%Z -> (i < Z.to_nat n_points)%nat ->
  let n := Z.to_nat n_points in
  let xi := sample n i in
  (exists y v,
      value (Dashboard._generate_data "transit" n_points (Fin 0) s)
      = Some (grid n, y)
      /\ nth i y NaN = Fin v
      /\ (v = 1 \/ v = 0.985 \/ v = 0.9925 \/ v = 0.9775)
      /\ (3.95 + guard < xi < 4.25 - guard
          \/ 5.75 + guard < xi < 6.05 - guard -> v = 0.9925)
      /\ (4.25 + guard < xi < 4.35 - guard
          \/ 5.65 + guard < xi < 5.75 - guard -> v = 0.9775)
      /\ 0.9775 <= v <= 1)
  /\
  (exists y title v,
      value (VisualFoundations.create_sample_data "transit" n_points (Fin 0) s)
      = Some (grid n, y, title)
      /\ nth i y NaN = Fin v
      /\ (v = 1 \/ v = 0.98 \/ v = 0.99 \/ v = 0.97)
      /\ (4.05 + guard < xi < 4.25 - guard
          \/ 5.75 + guard < xi < 5.95 - guard -> v = 0.99)
      /\ (4.25 + guard < xi < 4.45 - guard
          \/ 5.55 + guard < xi < 5.75 - guard -> v = 0.97)
      /\ 0.97 <= v <= 1).
Proof.
  intros Hn Hi n xi.
  assert (H0 : (0 <= n_points)%Z) by lia.
  assert (G : 0 < guard) by (unfold guard; lra).
  split.
  - destruct (dashboard_transit n_points (Fin 0) s H0) as (y & s' & E & Hy).
    specialize (Hy i Hi). rewrite grid_nth in Hy by exact Hi.
    fold n xi in Hy. rewrite fdiv_fin in Hy by lra. cbn [fsub fadd] in Hy.
    rewrite transit_entry_cases in Hy.
    exists y. eexists. split; [now rewrite E |]. split; [exact Hy |].
    destruct (Rlt_dec (Rabs (xi - 5.0)) (1.5 / 2)) as [Win | Wout];
      [apply window_iff in Win | rewrite window_iff in Wout];
      destruct (Rlt_dec (5.0 - 1.5 / 2 - 0.3) xi);
      destruct (Rlt_dec xi (5.0 - 1.5 / 2 + 0.1));
      destruct (Rlt_dec (5.0 + 1.5 / 2 - 0.1) xi);
      destruct (Rlt_dec xi (5.0 + 1.5 / 2 + 0.3));
      try (exfalso; lra);
      (split; [lra |]); (split; [intros Hs; lra |]);
      (split; [intros Hs; lra | lra]).
  - destruct (library_transit n_points (Fin 0) s H0) as (y & s' & E & Hy).
    specialize (Hy i Hi). rewrite grid_nth in Hy by exact Hi.
    fold n xi in Hy. rewrite fdiv_fin in Hy by lra. cbn [fsub fadd] in Hy.
    rewrite transit_entry_cases in Hy.
    exists y. do 2 eexists. split; [now rewrite E |]. split; [exact Hy |].
    destruct (Rlt_dec (Rabs (xi - 5.0)) (1.5 / 2)) as [Win | Wout];
      [apply window_iff in Win | rewrite window_iff in Wout];
      destruct (Rlt_dec (5.0 - 1.5 / 2 - 0.2) xi);
      destruct (Rlt_dec xi (5.0 - 1.5 / 2 + 0.2));
      destruct (Rlt_dec (5.0 + 1.5 / 2 - 0.2) xi);
      destruct (Rlt_dec xi (5.0 + 1.5 / 2 + 0.2));
      try (exfalso; lra);
      (split; [lra |]); (split; [intros Hs; lra |]);
      (split; [intros Hs; lra | lra]).
Qed.

Lemma X8_witness :
  (1 <= 8)%Z /\ (3 < Z.to_nat 8)%nat
  /\ sample (Z.to_nat 8) 3 = 30 / 7
  /\ exists y v,
       value (Dashboard._generate_data "transit" 8 (Fin 0) example_source)
       = Some (grid (Z.to_nat 8), y)
       /\ nth 3 y NaN = Fin v /\ v = 0.9775.
Proof.
  assert (H1 : (1 <= 8)%Z) by lia.
  assert (H2 : (3 < Z.to_nat 8)%nat) by (vm_compute; lia).
  assert (X : sample (Z.to_nat 8) 3 = 30 / 7)
    by (to_nat_eval; unfold sample; simpl INR; lra).
  split; [exact H1 |]. split; [exact H2 |]. split; [exact X |].
  destruct (X8_transit_shoulders 8 example_source 3 H1 H2)
    as [(y & v & E & V & _ & _ & Hs & _) _].
  exists y, v. split; [exact E |]. split; [exact V |].
  rewrite X in Hs.
  apply Hs. left. unfold guard. lra.
Defined.

(** *** The random walk *)

Lemma cumsum_from_step (l : ndarray) (acc : float64) (i : nat) :
  (i < length l)%nat ->
  nth i (cumsum_from acc l) NaN
  = fadd (nth i (acc :: cumsum_from acc l) NaN) (nth i l NaN).
Proof.
  revert acc i. induction l as [| v l IH]; intros acc i Hi; simpl in Hi;
    [lia |].
  destruct i as [| i]; [reflexivity |].
  cbn [cumsum_from nth]. apply IH. lia.
Qed.

Lemma cumsum_step (l : ndarray) (i : nat) :
  (S i < length l)%nat ->
  nth (S i) (cumsum l) NaN = fadd (nth i (cumsum l) NaN) (nth (S i) l NaN).
Proof.
  destruct l as [| v l]; simpl; [lia |]. intros Hi.
  apply cumsum_from_step. lia.
Qed.

Lemma cumsum_first (l : ndarray) : nth 0 (cumsum l) NaN = nth 0 l NaN.
Proof. destruct l; reflexivity. Qed.

(** X9.  Without noise the dashboard's random walk starts at 0.3 times
    the first normal draw, and each later entry is the previous one plus
    0.3 times the next normal draw.  Every data type other than the five
    closed-form ones, ['random'] included, gives this walk. *)
Theorem X9_random_walk_increments
  (data_type : string) (n_points : Z) (s : RandomState) :
  (1 <= n_points)%Z ->
  ~ In data_type closed_form_types ->
  let n := Z.to_nat n_points in
  exists y,
    value (Dashboard._generate_data data_type n_points (Fin 0) s)
    = Some (grid n, y)
    /\ nth 0 y NaN = Fin (normal s (drawn s) * 0.3)
    /\ forall i, (S i < n)%nat ->
         nth (S i) y NaN
         = fadd (nth i y NaN) (Fin (normal s (drawn s + S i) * 0.3)).
Proof.
  intros Hn Hout n.
  assert (E : Dashboard._generate_data data_type n_points (Fin 0) s
              = Dashboard._generate_data "random" n_points (Fin 0) s).
  { unfold closed_form_types in Hout. simpl in Hout.
    unfold Dashboard._generate_data.
    repeat match goal with
      | |- context [(data_type =? ?c)%string] =>
          replace (data_type =? c)%string with false
            by (symmetry; apply String.eqb_neq; intros ->; tauto)
      end.
    reflexivity. }
  rewrite E, dashboard_random_walk by lia. fold n. cbn [value].
  rewrite noise_free by (reflexivity || len).
  eexists. split; [reflexivity |].
  set (g := draws (normal s) (drawn s) n).
  assert (G : forall i, (i < n)%nat ->
                nth i (mul_s g (Fin 0.3)) NaN
                = Fin (normal s (drawn s + i) * 0.3)).
  { intros i Hi. unfold g. nth_push i. reflexivity. }
  split.
  - rewrite cumsum_first, G by (unfold n; lia).
    now rewrite Nat.add_0_r.
  - intros i Hi. rewrite cumsum_step by (unfold g; len).
    now rewrite G by lia.
Qed.

Lemma X9_witness :
  (1 <= 3)%Z /\ ~ In "random"%string closed_form_types /\
  exists y,
    value (Dashboard._generate_data "random" 3 (Fin 0) example_source)
    = Some (grid (Z.to_nat 3), y)
    /\ nth 0 y NaN = Fin (1 * 0.3)
    /\ nth 1 y NaN = fadd (nth 0 y NaN) (Fin (1 * 0.3)).
Proof.
  assert (H1 : (1 <= 3)%Z) by lia.
  assert (H2 : ~ In "random"%string closed_form_types).
  { simpl. intros H.
    repeat (destruct H as [H | H]; [discriminate H |]). exact H. }
  split; [exact H1 |]. split; [exact H2 |].
  destruct (X9_random_walk_increments "random" 3 example_source H1 H2)
    as (y & E & F & Hstep).
  exists y. split; [exact E |]. split; [exact F |].
  apply (Hstep 0%nat). vm_compute. lia.
Defined.

(** X10.  For every [n_points >= 1] and every noise level the first entry
    of the library's ['blackbody'] series is not-a-number; without noise
    every other entry is 0.  The series is never the normalised curve its
    branch sets out to compute. *)
Theorem X10_blackbody_is_nan_then_zeros
  (n_points : Z) (noise_level : float64) (s : RandomState) :
  (1 <= n_points)%Z ->
  let n := Z.to_nat n_points in
  exists y s',
    VisualFoundations.create_sample_data "blackbody" n_points noise_level s
    = Ok ((grid n, y, "Sample Blackbody Spectrum"%string), s')
    /\ length y = n
    /\ nth 0 y NaN = NaN
    /\ (noise_level = Fin 0 ->
        forall i, (1 <= i < n)%nat -> nth i y NaN = Fin 0).
Proof.
  intros Hn n.
  destruct (library_blackbody n_points noise_level s Hn)
    as (y & s' & E & L & H0 & Hi).
  exists y, s'. split; [exact E |]. split; [exact L |]. split; [exact H0 |].
  intros -> i Hr. rewrite Hi by exact Hr. cbn [fmul fadd]. f_equal. lra.
Qed.

Lemma X10_witness :
  (1 <= 1)%Z /\
  exists y s',
    VisualFoundations.create_sample_data "blackbody" 1 (Fin 0.1) example_source
    = Ok ((grid (Z.to_nat 1), y, "Sample Blackbody Spectrum"%string), s')
    /\ nth 0 y NaN = NaN.
Proof.
  assert (H : (1 <= 1)%Z) by lia.
  split; [exact H |].
  destruct (X10_blackbody_is_nan_then_zeros 1 (Fin 0.1) example_source H)
    as (y & s' & E & _ & N & _).
  exists y, s'. exact (conj E N).
Defined.

(* ===================================================================== *)
(** ** Further properties of the collection of learning datasets *)
(* ===================================================================== *)

(** X11.  [learning_dashboard_data] raises [ValueError] for every
    [n_points <= 0]: a negative count is refused by the first call, and
    with zero points the five first datasets are built but the blackbody
    call takes the maximum of an empty array. *)
Theorem X11_learning_data_needs_a_point (n_points : Z) (s : RandomState) :
  (n_points <= 0)%Z ->
  VisualFoundations.learning_dashboard_data n_points s = Raise ValueError.
Proof.
  intros Hn. unfold VisualFoundations.learning_dashboard_data.
  cbn [for_each].
  destruct (Z.eq_dec n_points 0) as [-> | Hne].
  - unfold VisualFoundations.create_sample_data,
      VisualFoundations.default_noise_level.
    run. reflexivity.
  - apply bind_raise. apply bind_raise.
    unfold VisualFoundations.create_sample_data.
    apply bind_raise. apply linspace_negative. lia.
Qed.

Lemma X11_witness :
  (0 <= 0)%Z
  /\ VisualFoundations.learning_dashboard_data 0 example_source
     = Raise ValueError.
Proof.
  assert (H : (0 <= 0)%Z) by lia.
  exact (conj H (X11_learning_data_needs_a_point 0 example_source H)).
Defined.

(** X12.  For [n_points >= 1] the six datasets of
    [learning_dashboard_data] all carry the same [x] grid, a lookup under
    any other key finds nothing (['sine'] included: that dataset is stored
    under ['sine_wave']), and the call takes [6 * n_points] draws from the
    random source. *)
Theorem X12_learning_data_shares_the_grid (n_points : Z) (s : RandomState) :
  (1 <= n_points)%Z ->
  let n := Z.to_nat n_points in
  exists d s',
    VisualFoundations.learning_dashboard_data n_points s = Ok (d, s')
    /\ (forall k x y,
          VisualFoundations.dict_get d k = Some (x, y) -> x = grid n)
    /\ (forall k,
          ~ In k ["sine_wave"; "exponential"; "spectrum"; "lightcurve";
                  "transit"; "blackbody"]%string ->
          VisualFoundations.dict_get d k = None)
    /\ VisualFoundations.dict_get d "sine" = None
    /\ uniform s' = uniform s /\ normal s' = normal s
    /\ drawn s' = (drawn s + 6 * n)%nat.
Proof.
  intros Hn n.
  unfold VisualFoundations.learning_dashboard_data.
  cbn [for_each]. unfold bind, ret.
  set (nl := VisualFoundations.default_noise_level).
  set (s1 := advance n s). set (s2 := advance n s1).
  set (s3 := advance n s2). set (s4 := advance n s3).
  set (s5 := advance n s4).
  destruct (library_consumes "sine" n_points nl s Hn)
    as (y1 & t1 & E1 & _).
  rewrite E1. cbv beta iota.
  destruct (library_consumes "exponential" n_points nl s1 Hn)
    as (y2 & t2 & E2 & _).
  fold n s1. rewrite E2. cbv beta iota.
  destruct (library_consumes "spectrum" n_points nl s2 Hn)
    as (y3 & t3 & E3 & _).
  fold n s2. rewrite E3. cbv beta iota.
  destruct (library_consumes "lightcurve" n_points nl s3 Hn)
    as (y4 & t4 & E4 & _).
  fold n s3. rewrite E4. cbv beta iota.
  destruct (library_consumes "transit" n_points nl s4 Hn)
    as (y5 & t5 & E5 & _).
  fold n s4. rewrite E5. cbv beta iota.
  destruct (library_consumes "blackbody" n_points nl s5 Hn)
    as (y6 & t6 & E6 & _).
  fold n s5. rewrite E6. cbv beta iota.
  cbn [negb String.eqb Ascii.eqb Bool.eqb VisualFoundations.dict_set].
  do 2 eexists. split; [reflexivity |].
  fold n.
  split; [| split; [| split; [reflexivity |]]].
  - intros k x y. cbn [VisualFoundations.dict_get].
    repeat match goal with
      | |- context [(?c =? k)%string] => destruct (c =? k)%string
      end;
      intros H; inversion H; reflexivity.
  - intros k Hk. simpl in Hk. cbn [VisualFoundations.dict_get].
    repeat match goal with
      | |- context [(?c =? k)%string] =>
          replace (c =? k)%string with false
            by (symmetry; apply String.eqb_neq; intros <-; tauto)
      end.
    reflexivity.
  - unfold s5, s4, s3, s2, s1. cbn [advance uniform normal drawn].
    repeat split. lia.
Qed.

Lemma X12_witness :
  (1 <= 2)%Z /\
  exists d s',
    VisualFoundations.learning_dashboard_data 2 example_source = Ok (d, s')
    /\ VisualFoundations.dict_get d "sine" = None
    /\ drawn s' = 12%nat.
Proof.
  assert (H : (1 <= 2)%Z) by lia.
  split; [exact H |].
  destruct (X12_learning_data_shares_the_grid 2 example_source H)
    as (d & s' & E & _ & _ & Hs & _ & _ & D).
  exists d, s'. split; [exact E |]. split; [exact Hs |].
  rewrite D. reflexivity.
Defined.

(* ===================================================================== *)
(** ** Colour schemes *)
(* ===================================================================== *)

Module VF := VisualFoundations.

Lemma get_color_spec (color_scheme name : string) :
  exists self c,
    VF.__init__ color_scheme = Some self
    /\ VF.keys (VF.colors self) = color_names
    /\ VF.get_color self name = Some c
    /\ is_hex_code c = true
    /\ (In name color_names -> VF.dict_get (VF.colors self) name = Some c)
    /\ (~ In name color_names ->
        VF.dict_get (VF.colors self) name = None
        /\ VF.dict_get (VF.colors self) "primary" = Some c).
Proof.
  set (bg := [("figure", "#34495E"); ("axes", "#2C3E50");
              ("grid", "#4A6278")]%string).
  unfold VF.__init__. fold bg.
  destruct (color_scheme =? "wong")%string;
    [ exists (VF.mkInstance
                [("primary", "#0072B2"); ("secondary", "#D55E00");
                 ("success", "#009E73"); ("warning", "#E69F00");
                 ("info", "#CC79A7"); ("light", "#ECF0F1");
                 ("dark", "#34495E"); ("cyan", "#56B4E9")]%string
                VF.WONG_PALETTE bg)
    | exists (VF.mkInstance VF.ACCESSIBLE_COLORS
                (map snd VF.ACCESSIBLE_COLORS) bg) ];
    unfold VF.get_color, VF.ACCESSIBLE_COLORS;
    cbn [VF.colors VF.dict_get]; rewrite String.eqb_refl;
    unfold color_names; cbn [In];
    repeat match goal with
      | |- context [(?c =? name)%string] =>
          destruct (String.eqb_spec c name)
      end;
    eexists; (split; [reflexivity |]);
    (split; [reflexivity |]);
    (split; [reflexivity |]); (split; [reflexivity |]);
    (split; [intros H; first [reflexivity | exfalso; tauto]
            | intros H; first [exfalso; tauto | split; reflexivity]]).
Qed.

(** X13.  Whatever colour scheme is asked for, the constructor succeeds
    and the object has the same eight colour names; [get_color] never
    raises and always returns a colour of the form [#RRGGBB]: the colour
    stored under the name, and the primary colour for every other
    name. *)
Theorem X13_get_color_always_answers (color_scheme name : string) :
  exists self c,
    VF.__init__ color_scheme = Some self
    /\ VF.keys (VF.colors self) = color_names
    /\ VF.get_color self name = Some c
    /\ is_hex_code c = true
    /\ (In name color_names -> VF.dict_get (VF.colors self) name = Some c)
    /\ (~ In name color_names ->
        VF.dict_get (VF.colors self) name = None
        /\ VF.dict_get (VF.colors self) "primary" = Some c).
Proof.
  exact (get_color_spec color_scheme name).
Qed.

(* ===================================================================== *)
(** ** The comparison figure *)
(* ===================================================================== *)

Lemma nth_error_combine {A B : Type} (a : list A) (b : list B) (j : nat)
  (u : A) (v : B) :
  nth_error a j = Some u -> nth_error b j = Some v ->
  nth_error (combine a b) j = Some (u, v).
Proof.
  revert b j. induction a as [| x a IH]; intros [| y b] [| j] Ha Hb;
    simpl in *; try discriminate.
  - now inversion Ha; inversion Hb.
  - now apply IH.
Qed.

Lemma add_traces_spec (pairs : list ((ndarray * ndarray) * string))
  (subplot_colors : list string) (positions : list (nat * nat)) (i : nat) :
  (i + length pairs <= length positions)%nat ->
  (i + length pairs <= length subplot_colors)%nat ->
  exists ts,
    VF.add_traces i pairs subplot_colors positions = inr ts
    /\ length ts = length pairs
    /\ forall j x y label,
         nth_error pairs j = Some ((x, y), label) ->
         exists row col color,
           nth_error positions (i + j) = Some (row, col)
           /\ nth_error subplot_colors (i + j) = Some color
           /\ nth_error ts j = Some (VF.mkTrace x y label color row col).
Proof.
  revert i. induction pairs as [| [[x y] label] pairs IH]; intros i Hp Hc.
  - exists []. repeat split. intros [| j]; discriminate.
  - simpl in Hp, Hc. cbn [VF.add_traces].
    destruct (nth_error positions i) as [[row col] |] eqn:P;
      [| apply nth_error_None in P; lia].
    destruct (nth_error subplot_colors i) as [color |] eqn:C;
      [| apply nth_error_None in C; lia].
    destruct (IH (S i)) as (ts & E & L & H); [lia | lia |].
    rewrite E. eexists. split; [reflexivity |]. split; [simpl; lia |].
    intros [| j] x' y' label' Hj; simpl in Hj.
    + inversion Hj; subst. rewrite Nat.add_0_r.
      exists row, col, color. auto.
    + destruct (H j x' y' label' Hj) as (r & c & k & Hr & Hk & Ht).
      exists r, c, k. replace (i + S j)%nat with (S i + j)%nat by lia. auto.
Qed.

(** X14.  With plotly available [comparison_plot] draws exactly
    [min(len(datasets), len(labels), 4)] traces: dataset [j] with label
    [j] goes to subplot [j] of the 2 x 2 grid, row by row, in the [j]-th of
    the colours primary, secondary, success, warning; datasets beyond the
    fourth, and datasets without a label, are left out without an error.
    Without plotly it raises [ImportError] whatever the arguments. *)
Theorem X14_comparison_plot_places_four_traces
  (color_scheme title : string) (datasets : list (ndarray * ndarray))
  (labels : list string) :
  exists self fig,
    VF.__init__ color_scheme = Some self
    /\ VF.comparison_plot false self datasets labels title
       = inl VF.PlotImportError
    /\ VF.comparison_plot true self datasets labels title = inr fig
    /\ length (VF.traces fig)
       = Nat.min (Nat.min (length datasets) (length labels)) 4
    /\ forall j x y label,
         (j < 4)%nat ->
         nth_error datasets j = Some (x, y) ->
         nth_error labels j = Some label ->
         exists color,
           VF.get_color self
             (nth j ["primary"; "secondary"; "success"; "warning"]%string
                  ""%string)
           = Some color
           /\ nth_error (VF.traces fig) j
              = Some (VF.mkTrace x y label color (1 + j / 2) (1 + j mod 2)).
Proof.
  destruct (get_color_spec color_scheme "primary")
    as (self & c1 & I & K & G1 & _ & D1 & _).
  assert (D : forall k, In k color_names ->
                exists c, VF.dict_get (VF.colors self) k = Some c
                          /\ VF.get_color self k = Some c).
  { intros k Hk.
    destruct (get_color_spec color_scheme k)
      as (self' & c & I' & _ & G & _ & Dk & _).
    rewrite I in I'. inversion I'; subst self'. eauto. }
  destruct (D "primary"%string) as (p & Dp & Gp); [simpl; tauto |].
  destruct (D "secondary"%string) as (q & Dq & Gq); [simpl; tauto |].
  destruct (D "success"%string) as (r & Dr & Gr); [simpl; tauto |].
  destruct (D "warning"%string) as (w & Dw & Gw); [simpl; tauto |].
  set (n := Nat.min (length datasets) 4).
  destruct (add_traces_spec
              (combine (firstn n datasets) (firstn n labels))
              [p; q; r; w] [(1, 1); (1, 2); (2, 1); (2, 2)]%nat 0)
    as (ts & E & L & H).
  { simpl. rewrite length_combine, !length_firstn. unfold n. lia. }
  { simpl. rewrite length_combine, !length_firstn. unfold n. lia. }
  exists self. eexists. split; [exact I |]. split; [reflexivity |].
  unfold VF.comparison_plot. cbn [negb]. rewrite Dp, Dq, Dr, Dw.
  fold n. rewrite E. split; [reflexivity |]. cbn [VF.traces].
  split.
  - rewrite L, length_combine, !length_firstn. unfold n. lia.
  - intros j x y label Hj Hd Hl.
    assert (Hjn : (j < n)%nat).
    { unfold n. assert (j < length datasets)%nat
        by (apply nth_error_Some; congruence). lia. }
    destruct (H j x y label) as (row & col & color & P & C & T).
    { apply nth_error_combine; rewrite nth_error_firstn;
        (destruct (Nat.ltb_spec j n); [assumption | lia]). }
    simpl in P, C.
    destruct j as [| [| [| [| j]]]]; [| | | | lia];
      simpl in P, C; inversion P; inversion C; subst;
      eexists; (split; [eassumption | exact T]).
Qed.

(* ===================================================================== *)
(** ** The self-test of the library *)
(* ===================================================================== *)

Lemma learning_data_run (n_points : Z) (s : RandomState) :
  (1 <= n_points)%Z ->
  let g := grid (Z.to_nat n_points) in
  exists y1 y2 y3 y4 y5 y6 s',
    VF.learning_dashboard_data n_points s
    = Ok ([("sine_wave", (g, y1)); ("exponential", (g, y2));
           ("spectrum", (g, y3)); ("lightcurve", (g, y4));
           ("transit", (g, y5)); ("blackbody", (g, y6))]%string, s').
Proof.
  intros Hn g.
  unfold VF.learning_dashboard_data.
  cbn [for_each]. unfold bind, ret.
  set (nl := VF.default_noise_level).
  destruct (library_shape "sine" n_points nl s Hn)
    as (y1 & t1 & s1 & E1 & _).
  rewrite E1. cbv beta iota.
  destruct (library_shape "exponential" n_points nl s1 Hn)
    as (y2 & t2 & s2 & E2 & _).
  rewrite E2. cbv beta iota.
  destruct (library_shape "spectrum" n_points nl s2 Hn)
    as (y3 & t3 & s3 & E3 & _).
  rewrite E3. cbv beta iota.
  destruct (library_shape "lightcurve" n_points nl s3 Hn)
    as (y4 & t4 & s4 & E4 & _).
  rewrite E4. cbv beta iota.
  destruct (library_shape "transit" n_points nl s4 Hn)
    as (y5 & t5 & s5 & E5 & _).
  rewrite E5. cbv beta iota.
  destruct (library_shape "blackbody" n_points nl s5 Hn)
    as (y6 & t6 & s6 & E6 & _).
  rewrite E6. cbv beta iota.
  cbn [negb String.eqb Ascii.eqb Bool.eqb VF.dict_set].
  now exists y1, y2, y3, y4, y5, y6, s6.
Qed.

Section SelfTest.

Variable b : VF.Backends.

Lemma generation_test_passes (data_types : list string) (s : RandomState) :
  exists s', VF.generation_test data_types s = Ok (true, s').
Proof.
  revert s. induction data_types as [| dtype rest IH]; intros s.
  - now exists s.
  - cbn [VF.generation_test]. unfold bind.
    destruct (library_shape dtype 50 VF.default_noise_level s)
      as (y & t & s1 & E & L); [lia |].
    rewrite E. cbv beta iota.
    change (Z.to_nat 50) with 50%nat in *.
    rewrite grid_length, L. cbn [Nat.eqb andb].
    apply IH.
Qed.

Lemma static_test_runs (s : RandomState) :
  exists s', VF.static_test b s = Ok (VF.static_plot_saved b, s').
Proof.
  unfold VF.static_test, bind.
  destruct (library_shape "spectrum" 100 VF.default_noise_level s)
    as (y & t & s1 & E & _); [lia |].
  rewrite E. now exists s1.
Qed.

Lemma interactive_test_runs (s : RandomState) :
  exists s', VF.interactive_test b s = Ok (VF.interactive_plot_saved b, s').
Proof.
  unfold VF.interactive_test, bind.
  destruct (library_shape "lightcurve" 75 VF.default_noise_level s)
    as (y & t & s1 & E & _); [lia |].
  rewrite E. now exists s1.
Qed.

Lemma comparison_test_runs (s : RandomState) :
  VF.PLOTLY_AVAILABLE b = true ->
  exists s',
    VF.comparison_test b
      (VF.mkInstance VF.ACCESSIBLE_COLORS (map snd VF.ACCESSIBLE_COLORS)
         [("figure", "#34495E"); ("axes", "#2C3E50");
          ("grid", "#4A6278")]%string) s
    = Ok (VF.comparison_plot_saved b, s').
Proof.
  intros HP. unfold VF.comparison_test, bind.
  destruct (learning_data_run 50 s) as (y1 & y2 & y3 & y4 & y5 & y6 & s' & E);
    [lia |].
  rewrite E, HP. now exists s'.
Qed.

Lemma utilities_test_passes (s : RandomState) :
  exists s',
    VF.utilities_test
      (VF.mkInstance VF.ACCESSIBLE_COLORS (map snd VF.ACCESSIBLE_COLORS)
         [("figure", "#34495E"); ("axes", "#2C3E50");
          ("grid", "#4A6278")]%string) s
    = Ok (true, s').
Proof.
  unfold VF.utilities_test.
  change (VF.get_color _ "primary") with (Some "#3498DB"%string).
  cbv beta iota.
  change (negb (String.prefix "#" "#3498DB")) with false. cbv iota.
  unfold VF.__init__. cbn [String.eqb Ascii.eqb Bool.eqb nth_error
                           VF.WONG_PALETTE VF.palette length Nat.eqb negb].
  unfold bind.
  destruct (learning_data_run 75 s) as (y1 & y2 & y3 & y4 & y5 & y6 & s' & E);
    [lia |].
  rewrite E. now exists s'.
Qed.

End SelfTest.


(* ===================================================================== *)
(** ** Further properties of the diagnostic run *)
(* ===================================================================== *)





(** X21.  Whenever a run returns, its exit code is 0 if no recorded
    result has [FAIL] status and 1 otherwise; it is 1 when a required
    package cannot be imported; and uninstalling an optional component,
    which turns its result into a warning, makes no returning run raise
    and never changes the exit code. *)
Theorem X21_returned_exit_code_counts_failures_only
  (visual verbose : bool) (e : TF.Env) (out : TF.RunOutcome) :
  TF.run_all_tests visual verbose e = TF.Returned out ->
  (TF.exit_code out = 0%Z <->
   forall r, In r (TF.results (TF.all_results out)) -> TF.status r <> TF.FAIL)
  /\ (TF.exit_code out <> 0%Z -> TF.exit_code out = 1%Z)
  /\ (forall m, In m required_packages ->
        TF.import_module e m = TF.ImportError -> TF.exit_code out = 1%Z)
  /\ (forall m, In m optional_components ->
        exists out',
          TF.run_all_tests visual verbose (without m e) = TF.Returned out'
          /\ TF.exit_code out' = TF.exit_code out).
Proof.
  intros E.
  pose proof (run_returned _ _ _ _ E) as He.
  destruct (run_returns visual verbose e He) as (out0 & E0 & _ & _ & X & F & _).
  rewrite <- (run_returned_unique _ _ _ _ _ E E0) in X, F. clear out0 E0.
  split; [| split; [| split]].
  - rewrite <- fail_count_zero, X.
    destruct (fail_count _); simpl; split; intros H;
      try reflexivity; discriminate.
  - rewrite X. destruct (Nat.eqb _ 0); [intros H; now contradiction H |
                                         reflexivity].
  - intros m Hm Himp. rewrite X.
    destruct (Nat.eqb_spec (fail_count (TF.results (TF.all_results out))) 0)
      as [Z | Z]; [| reflexivity].
    exfalso. apply F in Z. destruct Z as [Z _].
    specialize (Z m Hm). unfold package_ok in Z. now rewrite Himp in Z.
  - intros m Hm.
    destruct (without_optional e m Hm) as [We Wc].
    destruct (run_returns visual verbose (without m e) (We He))
      as (out' & E' & _ & _ & X' & F' & _).
    exists out'. split; [exact E' |]. rewrite X, X'.
    destruct (Nat.eqb_spec (fail_count (TF.results (TF.all_results out'))) 0)
      as [Z' | Z'];
      destruct (Nat.eqb_spec (fail_count (TF.results (TF.all_results out))) 0)
        as [Z | Z];
      try reflexivity; exfalso.
    + apply Z, F, Wc, F', Z'.
    + apply Z', F', Wc, F, Z.
Qed.

Lemma X21_witness :
  exists out out',
    TF.run_all_tests true true healthy_env = TF.Returned out
    /\ TF.exit_code out = 0%Z
    /\ TF.run_all_tests true true (without "h5py" healthy_env)
       = TF.Returned out'
    /\ TF.exit_code out' = TF.exit_code out.
Proof.
  destruct (run_returns true true healthy_env healthy_escape_free)
    as (out & E & _ & _ & X & F & _).
  assert (Z : TF.exit_code out = 0%Z).
  { rewrite X, (proj2 F healthy_critical_ok). reflexivity. }
  destruct (X21_returned_exit_code_counts_failures_only
              true true healthy_env out E) as (_ & _ & _ & Hopt).
  destruct (Hopt "h5py"%string) as (out' & E' & X').
  { unfold optional_components. simpl. tauto. }
  exists out, out'. exact (conj E (conj Z (conj E' X'))).
Defined.

(* ===================================================================== *)
(** ** The statistics panel *)
(* ===================================================================== *)

Module NS := NumpyStats.

Section Reductions.

Lemma finite_is_fin (a : float64) : is_finite a = true -> exists r, a = Fin r.
Proof. destruct a; try discriminate. eauto. Qed.

Lemma between_finite (lo hi : R) (l : ndarray) :
  Forall (between lo hi) l -> all_finite l.
Proof.
  apply Forall_impl. intros a (r & -> & _). reflexivity.
Qed.

(** The running sum of entries between [lo] and [hi]. *)
Lemma sum_between (lo hi : R) (l : ndarray) (acc : R) :
  Forall (between lo hi) l ->
  exists q, fold_left fadd l (Fin acc) = Fin q
            /\ acc + INR (length l) * lo <= q <= acc + INR (length l) * hi.
Proof.
  intros H. revert acc. induction H as [| a l (r & -> & Hr) _ IH]; intros acc.
  - exists acc. simpl. split; [reflexivity | lra].
  - cbn [fold_left fadd]. destruct (IH (acc + r)) as (q & E & B).
    exists q. split; [exact E |].
    change (length (Fin r :: l)) with (S (length l)). rewrite S_INR. lra.
Qed.

Lemma mean_between (lo hi : R) (l : ndarray) :
  l <> [] -> Forall (between lo hi) l -> between lo hi (NS.mean l).
Proof.
  intros Hne H. unfold NS.mean, NS.asum.
  destruct (sum_between lo hi l 0 H) as (q & -> & B).
  assert (Hn : 0 < INR (length l)).
  { apply lt_0_INR. destruct l; [contradiction | simpl; lia]. }
  unfold of_nat. rewrite fdiv_fin by lra.
  exists (q / INR (length l)). split; [reflexivity |].
  split.
  - apply Rmult_le_reg_r with (INR (length l)); [exact Hn |].
    unfold Rdiv. rewrite Rmult_assoc, Rinv_l by lra. lra.
  - apply Rmult_le_reg_r with (INR (length l)); [exact Hn |].
    unfold Rdiv. rewrite Rmult_assoc, Rinv_l by lra. lra.
Qed.

(** The smallest entry: it is an entry, and no entry is below it. *)
Lemma fold_fmin_spec (l : ndarray) (m0 : R) :
  all_finite l ->
  exists m, fold_left NS.fmin l (Fin m0) = Fin m
            /\ In (Fin m) (Fin m0 :: l)
            /\ forall r, In (Fin r) (Fin m0 :: l) -> m <= r.
Proof.
  intros H. revert m0. induction H as [| a l Ha _ IH]; intros m0.
  - exists m0. split; [reflexivity |]. split; [now left |].
    intros r [E | []]. inversion E. lra.
  - destruct (finite_is_fin a Ha) as (v & ->).
    cbn [fold_left NS.fmin]. unfold flt.
    destruct (Rlt_dec v m0) as [Hlt | Hge].
    + destruct (IH v) as (m & E & HIn & Hmin).
      exists m. split; [exact E |]. split.
      * destruct HIn as [HIn | HIn]; [right; left; exact HIn | right; right; exact HIn].
      * intros r [Er | [Er | Hr]].
        -- inversion Er; subst. pose proof (Hmin v (or_introl eq_refl)). lra.
        -- inversion Er; subst. apply Hmin. now left.
        -- apply Hmin. now right.
    + destruct (IH m0) as (m & E & HIn & Hmin).
      exists m. split; [exact E |]. split.
      * destruct HIn as [HIn | HIn]; [left; exact HIn | right; right; exact HIn].
      * intros r [Er | [Er | Hr]].
        -- inversion Er; subst. apply Hmin. now left.
        -- inversion Er; subst. pose proof (Hmin m0 (or_introl eq_refl)). lra.
        -- apply Hmin. now right.
Qed.

(** The largest entry, likewise. *)
Lemma fold_fmax_spec (l : ndarray) (m0 : R) :
  all_finite l ->
  exists m, fold_left fmax l (Fin m0) = Fin m
            /\ In (Fin m) (Fin m0 :: l)
            /\ forall r, In (Fin r) (Fin m0 :: l) -> r <= m.
Proof.
  intros H. revert m0. induction H as [| a l Ha _ IH]; intros m0.
  - exists m0. split; [reflexivity |]. split; [now left |].
    intros r [E | []]. inversion E. lra.
  - destruct (finite_is_fin a Ha) as (v & ->).
    cbn [fold_left fmax]. unfold flt.
    destruct (Rlt_dec m0 v) as [Hlt | Hge].
    + destruct (IH v) as (m & E & HIn & Hmax).
      exists m. split; [exact E |]. split.
      * destruct HIn as [HIn | HIn]; [right; left; exact HIn | right; right; exact HIn].
      * intros r [Er | [Er | Hr]].
        -- inversion Er; subst. pose proof (Hmax v (or_introl eq_refl)). lra.
        -- inversion Er; subst. apply Hmax. now left.
        -- apply Hmax. now right.
    + destruct (IH m0) as (m & E & HIn & Hmax).
      exists m. split; [exact E |]. split.
      * destruct HIn as [HIn | HIn]; [left; exact HIn | right; right; exact HIn].
      * intros r [Er | [Er | Hr]].
        -- inversion Er; subst. apply Hmax. now left.
        -- inversion Er; subst. pose proof (Hmax m0 (or_introl eq_refl)). lra.
        -- apply Hmax. now right.
Qed.

End Reductions.

Section Order.

Lemma all_finite_no_nan (l : ndarray) :
  all_finite l -> existsb is_nan l = false.
Proof.
  induction 1 as [| a l Ha _ IH]; [reflexivity |].
  cbn [existsb]. rewrite IH. now destruct a.
Qed.

Lemma insert_Forall (P : float64 -> Prop) (v : float64) (l : ndarray) :
  P v -> Forall P l -> Forall P (NS.insert v l).
Proof.
  intros Hv H. induction H as [| w l Hw Hl IH]; cbn [NS.insert].
  - now constructor.
  - destruct (flt w v); constructor; auto.
Qed.

Lemma sort_Forall (P : float64 -> Prop) (l : ndarray) :
  Forall P l -> Forall P (NS.sort l).
Proof.
  unfold NS.sort. induction 1; cbn [fold_right]; [constructor |].
  now apply insert_Forall.
Qed.

Lemma insert_length (v : float64) (l : ndarray) :
  length (NS.insert v l) = S (length l).
Proof.
  induction l as [| w l IH]; cbn [NS.insert]; [reflexivity |].
  destruct (flt w v); simpl; auto.
Qed.

Lemma sort_length (l : ndarray) : length (NS.sort l) = length l.
Proof.
  unfold NS.sort. induction l as [| v l IH]; cbn [fold_right]; [reflexivity |].
  rewrite insert_length. simpl. now rewrite IH.
Qed.

Lemma slice_Forall {A : Type} (P : A -> Prop) (lo hi : nat) (l : list A) :
  Forall P l -> Forall P (NS.slice lo hi l).
Proof.
  intros H. unfold NS.slice. apply Forall_forall. intros x Hx.
  rewrite Forall_forall in H. apply H.
  rewrite <- (firstn_skipn lo l). apply in_or_app. right.
  rewrite <- (firstn_skipn (hi - lo) (skipn lo l)).
  apply in_or_app. now left.
Qed.

Lemma slice_length {A : Type} (lo hi : nat) (l : list A) :
  (hi <= length l)%nat -> length (NS.slice lo hi l) = (hi - lo)%nat.
Proof.
  intros H. unfold NS.slice. rewrite length_firstn, length_skipn. lia.
Qed.

Lemma nonempty_length {A : Type} (l : list A) : (0 < length l)%nat -> l <> [].
Proof. destruct l; simpl; [lia | discriminate]. Qed.

(** The median of finite entries between [lo] and [hi] lies there too. *)
Lemma median_between (lo hi : R) (l : ndarray) :
  l <> [] -> Forall (between lo hi) l -> between lo hi (NS.median l).
Proof.
  intros Hne H. unfold NS.median.
  destruct l as [| v l]; [contradiction |].
  rewrite (all_finite_no_nan _ (between_finite _ _ _ H)).
  set (part := NS.sort (v :: l)).
  assert (Hlen : length part = S (length l))
    by (unfold part; now rewrite sort_length).
  assert (Hpart : Forall (between lo hi) part) by now apply sort_Forall.
  assert (Hdiv : (length part / 2 < length part)%nat)
    by (apply Nat.div_lt; lia).
  destruct (Nat.odd (length part)) eqn:Hodd.
  - apply mean_between; [| now apply slice_Forall].
    apply nonempty_length. rewrite slice_length; lia.
  - apply mean_between; [| now apply slice_Forall].
    apply nonempty_length. rewrite slice_length; lia.
Qed.

(** The squared deviations from a value inside the band. *)
Lemma deviations_between (lo hi m : R) (l : ndarray) :
  lo <= m <= hi ->
  Forall (between lo hi) l ->
  Forall (between 0 ((hi - lo) * (hi - lo)))
    (zip_with fmul (sub_s l (Fin m)) (sub_s l (Fin m))).
Proof.
  intros Hm H. unfold sub_s.
  induction H as [| a l (r & -> & Hr) _ IH]; cbn [map zip_with];
    constructor; [| exact IH].
  cbn [fsub fmul]. exists ((r - m) * (r - m)). split; [reflexivity |].
  split; [apply Rle_0_sqr | nra].
Qed.

(** The standard deviation is finite, non-negative and at most the
    width of the band. *)
Lemma std_between (lo hi : R) (l : ndarray) :
  l <> [] -> Forall (between lo hi) l -> between 0 (hi - lo) (NS.std l).
Proof.
  intros Hne H. unfold NS.std.
  destruct (mean_between lo hi l Hne H) as (m & -> & Hm).
  pose proof (deviations_between lo hi m l Hm H) as D.
  apply mean_between in D.
  - destruct D as (q & -> & Hq). cbn [NS.fsqrt].
    destruct (Rlt_dec q 0) as [Hneg | _]; [lra |].
    exists (sqrt q). split; [reflexivity |].
    split; [apply sqrt_pos |].
    assert (Hw : 0 <= hi - lo) by lra.
    rewrite <- (sqrt_square (hi - lo)) by exact Hw.
    apply sqrt_le_1_alt. lra.
  - apply nonempty_length. unfold sub_s.
    rewrite zip_with_length, !length_map.
    destruct l; [contradiction | simpl; lia].
Qed.

(** The extremes of a non-empty array of finite entries: both are
    entries, and every entry lies between them. *)
Lemma extremes (l : ndarray) (s : RandomState) :
  l <> [] -> all_finite l ->
  exists lo hi,
    NS.amin l s = Ok (Fin lo, s) /\ amax l s = Ok (Fin hi, s)
    /\ In (Fin lo) l /\ In (Fin hi) l
    /\ Forall (between lo hi) l.
Proof.
  intros Hne H. destruct l as [| v l]; [contradiction |].
  inversion H as [| ? ? Hv Hl]; subst.
  destruct (finite_is_fin v Hv) as (v0 & ->).
  destruct (fold_fmin_spec l v0 Hl) as (lo & Elo & Ilo & Hlo).
  destruct (fold_fmax_spec l v0 Hl) as (hi & Ehi & Ihi & Hhi).
  exists lo, hi. unfold NS.amin, amax, ret. rewrite Elo, Ehi.
  repeat split; auto.
  apply Forall_forall. intros a Ha.
  assert (Fa : is_finite a = true).
  { unfold all_finite in H. rewrite Forall_forall in H. now apply H. }
  destruct (finite_is_fin a Fa) as (r & ->).
  exists r. split; [reflexivity |]. split; [now apply Hlo | now apply Hhi].
Qed.

End Order.

(** *** Every series of the dashboard is finite *)

Section Finite.

Lemma cumsum_from_finite (l : ndarray) (acc : R) :
  all_finite l -> all_finite (cumsum_from (Fin acc) l).
Proof.
  intros H. revert acc. induction H as [| a l Ha _ IH]; intros acc;
    cbn [cumsum_from]; [constructor |].
  destruct (finite_is_fin a Ha) as (r & ->). cbn [fadd].
  constructor; [reflexivity | apply IH].
Qed.

Lemma cumsum_finite (l : ndarray) : all_finite l -> all_finite (cumsum l).
Proof.
  intros H. destruct H as [| a l Ha Hl]; cbn [cumsum]; [constructor |].
  destruct (finite_is_fin a Ha) as (r & ->).
  constructor; [reflexivity | now apply cumsum_from_finite].
Qed.

Lemma draws_finite (tape : nat -> R) (from n : nat) :
  all_finite (draws tape from n).
Proof.
  unfold draws, all_finite. apply Forall_forall. intros a Ha.
  apply in_map_iff in Ha. destruct Ha as (k & <- & _). reflexivity.
Qed.

Lemma map_finite (f : float64 -> float64) (l : ndarray) :
  (forall r, is_finite (f (Fin r)) = true) ->
  all_finite l -> all_finite (map f l).
Proof.
  intros Hf H. induction H as [| a l Ha _ IH]; cbn [map]; constructor; auto.
  destruct (finite_is_fin a Ha) as (r & ->). apply Hf.
Qed.

Lemma zip_add_finite (a b : ndarray) :
  all_finite a -> all_finite b -> all_finite (zip_with fadd a b).
Proof.
  intros Ha. revert b. induction Ha as [| v a Hv _ IH]; intros b Hb;
    [constructor |].
  destruct Hb as [| w b Hw Hb]; cbn [zip_with]; constructor; [| now apply IH].
  destruct (finite_is_fin v Hv) as (r & ->).
  destruct (finite_is_fin w Hw) as (r' & ->). reflexivity.
Qed.

Lemma all_finite_nth (l : ndarray) :
  (forall i, (i < length l)%nat -> is_finite (nth i l NaN) = true) ->
  all_finite l.
Proof.
  intros H. apply Forall_forall. intros a Ha.
  destruct (In_nth l a NaN Ha) as (i & Hi & <-). now apply H.
Qed.

Lemma not_closed_form (data_type : string) (n_points : Z)
  (noise_level : float64) (s : RandomState) :
  ~ In data_type closed_form_types ->
  Dashboard._generate_data data_type n_points noise_level s
  = Dashboard._generate_data "random" n_points noise_level s.
Proof.
  intros Hout. unfold closed_form_types in Hout. simpl in Hout.
  unfold Dashboard._generate_data.
  repeat match goal with
    | |- context [(data_type =? ?c)%string] =>
        replace (data_type =? c)%string with false
          by (symmetry; apply String.eqb_neq; intros ->; tauto)
    end.
  reflexivity.
Qed.

(** With a finite noise level every data type, listed or not, gives
    [n_points] finite values over the grid. *)
Lemma dashboard_finite (data_type : string) (n_points : Z) (a : R)
  (s : RandomState) :
  (1 <= n_points)%Z ->
  exists y s',
    Dashboard._generate_data data_type n_points (Fin a) s
    = Ok ((grid (Z.to_nat n_points), y), s')
    /\ length y = Z.to_nat n_points
    /\ all_finite y.
Proof.
  intros Hn.
  destruct (dashboard_shape data_type n_points (Fin a) s Hn)
    as (y & s' & E & Hlen).
  exists y, s'. split; [exact E |]. split; [exact Hlen |].
  destruct (in_dec string_dec data_type closed_form_types) as [HIn | Hout].
  - destruct (dashboard_noise n_points a s Hn data_type HIn)
      as (y0 & ya & _ & Ea & Hnth).
    rewrite E in Ea. cbn [value] in Ea. injection Ea as <-.
    apply all_finite_nth. intros i Hi. rewrite Hlen in Hi.
    destruct (Hnth i Hi) as (r & _ & ->). reflexivity.
  - rewrite not_closed_form, dashboard_random_walk in E by (assumption || lia).
    injection E as <- _.
    apply zip_add_finite.
    + apply cumsum_finite. unfold mul_s.
      apply map_finite; [reflexivity | apply draws_finite].
    + unfold s_mul. apply map_finite; [reflexivity | apply draws_finite].
Qed.

End Finite.

(** *** The callback *)

Section Callback.

Variables (data_type : string) (n_points : Z) (noise_level : float64).
Variable s : RandomState.

(** Once the generator has returned a non-empty series, the callback
    returns, and its panels hold the series and its statistics. *)
Lemma update_dashboard_run (x y : ndarray) (s' : RandomState) :
  Dashboard._generate_data data_type n_points noise_level s = Ok ((x, y), s') ->
  y <> [] ->
  exists lo hi,
    NS.amin y s' = Ok (lo, s') /\ amax y s' = Ok (hi, s')
    /\ Dashboard.update_dashboard data_type n_points noise_level s
       = Ok (Dashboard.mkPanels x y y
               (Dashboard.info_get Dashboard.DATA_TYPE_INFO data_type
                  Dashboard.sine_info)
               (Dashboard.mkStatistics (NS.mean y) (NS.std y) (NS.median y)
                  lo hi (fsub hi lo))
               n_points noise_level, s').
Proof.
  intros E Hne. unfold Dashboard.update_dashboard.
  rewrite (bind_run _ _ _ _ _ E).
  destruct y as [| v l]; [contradiction |].
  do 2 eexists. split; [reflexivity |]. split; reflexivity.
Qed.

End Callback.

(** X18.  The callback labels its plots from [DATA_TYPE_INFO]: for each of
    the six data types of the dropdown the labels are that type's own
    entry, while for any other data type the labels are those of the
    sine wave although the series plotted, and binned by the histogram,
    is the random walk. *)
Theorem X18_labels_follow_the_type_or_fall_back_to_sine
  (data_type : string) (n_points : Z) (noise_level : float64)
  (s : RandomState) :
  (1 <= n_points)%Z ->
  exists p s',
    Dashboard.update_dashboard data_type n_points noise_level s = Ok (p, s')
    /\ Dashboard._generate_data data_type n_points noise_level s
       = Ok ((Dashboard.main_x p, Dashboard.main_y p), s')
    /\ Dashboard.hist_x p = Dashboard.main_y p
    /\ Dashboard.points p = n_points
    /\ Dashboard.noise p = noise_level
    /\ (In data_type Dashboard.data_type_options ->
        In (data_type, Dashboard.info p) Dashboard.DATA_TYPE_INFO)
    /\ (~ In data_type Dashboard.data_type_options ->
        Dashboard.info p = Dashboard.sine_info
        /\ Dashboard.title (Dashboard.info p) = "Sine Wave"%string
        /\ Dashboard._generate_data "random" n_points noise_level s
           = Ok ((Dashboard.main_x p, Dashboard.main_y p), s')).
Proof.
  intros Hn.
  destruct (dashboard_shape data_type n_points noise_level s Hn)
    as (y & s' & E & Hlen).
  assert (Hne : y <> []) by (apply nonempty_length; lia).
  destruct (update_dashboard_run _ _ _ _ _ _ _ E Hne) as (lo & hi & _ & _ & U).
  do 2 eexists. split; [exact U |].
  cbn [Dashboard.main_x Dashboard.main_y Dashboard.hist_x Dashboard.info
       Dashboard.points Dashboard.noise].
  split; [exact E |]. do 3 (split; [reflexivity |]). split.
  - intros HIn. unfold Dashboard.data_type_options in HIn.
    repeat (destruct HIn as [<- | HIn]; [cbn; tauto |]). contradiction.
  - intros Hout.
    rewrite <- (dashboard_else n_points noise_level s data_type Hout), E.
    unfold Dashboard.data_type_options in Hout. simpl in Hout.
    assert (I : Dashboard.info_get Dashboard.DATA_TYPE_INFO data_type
                  Dashboard.sine_info = Dashboard.sine_info).
    { unfold Dashboard.DATA_TYPE_INFO. cbn [Dashboard.info_get].
      repeat match goal with
        | |- context [(?c =? data_type)%string] =>
            replace (c =? data_type)%string with false
              by (symmetry; apply String.eqb_neq; intros <-; tauto)
        end.
      reflexivity. }
    rewrite I. repeat split; reflexivity.
Qed.

Lemma X18_witness :
  (1 <= 3)%Z /\ ~ In "linear"%string Dashboard.data_type_options /\
  exists p s',
    Dashboard.update_dashboard "linear" 3 (Fin 0) example_source = Ok (p, s')
    /\ Dashboard.title (Dashboard.info p) = "Sine Wave"%string
    /\ Dashboard._generate_data "random" 3 (Fin 0) example_source
       = Ok ((Dashboard.main_x p, Dashboard.main_y p), s').
Proof.
  assert (H1 : (1 <= 3)%Z) by lia.
  assert (H2 : ~ In "linear"%string Dashboard.data_type_options).
  { simpl. intros H.
    repeat (destruct H as [H | H]; [discriminate H |]). exact H. }
  split; [exact H1 |]. split; [exact H2 |].
  destruct (X18_labels_follow_the_type_or_fall_back_to_sine
              "linear" 3 (Fin 0) example_source H1)
    as (p & s' & U & _ & _ & _ & _ & _ & F).
  destruct (F H2) as (_ & T & G).
  exists p, s'. split; [exact U |]. split; [exact T | exact G].
Defined.



Lemma dashboard_empty (data_type : string) (noise_level : float64)
  (s : RandomState) :
  exists s',
    Dashboard._generate_data data_type 0 noise_level s = Ok (([], []), s').
Proof.
  unfold Dashboard._generate_data.
  destruct (data_type =? "sine")%string;
    [| destruct (data_type =? "exponential")%string;
       [| destruct (data_type =? "spectrum")%string;
          [| destruct (data_type =? "lightcurve")%string;
             [| destruct (data_type =? "transit")%string]]]];
    run; eexists; reflexivity.
Qed.

(** X20.  For [n_points <= 0] the callback raises [ValueError] for every
    data type and noise level: a negative number of points is refused by
    [np.linspace], and with no points [np.min] has nothing to reduce. *)
Theorem X20_callback_needs_a_point
  (data_type : string) (n_points : Z) (noise_level : float64)
  (s : RandomState) :
  (n_points <= 0)%Z ->
  Dashboard.update_dashboard data_type n_points noise_level s
  = Raise ValueError.
Proof.
  intros Hn. unfold Dashboard.update_dashboard.
  destruct (Z.eq_dec n_points 0) as [-> | Hneg].
  - destruct (dashboard_empty data_type noise_level s) as (s' & G).
    rewrite (bind_run _ _ _ _ _ G). reflexivity.
  - apply bind_raise. unfold Dashboard._generate_data.
    apply bind_raise. apply linspace_negative. lia.
Qed.

Lemma X20_witness :
  (0 <= 0)%Z
  /\ Dashboard.update_dashboard "sine" 0 (Fin 0) example_source
     = Raise ValueError.
Proof.
  assert (H : (0 <= 0)%Z) by lia.
  exact (conj H (X20_callback_needs_a_point "sine" 0 (Fin 0) example_source H)).
Defined.
